(** * chinese_memorial_calendar.py: a shallow embedding

    The program turns remembrance dates (fixed solar days, lunar festivals
    and death anniversaries given as lunar dates) into all-day calendar
    events.  This file embeds [ChineseMemorialCalendar] and the parts of the
    Python runtime and of the packages it calls ([datetime], [ics],
    [lunarcalendar]) that its behaviour depends on, and proves properties of
    the methods.

    Conventions:
    - Python integers are [Z]; Python strings are [string] (UTF-8 bytes).
    - A Python call that can raise returns a [result]; exceptions are
      values of [exn] and propagate through [bind].
    - [datetime] follows CPython's proleptic Gregorian arithmetic on day
      ordinals ([_ymd2ord], [_ord2ymd]).
    - The lunar converter of the [lunarcalendar] package is not part of the
      program: it is an interface ([Converter]) that the methods are
      parameterised by.  A table-driven instance covering a few lunar years
      is given for evaluating the methods on concrete years.
    - [ics.Event] follows the property setters, the [end] property and
      [make_all_day] of the package's release 0.7, the one whose
      [Calendar.events] is a set, as [calendar.events.add] needs.
    - Whether a directory can be created or a file opened is for the
      operating system to say: [FileSystem] is the interface for its
      answers, with an instance for the examples. *)

From Stdlib Require Import ZArith Lia List String Ascii Bool.
From stdpp Require Import base option list gmap strings pretty.
Import ListNotations.

Local Open Scope string_scope.
Local Open Scope Z_scope.

(** ** Python runtime: exceptions and results *)

Inductive exn : Type :=
| ValueError (msg : string)
| OverflowError (msg : string)
| TypeError (msg : string)
| KeyError (key : string)
| AttributeError (msg : string)
| FileNotFoundError (msg : string)
| OSError (msg : string)
| DateNotExist (msg : string).

Inductive result (A : Type) : Type :=
| Ok (a : A)
| Raise (e : exn).

Arguments Ok {A} a.
Arguments Raise {A} e.

Definition bind {A B : Type} (r : result A) (k : A -> result B) : result B :=
  match r with
  | Ok a => k a
  | Raise e => Raise e
  end.

Declare Scope py_scope.
Delimit Scope py_scope with py.
Notation "'let*' x ':=' r 'in' k" := (bind r (fun x => k))
  (at level 10, x name, r at level 100, k at level 200) : py_scope.
Local Open Scope py_scope.

(** [for x in xs: ys.append(f(x))] where [f] may raise. *)
Fixpoint mapM {A B : Type} (f : A -> result B) (xs : list A) : result (list B) :=
  match xs with
  | [] => Ok []
  | x :: xs' =>
      let* y := f x in
      let* ys := mapM f xs' in
      Ok (y :: ys)
  end.

(** ** Python strings *)

Module Str.

(** [s.replace(c, r)] for a one-character pattern [c]. *)
Fixpoint replace (c : ascii) (r : string) (s : string) : string :=
  match s with
  | EmptyString => EmptyString
  | String a s' =>
      if Ascii.eqb a c then r ++ replace c r s' else String a (replace c r s')
  end.

(** [s.lower()] for a string whose cased letters are ASCII letters: these
    are lower-cased and the bytes of the other characters (such as CJK
    characters, which have no case) are kept.  Python also lower-cases
    cased letters outside ASCII; for a string with such letters this gives
    the result up to those letters. *)
Definition lower_ascii (a : ascii) : ascii :=
  let n := N_of_ascii a in
  if ((65 <=? n) && (n <=? 90))%N then ascii_of_N (n + 32) else a.

Fixpoint lower (s : string) : string :=
  match s with
  | EmptyString => EmptyString
  | String a s' => String (lower_ascii a) (lower s')
  end.

Definition last_char (s : string) : option ascii :=
  match rev (list_ascii_of_string s) with
  | [] => None
  | a :: _ => Some a
  end.

Definition starts_with_slash (s : string) : bool :=
  match s with
  | String a _ => Ascii.eqb a "/"%char
  | EmptyString => false
  end.

(** [str(n).zfill(w)] for a non-negative [n]. *)
Definition zfill (w : nat) (s : string) : string :=
  string_of_list_ascii (repeat "0"%char (w - String.length s)) ++ s.

End Str.

(** [os.path.join(a, b)] on POSIX paths. *)
Definition os_path_join (a b : string) : string :=
  if Str.starts_with_slash b then b
  else match Str.last_char a with
       | None => b
       | Some c => if Ascii.eqb c "/"%char then a ++ b else a ++ "/" ++ b
       end.

(** ** datetime *)

Module datetime.

Definition MINYEAR : Z := 1.
Definition MAXYEAR : Z := 9999.
Definition _MAXORDINAL : Z := 3652059.

Definition _is_leap (year : Z) : bool :=
  (year mod 4 =? 0) && (negb (year mod 100 =? 0) || (year mod 400 =? 0)).

Definition _DAYS_IN_MONTH (month : Z) : Z :=
  match month with
  | 1 => 31 | 2 => 28 | 3 => 31 | 4 => 30 | 5 => 31 | 6 => 30
  | 7 => 31 | 8 => 31 | 9 => 30 | 10 => 31 | 11 => 30 | 12 => 31
  | _ => -1
  end.

Definition _DAYS_BEFORE_MONTH (month : Z) : Z :=
  match month with
  | 1 => 0 | 2 => 31 | 3 => 59 | 4 => 90 | 5 => 120 | 6 => 151
  | 7 => 181 | 8 => 212 | 9 => 243 | 10 => 273 | 11 => 304 | 12 => 334
  | _ => -1
  end.

Definition _days_before_year (year : Z) : Z :=
  let y := year - 1 in
  y * 365 + y / 4 - y / 100 + y / 400.

Definition _days_in_month (year month : Z) : Z :=
  if (month =? 2) && _is_leap year then 29 else _DAYS_IN_MONTH month.

Definition _days_before_month (year month : Z) : Z :=
  _DAYS_BEFORE_MONTH month + (if (2 <? month) && _is_leap year then 1 else 0).

Definition _ymd2ord (year month day : Z) : Z :=
  _days_before_year year + _days_before_month year month + day.

Definition _DI400Y : Z := 146097.
Definition _DI100Y : Z := 36524.
Definition _DI4Y : Z := 1461.

Definition _ord2ymd (n0 : Z) : Z * Z * Z :=
  let n := n0 - 1 in
  let n400 := n / _DI400Y in
  let n := n mod _DI400Y in
  let year := n400 * 400 + 1 in
  let n100 := n / _DI100Y in
  let n := n mod _DI100Y in
  let n4 := n / _DI4Y in
  let n := n mod _DI4Y in
  let n1 := n / 365 in
  let n := n mod 365 in
  let year := year + n100 * 100 + n4 * 4 + n1 in
  if (n1 =? 4) || (n100 =? 4) then (year - 1, 12, 31)
  else
    let leapyear := (n1 =? 3) && (negb (n4 =? 24) || (n100 =? 3)) in
    let month := Z.shiftr (n + 50) 5 in
    let preceding :=
      _DAYS_BEFORE_MONTH month + (if (2 <? month) && leapyear then 1 else 0) in
    if n <? preceding then
      let month := month - 1 in
      let preceding :=
        preceding - (_DAYS_IN_MONTH month
                     + (if (month =? 2) && leapyear then 1 else 0)) in
      (year, month, n - preceding + 1)
    else (year, month, n - preceding + 1).

(** A [timedelta], normalised as CPython keeps it:
    [0 <= seconds < 86400] and [0 <= microseconds < 1000000]. *)
Record timedelta : Type := mk_timedelta {
  td_days : Z;
  td_seconds : Z;
  td_microseconds : Z
}.

(** [timedelta(days=d, seconds=s, microseconds=us)] *)
Definition timedelta_new (d s us : Z) : timedelta :=
  let s := s + us / 1000000 in
  let us := us mod 1000000 in
  let d := d + s / 86400 in
  let s := s mod 86400 in
  mk_timedelta d s us.

Definition timedelta_days (d : Z) : timedelta := timedelta_new d 0 0.

Definition timedelta_neg (t : timedelta) : timedelta :=
  timedelta_new (- td_days t) (- td_seconds t) (- td_microseconds t).

Definition timedelta_add (a b : timedelta) : timedelta :=
  timedelta_new (td_days a + td_days b) (td_seconds a + td_seconds b)
                (td_microseconds a + td_microseconds b).

(** A time zone object of class [datetime.timezone], as
    [datetime.now().astimezone().tzinfo] is: a fixed offset from UTC, in
    seconds, and a name. *)
Record tzinfo : Type := timezone {
  utcoffset : Z;
  tzname : string
}.

Record t : Type := mk {
  year : Z;
  month : Z;
  day : Z;
  hour : Z;
  minute : Z;
  second : Z;
  microsecond : Z;
  tz : option tzinfo
}.

Definition check_date_fields (y m d : Z) : bool :=
  (MINYEAR <=? y) && (y <=? MAXYEAR) && (1 <=? m) && (m <=? 12)
  && (1 <=? d) && (d <=? _days_in_month y m).

Definition check_time_fields (h mi s us : Z) : bool :=
  (0 <=? h) && (h <=? 23) && (0 <=? mi) && (mi <=? 59)
  && (0 <=? s) && (s <=? 59) && (0 <=? us) && (us <=? 999999).

(** The invariant of every [datetime] object. *)
Definition valid (dt : t) : bool :=
  check_date_fields (year dt) (month dt) (day dt)
  && check_time_fields (hour dt) (minute dt) (second dt) (microsecond dt).

(** The arguments of the constructor are read as C integers. *)
Definition fits_c_int (z : Z) : bool :=
  (-2147483648 <=? z) && (z <=? 2147483647).

(** [datetime(year, month, day, tzinfo=tz)]: [OverflowError] for an
    argument that is no C integer, [ValueError] for one outside the
    calendar. *)
Definition new (y m d : Z) (z : option tzinfo) : result t :=
  if fits_c_int y && fits_c_int m && fits_c_int d then
    if check_date_fields y m d then Ok (mk y m d 0 0 0 0 z)
    else Raise (ValueError
                  (if (MINYEAR <=? y) && (y <=? MAXYEAR) then
                     if (1 <=? m) && (m <=? 12)
                     then "day is out of range for month"
                     else "month must be in 1..12"
                   else "year " ++ pretty y ++ " is out of range"))
  else Raise (OverflowError
                (if (2147483647 <? y) || (2147483647 <? m) || (2147483647 <? d)
                 then "signed integer is greater than maximum"
                 else "signed integer is less than minimum")).

(** [dt.replace(hour=0, minute=0, second=0, microsecond=0)] *)
Definition replace_midnight (dt : t) : t :=
  mk (year dt) (month dt) (day dt) 0 0 0 0 (tz dt).

Definition toordinal (dt : t) : Z := _ymd2ord (year dt) (month dt) (day dt).

(** [dt + delta] *)
Definition add (dt : t) (delta : timedelta) : result t :=
  let d := timedelta_add
             (timedelta_new (toordinal dt)
                (hour dt * 3600 + minute dt * 60 + second dt)
                (microsecond dt))
             delta in
  let h := td_seconds d / 3600 in
  let rem := td_seconds d mod 3600 in
  let mi := rem / 60 in
  let s := rem mod 60 in
  if (0 <? td_days d) && (td_days d <=? _MAXORDINAL) then
    let '(y, m, dd) := _ord2ymd (td_days d) in
    Ok (mk y m dd h mi s (td_microseconds d) (tz dt))
  else Raise (OverflowError "date value out of range").

(** The datetime [n] days after [dt] at the same time of day:
    [datetime.combine(date.fromordinal(dt.toordinal() + n), dt.timetz())]. *)
Definition shifted (dt : t) (n : Z) : t :=
  let '(y, m, d) := _ord2ymd (toordinal dt + n) in
  mk y m d (hour dt) (minute dt) (second dt) (microsecond dt) (tz dt).

(** [dt - delta] *)
Definition sub_delta (dt : t) (delta : timedelta) : result t :=
  add dt (timedelta_neg delta).

(** [a - b] for two datetimes carrying the same [tzinfo]. *)
Definition sub (a b : t) : timedelta :=
  timedelta_new (toordinal a - toordinal b)
    ((second a + minute a * 60 + hour a * 3600)
     - (second b + minute b * 60 + hour b * 3600))
    (microsecond a - microsecond b).

(** The instant of [dt] in microseconds, counted from the same origin for
    every time zone.  A datetime without time zone counts as UTC, which is
    how [arrow], in which [ics] keeps its times, reads it. *)
Definition _instant (dt : t) : Z :=
  (toordinal dt * 86400 + hour dt * 3600 + minute dt * 60 + second dt
   - match tz dt with Some z => utcoffset z | None => 0 end) * 1000000
  + microsecond dt.

(** [a < b] and [a == b]: aware datetimes are compared as instants. *)
Definition ltb (a b : t) : bool := _instant a <? _instant b.
Definition eqb (a b : t) : bool := _instant a =? _instant b.

(** [a.date() <= b.date()] and [a.date() < b.date()] *)
Definition date_le (a b : t) : Prop := toordinal a <= toordinal b.
Definition date_lt (a b : t) : Prop := toordinal a < toordinal b.

(** [datetime.combine(dt.date(), time.min, dt.tzinfo)]: the date of [dt]. *)
Definition date (dt : t) : t := replace_midnight dt.

(** [str(dt.date())]: ISO format of the date part. *)
Definition date_isoformat (dt : t) : string :=
  Str.zfill 4 (pretty (year dt)) ++ "-" ++ Str.zfill 2 (pretty (month dt))
  ++ "-" ++ Str.zfill 2 (pretty (day dt)).

End datetime.


(** ** Values read from the YAML configuration *)

(** The scalars the program meets as field values of an anniversary entry. *)
Inductive pyval : Type :=
| PyNone
| PyInt (z : Z)
| PyStr (s : string).

(** [bool(v)] *)
Definition truthy (v : pyval) : bool :=
  match v with
  | PyNone => false
  | PyInt z => negb (z =? 0)
  | PyStr s => negb (String.eqb s "")
  end.

(** [str(v)], as an f-string formats a value. *)
Definition py_str (v : pyval) : string :=
  match v with
  | PyNone => "None"
  | PyInt z => pretty z
  | PyStr s => s
  end.

(** [a or b] on an optional integer argument. *)
Definition py_or (a : option Z) (b : Z) : Z :=
  match a with
  | Some z => if z =? 0 then b else z
  | None => b
  end.

Definition nl : string := String (ascii_of_nat 10) EmptyString.

(** ** lunarcalendar: the interface the program uses *)

Module Solar.
Record t : Type := mk { year : Z; month : Z; day : Z }.

(** The triple is a date of the Gregorian calendar of [datetime]. *)
Definition is_date (s : t) : bool :=
  datetime.check_date_fields (year s) (month s) (day s).

(** [datetime(s.year, s.month, s.day, tzinfo=z)] when [s] is a date. *)
Definition to_datetime (s : t) (z : datetime.tzinfo) : datetime.t :=
  datetime.mk (year s) (month s) (day s) 0 0 0 0 (Some z).
End Solar.

Module Lunar.
Record t : Type := mk { year : Z; month : Z; day : Z; isleap : bool }.
End Lunar.

(** [lunarcalendar.Converter].  A conversion either returns a date or
    raises (the package signals a date that does not exist by an exception). *)
Class Converter : Type := {
  Lunar2Solar : Lunar.t -> result Solar.t;
  Solar2Lunar : Solar.t -> result Lunar.t
}.

(** ** ics: events and calendars *)

Module ics.

(** An [ics.Event]: the attributes the program sets and the package
    keeps.  [all_day] says that [_begin_precision] is ['day'].  The
    program never gives a duration, so [_duration] stays [None] and is
    left out.  Times are kept as the datetimes they were made from. *)
Record Event : Type := mkEvent {
  name : option string;
  begin : option datetime.t;
  _end_time : option datetime.t;
  all_day : bool;
  description : option string
}.

(** [ics.Event()] *)
Definition Event_new : Event := mkEvent None None None false None.

Definition set_name (e : Event) (s : string) : Event :=
  mkEvent (Some s) (begin e) (_end_time e) (all_day e) (description e).

(** [event.begin = d]: refused when [d] is after the end; the precision
    goes back to ['second']. *)
Definition set_begin (e : Event) (d : datetime.t) : result Event :=
  match _end_time e with
  | Some en =>
      if datetime.ltb en d then Raise (ValueError "Begin must be before end")
      else Ok (mkEvent (name e) (Some d) (_end_time e) false (description e))
  | None => Ok (mkEvent (name e) (Some d) (_end_time e) false (description e))
  end.

(** [event.end = d]: refused when [d] is before the begin. *)
Definition set_end (e : Event) (d : datetime.t) : result Event :=
  match begin e with
  | Some b =>
      if datetime.ltb d b then Raise (ValueError "End must be after begin")
      else Ok (mkEvent (name e) (begin e) (Some d) (all_day e) (description e))
  | None => Ok (mkEvent (name e) (begin e) (Some d) (all_day e) (description e))
  end.

Definition set_description (e : Event) (s : string) : Event :=
  mkEvent (name e) (begin e) (_end_time e) (all_day e) (Some s).

(** [event.end]: the end that was set; without one, the day after the
    begin for an all-day event and the begin itself otherwise. *)
Definition _end (e : Event) : result (option datetime.t) :=
  match _end_time e with
  | Some d => Ok (Some d)
  | None =>
      match begin e with
      | Some b =>
          if all_day e then
            let* d := datetime.add b (datetime.timedelta_days 1) in Ok (Some d)
          else Ok (Some b)
      | None => Ok None
      end
  end.

(** [event.make_all_day()]: nothing for an all-day event; otherwise the
    begin moves to the start of its day and the event spans every day up
    to the day of its end: no end is kept when that is the day of the
    begin, and else the end becomes the day after the day of the end. *)
Definition make_all_day (e : Event) : result Event :=
  if all_day e then Ok e
  else
    match begin e with
    | None => Raise (AttributeError "'NoneType' object has no attribute 'floor'")
    | Some b =>
        let begin_day := datetime.replace_midnight b in
        let* en := _end e in
        match en with
        | None => Raise (AttributeError "'NoneType' object has no attribute 'floor'")
        | Some en =>
            let end_day := datetime.replace_midnight en in
            if datetime.eqb begin_day end_day then
              Ok (mkEvent (name e) (Some begin_day) None true (description e))
            else
              let* next := datetime.add end_day (datetime.timedelta_days 1) in
              Ok (mkEvent (name e) (Some begin_day) (Some next) true
                          (description e))
        end
    end.

(** [ics.Calendar]: the events added to it. *)
Definition Calendar : Type := list Event.

End ics.

(** ** The world outside the process: standard output and the file system *)

Record world : Type := mkWorld {
  stdout : list string;              (* lines printed, oldest first *)
  files : list (string * ics.Calendar); (* files written, oldest first; the
                                          text of a file is the serialised
                                          calendar *)
  dirs : list string                 (* directories asked for and granted,
                                        oldest first *)
}.

Definition print (w : world) (line : string) : world :=
  mkWorld (stdout w ++ [line])%list (files w) (dirs w).

(** What the operating system answers when the program, having got as far
    as [w], asks for a directory or opens a file for writing: the exception
    it raises, if any.  For the empty path [os.makedirs] always raises. *)
Class FileSystem : Type := {
  makedirs_raises : world -> string -> option exn;
  open_raises : world -> string -> option exn;
  makedirs_empty : forall w, is_Some (makedirs_raises w "")
}.

Section FileOperations.

Context {filesystem : FileSystem}.

(** [os.makedirs(path, exist_ok=True)] *)
Definition os_makedirs (w : world) (path : string) : result world :=
  match makedirs_raises w path with
  | Some e => Raise e
  | None => Ok (mkWorld (stdout w) (files w) (dirs w ++ [path])%list)
  end.

(** [with open(path, 'w', encoding='utf-8') as f: f.write(str(c.serialize()))] *)
Definition write_file (w : world) (path : string) (c : ics.Calendar)
    : result world :=
  match open_raises w path with
  | Some e => Raise e
  | None => Ok (mkWorld (stdout w) (files w ++ [(path, c)])%list (dirs w))
  end.

End FileOperations.

(** An item of the list under [anniversaries]: a mapping from field names
    to scalars, or a scalar (a nested list behaves like one here). *)
Inductive item : Type :=
| Mapping (entry : gmap string pyval)
| Scalar (v : pyval).

(** What the document has under the key [anniversaries]: a list, or a
    scalar (null included). *)
Inductive node : Type :=
| Sequence (items : list item)
| Leaf (v : pyval).

(** What [open] and [yaml.safe_load] make of the configuration file: the
    file does not exist, it cannot be read for another reason (the
    exception is [e]), it is no YAML, or it parses.  A parsed document is
    kept as far as the program reads it: a mapping, of which the key
    [anniversaries] matters; [None] is the empty document. *)
Inductive config_file : Type :=
| FileNotFound
| ReadError (e : exn)
| YAMLError (msg : string)
| Parsed (config : option (gmap string node)).

(** ** class ChineseMemorialCalendar *)

(** An element of [self.anniversaries]: the dictionary built by
    [load_anniversaries_config]. *)
Record anniversary : Type := mkAnniversary {
  name : pyval;
  chinese_name : pyval;
  lunar_month : pyval;
  lunar_day : pyval;
  notes : pyval
}.

Record ChineseMemorialCalendar : Type := mkSelf {
  year : Z;
  timezone : datetime.tzinfo;
  anniversaries : list anniversary;
  output_dir : string
}.

(** [__init__]; [local_tz] is the time zone of the machine.  The
    attributes are set, then the output directory is created. *)
Definition __init__ {filesystem : FileSystem} (w : world)
    (local_tz : datetime.tzinfo) (year : Z) (output_dir : string)
    : result (ChineseMemorialCalendar * world) :=
  let self := mkSelf year local_tz [] output_dir in
  (* Create output directory if it doesn't exist *)
  let* w := os_makedirs w output_dir in
  Ok (self, w).

Definition default_output_dir : string := "calendar_events".

Definition _create_multiday_event (self : ChineseMemorialCalendar)
    (name : string) (start_date end_date : datetime.t) (description : string)
    : result ics.Event :=
  let event := ics.Event_new in
  let event := ics.set_name event name in
  let* event := ics.set_begin event (datetime.replace_midnight start_date) in
  let* next := datetime.add end_date (datetime.timedelta_days 1) in
  let* event := ics.set_end event (datetime.replace_midnight next) in
  let* event := ics.make_all_day event in
  let event := ics.set_description event description in
  Ok event.

Definition _create_event (self : ChineseMemorialCalendar)
    (name : string) (date : datetime.t) (description : string)
    : result ics.Event :=
  let event := ics.Event_new in
  let event := ics.set_name event name in
  let* event := ics.set_begin event (datetime.replace_midnight date) in
  let* event := ics.make_all_day event in
  let event := ics.set_description event description in
  Ok event.

Section Methods.

Context {converter : Converter}.

Definition _solar_to_lunar (self : ChineseMemorialCalendar)
    (solar_date : datetime.t) : result Lunar.t :=
  let solar := Solar.mk (datetime.year solar_date) (datetime.month solar_date)
                        (datetime.day solar_date) in
  Solar2Lunar solar.

Definition _lunar_to_solar (self : ChineseMemorialCalendar)
    (lunar_month lunar_day : Z) (year_arg : option Z) : result datetime.t :=
  let y := py_or year_arg (year self) in
  let lunar_date := Lunar.mk y lunar_month lunar_day false in
  let* solar_date := Lunar2Solar lunar_date in
  datetime.new (Solar.year solar_date) (Solar.month solar_date)
               (Solar.day solar_date) (Some (timezone self)).

Definition generate_solar_calendar_events (self : ChineseMemorialCalendar)
    : result (list (string * ics.Event)) :=
  let events := [] in
  (* Qingming Festival (April 5th) *)
  let* qingming_date := datetime.new (year self) 4 5 (Some (timezone self)) in
  let qingming_desc :=
    ("清明节 - Qingming Festival" ++ nl ++
     "Traditional tomb sweeping and ancestral worship day." ++ nl ++
     "Traditional offerings include:" ++ nl ++
     "- Incense (香)" ++ nl ++
     "- Fresh flowers (鲜花)" ++ nl ++
     "- Food offerings (食品)")%string in
  let* qingming :=
    _create_event self "Qingming Festival 清明节" qingming_date qingming_desc in
  let events := (events ++ [("qingming.ics", qingming)])%list in
  (* Winter Solstice *)
  let* winter_solstice_date :=
    datetime.new (year self) 12 22 (Some (timezone self)) in
  let winter_solstice_desc :=
    ("冬至 - Winter Solstice" ++ nl ++
     "Traditional family reunion day with ancestral remembrance." ++ nl ++
     "Common practices include family gathering and special meals.")%string in
  let* winter_solstice :=
    _create_event self "Winter Solstice 冬至" winter_solstice_date
                  winter_solstice_desc in
  let events := (events ++ [("winter_solstice.ics", winter_solstice)])%list in
  Ok events.

Definition ghost_festival_desc : string :=
  ("中元节 - Ghost Month (鬼月)" ++ nl ++
   "The entire 7th lunar month is the Ghost Month, with the 15th day being the Ghost Festival peak." ++ nl ++
   "Traditional practices include:" ++ nl ++
   "- Making offerings to ancestors and wandering spirits" ++ nl ++
   "- Burning joss paper and incense" ++ nl ++
   "- Avoiding major life changes or events" ++ nl ++ nl ++
   "Peak Day (15th): 中元节" ++ nl ++
   "Traditional offerings include:" ++ nl ++
   "- Incense (香)" ++ nl ++
   "- Food offerings (食品)" ++ nl ++
   "- Joss paper (纸钱)" ++ nl ++
   "- Fruits (水果)" ++ nl ++
   "- Tea (茶)")%string.

Definition nye_desc : string :=
  ("除夕 - Chinese New Year's Eve" ++ nl ++
   "Traditional family reunion dinner." ++ nl ++
   "Custom includes leaving an empty seat and chopsticks for deceased family members." ++ nl ++
   "Traditional practices include:" ++ nl ++
   "- Family reunion dinner" ++ nl ++
   "- Ancestral worship" ++ nl ++
   "- Setting out offerings")%string.

Definition generate_lunar_calendar_events (self : ChineseMemorialCalendar)
    : result (list (string * ics.Event)) :=
  let events := [] in
  (* Hungry Ghost Festival Month (7th lunar month) *)
  let* ghost_month_start := _lunar_to_solar self 7 1 None in
  let* ghost_month_end := _lunar_to_solar self 7 30 None in
  let* ghost_event :=
    _create_multiday_event self "Ghost Month 鬼月" ghost_month_start
                           ghost_month_end ghost_festival_desc in
  let events := (events ++ [("ghost_month.ics", ghost_event)])%list in
  (* Chinese New Year's Eve *)
  let* new_year := _lunar_to_solar self 1 1 (Some (year self)) in
  let* nye_date := datetime.sub_delta new_year (datetime.timedelta_days 1) in
  let* nye := _create_event self "Chinese New Year's Eve 除夕" nye_date nye_desc in
  let events := (events ++ [("chinese_new_year_eve.ics", nye)])%list in
  Ok events.

(** [d[key]] and [d.get(key, default)] on an entry of the configuration. *)
Definition getitem (d : gmap string pyval) (key : string) : result pyval :=
  match d !! key with
  | Some v => Ok v
  | None => Raise (KeyError key)
  end.

Definition get (d : gmap string pyval) (key : string) (dflt : pyval) : pyval :=
  match d !! key with
  | Some v => v
  | None => dflt
  end.

(** The dictionary display appended by the loop of
    [load_anniversaries_config]; its items are evaluated in order. *)
Definition anniversary_of_entry (entry : gmap string pyval) : result anniversary :=
  let* name := getitem entry "name" in
  let chinese_name := get entry "chinese_name" (PyStr "") in
  let* lunar_month := getitem entry "lunar_month" in
  let* lunar_day := getitem entry "lunar_day" in
  let notes := get entry "notes" (PyStr "") in
  Ok (mkAnniversary name chinese_name lunar_month lunar_day notes).

Definition append_anniversary (self : ChineseMemorialCalendar) (a : anniversary)
    : ChineseMemorialCalendar :=
  mkSelf (year self) (timezone self) (anniversaries self ++ [a])%list (output_dir self).

(** The same for an item of the list: subscripting what is no mapping
    by a field name raises [TypeError]. *)
Definition anniversary_of_item (it : item) : result anniversary :=
  match it with
  | Mapping entry => anniversary_of_entry entry
  | Scalar (PyStr _) => Raise (TypeError "string indices must be integers")
  | Scalar (PyInt _) => Raise (TypeError "'int' object is not subscriptable")
  | Scalar PyNone => Raise (TypeError "'NoneType' object is not subscriptable")
  end.

(** [iter(config['anniversaries'])]: the items of a list, the characters
    of a string; other scalars cannot be iterated. *)
Definition iterate (n : node) : result (list item) :=
  match n with
  | Sequence items => Ok items
  | Leaf (PyStr s) =>
      Ok (map (fun c => Scalar (PyStr (String c ""))) (list_ascii_of_string s))
  | Leaf (PyInt _) => Raise (TypeError "'int' object is not iterable")
  | Leaf PyNone => Raise (TypeError "'NoneType' object is not iterable")
  end.

(** [for anniversary in config['anniversaries']: try: ... except KeyError] *)
Fixpoint load_entries (entries : list item)
    (self : ChineseMemorialCalendar) (w : world)
    : result (ChineseMemorialCalendar * world) :=
  match entries with
  | [] => Ok (self, w)
  | entry :: rest =>
      match anniversary_of_item entry with
      | Ok a => load_entries rest (append_anniversary self a) w
      | Raise (KeyError key) =>
          load_entries rest self
            (print w ("Warning: Missing required field '" ++ key
                      ++ "' in anniversary config"))
      | Raise e => Raise e
      end
  end.

Definition load_anniversaries_config (self : ChineseMemorialCalendar)
    (w : world) (config_file_name : string) (file : config_file)
    : result (ChineseMemorialCalendar * world) :=
  match file with
  | FileNotFound =>
      Ok (self, print w ("Warning: Config file " ++ config_file_name ++ " not found"))
  | ReadError e => Raise e
  | YAMLError msg =>
      Ok (self, print w ("Error parsing config file: " ++ msg))
  | Parsed config =>
      match config with
      | None => Ok (self, print w "Warning: No anniversaries found in config file")
      | Some c =>
          match (if decide (c = ∅) then None else c !! "anniversaries") with
          | None => Ok (self, print w "Warning: No anniversaries found in config file")
          | Some anniversaries_node =>
              let* entries := iterate anniversaries_node in
              load_entries entries self w
          end
      end
  end.

(** The integer a converter argument must be; anything else makes the
    conversion raise. *)
Definition as_int (v : pyval) : result Z :=
  match v with
  | PyInt z => Ok z
  | _ => Raise (TypeError "an integer is required")
  end.

Definition anniversary_event (self : ChineseMemorialCalendar) (a : anniversary)
    : result (string * ics.Event) :=
  let* m := as_int (lunar_month a) in
  let* d := as_int (lunar_day a) in
  let* date := _lunar_to_solar self m d None in
  let name_ :=
    if truthy (chinese_name a)
    then (py_str (name a) ++ " (" ++ py_str (chinese_name a) ++ ")")%string
    else py_str (name a) in
  let description :=
    (name_ ++ nl ++
     "Lunar Date: " ++ py_str (lunar_month a) ++ "月" ++ py_str (lunar_day a)
     ++ "日" ++ nl ++
     nl ++ "Notes: " ++ (if truthy (notes a) then py_str (notes a) else "") ++ nl)%string in
  (* Create sanitized filename *)
  let filename := ("anniversary_" ++ py_str (name a) ++ ".ics")%string in
  let filename :=
    Str.replace "'"%char "" (Str.replace " "%char "_" (Str.lower filename)) in
  let* event := _create_event self name_ date description in
  Ok (filename, event).

Definition generate_anniversary_events (self : ChineseMemorialCalendar)
    : result (list (string * ics.Event)) :=
  mapM (anniversary_event self) (anniversaries self).

Context {filesystem : FileSystem}.

Definition _save_event_to_file (self : ChineseMemorialCalendar) (w : world)
    (event : ics.Event) (filename : string) : result (string * world) :=
  let calendar : ics.Calendar := [event] in
  match ics.begin event with
  | None => Raise (AttributeError "'NoneType' object has no attribute 'date'")
  | Some b =>
      let w := print w (match ics.name event with Some n => n | None => "None" end
                        ++ " : " ++ datetime.date_isoformat b) in
      let filepath := os_path_join (output_dir self) (Str.replace ","%char "" filename) in
      let* w := write_file w filepath calendar in
      Ok (filepath, w)
  end.

(** [for filename, event in events: generated_files.append(save(...))] *)
Fixpoint save_events (self : ChineseMemorialCalendar)
    (events : list (string * ics.Event)) (generated_files : list string)
    (w : world) : result (list string * world) :=
  match events with
  | [] => Ok (generated_files, w)
  | (filename, event) :: rest =>
      let* r := _save_event_to_file self w event filename in
      save_events self rest (generated_files ++ [fst r])%list (snd r)
  end.

Definition generate_calendars (self : ChineseMemorialCalendar) (w : world)
    : result (list string * world) :=
  let generated_files := [] in
  let* solar := generate_solar_calendar_events self in
  let* lunar := generate_lunar_calendar_events self in
  let* anniv := generate_anniversary_events self in
  save_events self (solar ++ lunar ++ anniv)%list generated_files w.

End Methods.

(** ** A table-driven converter

    An instance of [Converter] for evaluating the methods on concrete years:
    the Chinese calendar of a few lunar years, each given by the solar date
    of its new year's day, its leap month (0 when it has none) and the
    lengths of its months in order (the leap month follows the month it
    repeats).  A lunar date outside the table, or a day beyond the length of
    its month, does not exist. *)

Module ChineseCalendar.

Record lunar_year : Type := mkYear {
  new_year : Solar.t;
  leap_month : Z;
  month_days : list Z
}.

Definition lunar_years : list (Z * lunar_year) :=
  [ (2022, mkYear (Solar.mk 2022 2 1) 0
             [30; 29; 30; 29; 30; 30; 29; 30; 29; 30; 29; 30]);
    (2024, mkYear (Solar.mk 2024 2 10) 0
             [29; 30; 29; 29; 30; 29; 30; 30; 29; 30; 30; 29]);
    (2025, mkYear (Solar.mk 2025 1 29) 6
             [30; 29; 30; 29; 29; 30; 29; 30; 29; 30; 30; 30; 29]) ].

Definition sum (l : list Z) : Z := fold_right Z.add 0 l.

Definition new_year_ordinal (info : lunar_year) : Z :=
  datetime._ymd2ord (Solar.year (new_year info)) (Solar.month (new_year info))
                    (Solar.day (new_year info)).

Definition find_year (y : Z) : option lunar_year :=
  snd <$> List.find (fun p => fst p =? y) lunar_years.

(** Position of a lunar month in [month_days]. *)
Definition month_index (info : lunar_year) (month : Z) (isleap : bool)
    : option nat :=
  if (1 <=? month) && (month <=? 12) then
    if isleap then
      if month =? leap_month info then Some (Z.to_nat month) else None
    else if (leap_month info =? 0) || (month <=? leap_month info)
         then Some (Z.to_nat (month - 1))
         else Some (Z.to_nat month)
  else None.

Definition not_exist {A : Type} : result A :=
  Raise (DateNotExist "date does not exist").

Definition lunar2solar (l : Lunar.t) : result Solar.t :=
  match find_year (Lunar.year l) with
  | None => not_exist
  | Some info =>
      match month_index info (Lunar.month l) (Lunar.isleap l) with
      | None => not_exist
      | Some i =>
          match month_days info !! i with
          | None => not_exist
          | Some len =>
              if (1 <=? Lunar.day l) && (Lunar.day l <=? len) then
                let offset := sum (take i (month_days info)) + Lunar.day l - 1 in
                let '(y, m, d) :=
                  datetime._ord2ymd (new_year_ordinal info + offset) in
                Ok (Solar.mk y m d)
              else not_exist
          end
      end
  end.

(** The month, counted from 0, and the day that lie [offset] days after
    the first day of the months [lens]. *)
Fixpoint find_month (lens : list Z) (offset : Z) (i : nat) : option (nat * Z) :=
  match lens with
  | [] => None
  | len :: rest =>
      if offset <? len then Some (i, offset + 1)
      else find_month rest (offset - len) (S i)
  end.

Definition lunar_of_index (info : lunar_year) (i : nat) : Z * bool :=
  let k := Z.of_nat i in
  if (leap_month info =? 0) || (k <? leap_month info) then (k + 1, false)
  else if k =? leap_month info then (k, true)
       else (k, false).

Definition solar2lunar (s : Solar.t) : result Lunar.t :=
  if datetime.check_date_fields (Solar.year s) (Solar.month s) (Solar.day s) then
    let o := datetime._ymd2ord (Solar.year s) (Solar.month s) (Solar.day s) in
    match List.find (fun p => (new_year_ordinal (snd p) <=? o)
                              && (o <? new_year_ordinal (snd p)
                                       + sum (month_days (snd p))))
                    lunar_years with
    | None => not_exist
    | Some (y, info) =>
        match find_month (month_days info) (o - new_year_ordinal info) 0 with
        | None => not_exist
        | Some (i, d) =>
            let '(m, leap) := lunar_of_index info i in
            Ok (Lunar.mk y m d leap)
        end
    end
  else not_exist.

Definition converter : Converter :=
  {| Lunar2Solar := lunar2solar; Solar2Lunar := solar2lunar |}.

End ChineseCalendar.

(** ** A file system for the examples

    An instance of [FileSystem] for evaluating the methods: a directory is
    granted unless its path is empty, and a file can be opened for writing
    in the current directory and in a directory granted before (or one
    above it); in any other place there is no such directory. *)

(** [c in s] for a character [c]. *)
Fixpoint str_contains (c : ascii) (s : string) : bool :=
  match s with
  | EmptyString => false
  | String a s' => Ascii.eqb a c || str_contains c s'
  end.

Module ExampleFileSystem.

(** The path without its last component and the slash before it. *)
Fixpoint parent (p : string) : string :=
  match p with
  | EmptyString => EmptyString
  | String a p' =>
      if str_contains "/"%char p' then String a (parent p') else EmptyString
  end.

Definition no_such (path : string) : exn :=
  FileNotFoundError ("[Errno 2] No such file or directory: '" ++ path ++ "'").

Definition makedirs_raises (w : world) (path : string) : option exn :=
  if String.eqb path "" then Some (no_such path) else None.

Definition open_raises (w : world) (path : string) : option exn :=
  let d := parent path in
  if String.eqb d ""
     || existsb (fun g => String.eqb d g || String.prefix (d ++ "/") g) (dirs w)
  then None else Some (no_such path).

Definition makedirs_empty (w : world) : is_Some (makedirs_raises w "") :=
  ex_intro _ (no_such "") eq_refl.

Definition filesystem : FileSystem :=
  Build_FileSystem makedirs_raises open_raises makedirs_empty.

End ExampleFileSystem.

(** The time zone and the calendar objects used in the examples: the
    object [ChineseMemorialCalendar(y)] once its directory exists. *)
Definition utc8 : datetime.tzinfo := datetime.timezone 28800 "+08".

Definition calendar_of_year (y : Z) : ChineseMemorialCalendar :=
  mkSelf y utc8 [] default_output_dir.

Definition empty_world : world := mkWorld [] [] [].

(** The world once the default output directory has been created. *)
Definition ready_world : world := mkWorld [] [] [default_output_dir].

(** ** Notions used in the statements *)

(** [r] returned a value (did not raise). *)
Definition succeeds {A : Type} (r : result A) : bool :=
  match r with
  | Ok _ => true
  | Raise _ => false
  end.

(** The fields every anniversary entry must have. *)
Definition required_fields : list string := ["name"; "lunar_month"; "lunar_day"].

Definition has_field (entry : gmap string pyval) (key : string) : bool :=
  match entry !! key with
  | Some _ => true
  | None => false
  end.

(** An entry is well formed when it has all the required fields, malformed
    when it misses one. *)
Definition well_formed (entry : gmap string pyval) : bool :=
  forallb (has_field entry) required_fields.

(** The records of the well-formed entries of a list, in order. *)
Definition records_of (entries : list (gmap string pyval)) : list anniversary :=
  omap (fun entry => match anniversary_of_entry entry with
                     | Ok a => Some a
                     | Raise _ => None
                     end) entries.

Definition missing_field_warning (key : string) : string :=
  "Warning: Missing required field '" ++ key ++ "' in anniversary config".

(** The path a generated event is written to, and the line printed for it. *)
Definition saved_path (self : ChineseMemorialCalendar)
    (fe : string * ics.Event) : string :=
  os_path_join (output_dir self) (Str.replace ","%char "" (fst fe)).

Definition saved_line (fe : string * ics.Event) : string :=
  match ics.name (snd fe) with Some n => n | None => "None" end
  ++ " : "
  ++ match ics.begin (snd fe) with
     | Some b => datetime.date_isoformat b
     | None => ""
     end.

(** The configuration used in the examples: one entry without [lunar_day]
    and one complete entry. *)
Definition entry_grandfather : gmap string pyval :=
  {[ "name" := PyStr "Grandfather"; "lunar_month" := PyInt 9 ]}.

Definition entry_grandmother : gmap string pyval :=
  {[ "name" := PyStr "Grandmother"; "lunar_month" := PyInt 3;
     "lunar_day" := PyInt 15 ]}.

Definition example_config : gmap string node :=
  {[ "anniversaries" :=
       Sequence [Mapping entry_grandfather; Mapping entry_grandmother] ]}.

(** ** The command-line program *)

(** [os.path.basename(p)] on POSIX paths: what follows the last slash. *)
Fixpoint os_path_basename (p : string) : string :=
  match p with
  | EmptyString => EmptyString
  | String a p' =>
      if str_contains "/"%char p' then os_path_basename p'
      else if Ascii.eqb a "/"%char then p' else p
  end.

(** The options given on the command line, and the namespace
    [parser.parse_args()] makes of them with the defaults of [main]. *)
Record options : Type := mkOptions {
  opt_year : option Z;
  opt_output_dir : option string;
  opt_config : option string
}.

Module argparse.
Record Namespace : Type := mk {
  year : Z;
  output_dir : string;
  config : string
}.
End argparse.

(** What the process finds around it: the current year, the local time
    zone and, for each path, what reading it as a configuration gives. *)
Record environment : Type := mkEnv {
  now_year : Z;
  local_tz : datetime.tzinfo;
  read_config : string -> config_file
}.

Definition parse_args (env : environment) (o : options) : argparse.Namespace :=
  argparse.mk (default (now_year env) (opt_year o))
              (default "calendar_events" (opt_output_dir o))
              (default "anniversaries.yml" (opt_config o)).

(** [for filepath in generated_files: print(f"- {os.path.basename(filepath)}")] *)
Definition print_basenames (w : world) (generated_files : list string) : world :=
  fold_left (fun w filepath => print w ("- " ++ os_path_basename filepath))
            generated_files w.

Section Main.

Context {converter : Converter} {filesystem : FileSystem}.

Definition main (env : environment) (o : options) (w : world) : result world :=
  let args := parse_args env o in
  (* Create calendar instance *)
  let* created :=
    __init__ w (local_tz env) (argparse.year args) (argparse.output_dir args) in
  let calendar_generator := fst created in
  let w := snd created in
  (* Load anniversaries from config *)
  let* loaded :=
    load_anniversaries_config calendar_generator w (argparse.config args)
      (read_config env (argparse.config args)) in
  let calendar_generator := fst loaded in
  let w := snd loaded in
  (* Generate all calendar files *)
  let* generated := generate_calendars calendar_generator w in
  let generated_files := fst generated in
  let w := snd generated in
  let w := print w (nl ++ "Generated calendar files in "
                    ++ argparse.output_dir args ++ ":") in
  let w := print_basenames w generated_files in
  let w := print w (nl ++ "You can import these files into Google Calendar or any other calendar application.") in
  Ok w.

End Main.

(** ** Further notions used in the statements *)

(** The warnings printed for the malformed entries of a list, in order. *)
Definition warnings_of (entries : list (gmap string pyval)) : list string :=
  omap (fun entry => match anniversary_of_entry entry with
                     | Raise (KeyError key) => Some (missing_field_warning key)
                     | _ => None
                     end) entries.

(** The first required field an entry lacks. *)
Definition first_missing (entry : gmap string pyval) : option string :=
  List.find (fun key => negb (has_field entry key)) required_fields.

(** The calendar for another target year. *)
Definition with_year (self : ChineseMemorialCalendar) (y : Z)
    : ChineseMemorialCalendar :=
  mkSelf y (timezone self) (anniversaries self) (output_dir self).

(** Every character of [s] satisfies [p]. *)
Fixpoint str_forall (p : ascii -> bool) (s : string) : bool :=
  match s with
  | EmptyString => true
  | String a s' => p a && str_forall p s'
  end.

Definition is_ascii_upper (a : ascii) : bool :=
  let n := N_of_ascii a in ((65 <=? n) && (n <=? 90))%N.

(** The characters a sanitized file name is made of: no upper-case ASCII
    letter, no space, no apostrophe. *)
Definition sanitized_char (a : ascii) : bool :=
  negb (is_ascii_upper a) && negb (Ascii.eqb a " "%char)
  && negb (Ascii.eqb a "'"%char).

(** A datetime at midnight in the time zone [z]. *)
Definition midnight_in (z : datetime.tzinfo) (dt : datetime.t) : Prop :=
  datetime.valid dt = true
  /\ datetime.hour dt = 0 /\ datetime.minute dt = 0
  /\ datetime.second dt = 0 /\ datetime.microsecond dt = 0
  /\ datetime.tz dt = Some z.

(** What every generated event looks like: an all-day event with a title
    and a description that begins at a midnight of the calendar's time zone. *)
Definition all_day_event (self : ChineseMemorialCalendar)
    (event : ics.Event) : Prop :=
  ics.all_day event = true
  /\ is_Some (ics.name event) /\ is_Some (ics.description event)
  /\ exists b, ics.begin event = Some b /\ midnight_in (timezone self) b.

(** The environment of the examples: the year is 2024 and no
    configuration file exists. *)
Definition example_env : environment :=
  mkEnv 2024 utc8 (fun _ => FileNotFound).

Definition no_options : options := mkOptions None None None.

(** * Proofs *)

(** ** The Gregorian calendar *)

Example ymd2ord_max : datetime._ymd2ord 9999 12 31 = datetime._MAXORDINAL.
Proof. reflexivity. Qed.

Example ord2ymd_738981 : datetime._ord2ymd 738981 = (2024, 4, 5).
Proof. reflexivity. Qed.

Example ord2ymd_leap_day : datetime._ord2ymd (datetime._ymd2ord 2024 2 28 + 1) = (2024, 2, 29).
Proof. reflexivity. Qed.

Section GregorianCalendar.
Import datetime.

Ltac zdm := Z.div_mod_to_equations; lia.

Lemma is_leap_true_iff (y : Z) :
  _is_leap y = true <-> (y mod 4 = 0 /\ (y mod 100 <> 0 \/ y mod 400 = 0)).
Proof.
  unfold _is_leap.
  rewrite andb_true_iff, orb_true_iff, negb_true_iff, !Z.eqb_eq, Z.eqb_neq.
  tauto.
Qed.

Lemma is_leap_cycle (a b c d : Z) :
  0 <= b <= 3 -> 0 <= c <= 24 -> 0 <= d <= 3 ->
  _is_leap (a * 400 + 1 + b * 100 + c * 4 + d)
  = (d =? 3) && (negb (c =? 24) || (b =? 3)).
Proof.
  intros Hb Hc Hd.
  set (y := a * 400 + 1 + b * 100 + c * 4 + d).
  assert (E4 : y mod 4 = (d + 1) mod 4).
  { replace y with (d + 1 + (a * 100 + b * 25 + c) * 4) by (unfold y; ring).
    apply Z_mod_plus_full. }
  assert (E100 : y mod 100 = (c * 4 + d + 1) mod 100).
  { replace y with (c * 4 + d + 1 + (a * 4 + b) * 100) by (unfold y; ring).
    apply Z_mod_plus_full. }
  assert (E400 : y mod 400 = (b * 100 + c * 4 + d + 1) mod 400).
  { replace y with (b * 100 + c * 4 + d + 1 + a * 400) by (unfold y; ring).
    apply Z_mod_plus_full. }
  apply eq_true_iff_eq.
  rewrite is_leap_true_iff, E4, E100, E400.
  rewrite andb_true_iff, orb_true_iff, negb_true_iff, !Z.eqb_eq, Z.eqb_neq.
  clearbody y. clear E4 E100 E400.
  split.
  - intros [H4 H100]. split; [zdm|].
    destruct (Z.eq_dec c 24) as [-> | ]; [right | left; lia].
    destruct H100 as [H100 | H400]; zdm.
  - intros [-> H]. split; [zdm|].
    destruct (Z.eq_dec c 24) as [-> | Hc24].
    + right. destruct H as [H | Hb3]; [lia | subst b]. zdm.
    + left. intros Hm. zdm.
Qed.

Lemma days_before_year_cycle (a b c d : Z) :
  0 <= b <= 3 -> 0 <= c <= 24 -> 0 <= d <= 3 ->
  _days_before_year (a * 400 + 1 + b * 100 + c * 4 + d)
  = a * _DI400Y + b * _DI100Y + c * _DI4Y + d * 365.
Proof.
  intros Hb Hc Hd. unfold _days_before_year, _DI400Y, _DI100Y, _DI4Y.
  zdm.
Qed.

Lemma check_date_fields_iff (y m d : Z) :
  check_date_fields y m d = true
  <-> (MINYEAR <= y <= MAXYEAR /\ 1 <= m <= 12 /\ 1 <= d <= _days_in_month y m).
Proof.
  unfold check_date_fields. rewrite !andb_true_iff, !Z.leb_le. tauto.
Qed.

Lemma month_cases (m : Z) :
  1 <= m <= 12 ->
  m = 1 \/ m = 2 \/ m = 3 \/ m = 4 \/ m = 5 \/ m = 6 \/
  m = 7 \/ m = 8 \/ m = 9 \/ m = 10 \/ m = 11 \/ m = 12.
Proof. lia. Qed.

Ltac each_month H :=
  apply month_cases in H;
  repeat (destruct H as [H | H]); subst.

(** [date.fromordinal]: the result is a date, and it has the ordinal asked for. *)
Lemma ord2ymd_spec (n : Z) :
  1 <= n <= _MAXORDINAL ->
  let '(y, m, d) := _ord2ymd n in
  check_date_fields y m d = true /\ _ymd2ord y m d = n.
Proof.
  intros Hn. unfold _ord2ymd. cbv zeta.
  set (n0 := n - 1).
  set (a := n0 / _DI400Y). set (r400 := n0 mod _DI400Y).
  set (b := r400 / _DI100Y). set (r100 := r400 mod _DI100Y).
  set (c := r100 / _DI4Y). set (r4 := r100 mod _DI4Y).
  set (d := r4 / 365). set (r := r4 mod 365).
  assert (Ha : n0 = a * _DI400Y + r400 /\ 0 <= r400 < _DI400Y).
  { unfold a, r400, _DI400Y. zdm. }
  assert (Hb : r400 = b * _DI100Y + r100 /\ 0 <= r100 < _DI100Y).
  { unfold b, r100, _DI100Y. zdm. }
  assert (Hc : r100 = c * _DI4Y + r4 /\ 0 <= r4 < _DI4Y).
  { unfold c, r4, _DI4Y. zdm. }
  assert (Hd : r4 = d * 365 + r /\ 0 <= r < 365).
  { unfold d, r. zdm. }
  clearbody a r400 b r100 c r4 d r.
  unfold _DI400Y, _DI100Y, _DI4Y, _MAXORDINAL in *.
  assert (Hn0 : n = n0 + 1) by (unfold n0; lia). clearbody n0.
  destruct (Z.eqb_spec d 4) as [Hd4 | Hd4]; simpl orb.
  { (* last day of the fourth year of a 4-year cycle *)
    cbv beta iota. rewrite check_date_fields_iff. unfold _ymd2ord, _days_in_month, _days_before_month.
    replace (a * 400 + 1 + b * 100 + c * 4 + d - 1)
      with (a * 400 + 1 + b * 100 + c * 4 + 3) by lia.
    rewrite is_leap_cycle, days_before_year_cycle by lia.
    unfold _DI400Y, _DI100Y, _DI4Y, MINYEAR, MAXYEAR. simpl.
    destruct (Z.eqb_spec c 24), (Z.eqb_spec b 3); simpl; lia. }
  destruct (Z.eqb_spec b 4) as [Hb4 | Hb4].
  { (* last day of a 400-year cycle *)
    simpl orb. cbv beta iota. rewrite check_date_fields_iff. unfold _ymd2ord, _days_in_month, _days_before_month.
    assert (c = 0 /\ d = 0 /\ r = 0) as (-> & -> & ->) by lia. subst b.
    replace (a * 400 + 1 + 4 * 100 + 0 * 4 + 0 - 1)
      with (a * 400 + 1 + 3 * 100 + 24 * 4 + 3) by lia.
    rewrite is_leap_cycle, days_before_year_cycle by lia.
    unfold _DI400Y, _DI100Y, _DI4Y, MINYEAR, MAXYEAR. simpl. lia. }
  assert (Hbd : 0 <= b <= 3 /\ 0 <= c <= 24 /\ 0 <= d <= 3) by lia.
  simpl orb. cbv beta iota.
  rewrite Z.shiftr_div_pow2 by lia. change (2 ^ 5) with 32.
  assert (Hm : 1 <= (r + 50) / 32 <= 12) by zdm.
  assert (Hr : 32 * ((r + 50) / 32) <= r + 50 < 32 * ((r + 50) / 32) + 32) by zdm.
  set (leap := (d =? 3) && (negb (c =? 24) || (b =? 3))).
  assert (Hleap : leap = false -> r4 <= 1459).
  { unfold leap. destruct (Z.eqb_spec d 3), (Z.eqb_spec c 24), (Z.eqb_spec b 3);
      simpl; intros; try discriminate; lia. }
  assert (Hl : _is_leap (a * 400 + 1 + b * 100 + c * 4 + d) = leap)
    by (apply is_leap_cycle; lia).
  clearbody leap.
  assert (Hres : forall m dd,
             1 <= m <= 12 ->
             1 <= dd <= _DAYS_IN_MONTH m + (if (m =? 2) && leap then 1 else 0) ->
             _DAYS_BEFORE_MONTH m + (if (2 <? m) && leap then 1 else 0) + dd = r + 1 ->
             check_date_fields (a * 400 + 1 + b * 100 + c * 4 + d) m dd = true
             /\ _ymd2ord (a * 400 + 1 + b * 100 + c * 4 + d) m dd = n).
  { intros m dd Hm1 Hdd Hsum.
    rewrite check_date_fields_iff. unfold _ymd2ord, _days_in_month, _days_before_month.
    rewrite Hl, days_before_year_cycle by lia.
    unfold _DI400Y, _DI100Y, _DI4Y, MINYEAR, MAXYEAR.
    split; [split; [lia | split; [lia |]] | lia].
    destruct leap; each_month Hm1; simpl in *; lia. }
  destruct leap.
  - each_month Hm; rewrite ?Hm in *; simpl;
      match goal with |- context [?x <? ?y] => destruct (Z.ltb_spec x y) end;
      apply Hres; simpl; try lia.
  - assert (r4 <= 1459) by auto.
    each_month Hm; rewrite ?Hm in *; simpl;
      match goal with |- context [?x <? ?y] => destruct (Z.ltb_spec x y) end;
      apply Hres; simpl; try lia.
Qed.

Lemma days_before_year_succ (y : Z) :
  _days_before_year (y + 1)
  = _days_before_year y + 365 + (if _is_leap y then 1 else 0).
Proof.
  destruct (_is_leap y) eqn:E.
  - apply is_leap_true_iff in E. unfold _days_before_year. zdm.
  - assert (E' : ~ (y mod 4 = 0 /\ (y mod 100 <> 0 \/ y mod 400 = 0))).
    { rewrite <- is_leap_true_iff, E. discriminate. }
    unfold _days_before_year. zdm.
Qed.

Lemma days_before_year_mono (y y' : Z) :
  y <= y' -> _days_before_year y <= _days_before_year y'.
Proof. unfold _days_before_year. intros. zdm. Qed.

Lemma day_of_year_bounds (y m d : Z) :
  1 <= m <= 12 -> 1 <= d <= _days_in_month y m ->
  1 <= _days_before_month y m + d <= 365 + (if _is_leap y then 1 else 0).
Proof.
  intros Hm. unfold _days_in_month, _days_before_month.
  destruct (_is_leap y); each_month Hm; simpl; lia.
Qed.

Lemma day_of_year_inj (y m d m' d' : Z) :
  1 <= m <= 12 -> 1 <= d <= _days_in_month y m ->
  1 <= m' <= 12 -> 1 <= d' <= _days_in_month y m' ->
  _days_before_month y m + d = _days_before_month y m' + d' ->
  m = m' /\ d = d'.
Proof.
  intros Hm Hd Hm' Hd'. revert Hd Hd'.
  unfold _days_in_month, _days_before_month.
  destruct (_is_leap y); each_month Hm; each_month Hm'; simpl; lia.
Qed.

Lemma ymd2ord_bounds (y m d : Z) :
  check_date_fields y m d = true -> 1 <= _ymd2ord y m d <= _MAXORDINAL.
Proof.
  rewrite check_date_fields_iff. unfold MINYEAR, MAXYEAR. intros (Hy & Hm & Hd).
  pose proof (day_of_year_bounds y m d Hm Hd) as Hdoy.
  pose proof (days_before_year_succ y) as Hs.
  pose proof (days_before_year_mono 1 y ltac:(lia)) as H1.
  pose proof (days_before_year_mono (y + 1) 10000 ltac:(lia)) as H2.
  change (_days_before_year 1) with 0 in H1.
  change (_days_before_year 10000) with 3652059 in H2.
  unfold _ymd2ord, _MAXORDINAL. lia.
Qed.

Lemma ymd2ord_inj (y m d y' m' d' : Z) :
  check_date_fields y m d = true -> check_date_fields y' m' d' = true ->
  _ymd2ord y m d = _ymd2ord y' m' d' ->
  (y, m, d) = (y', m', d').
Proof.
  rewrite !check_date_fields_iff. intros (Hy & Hm & Hd) (Hy' & Hm' & Hd') E.
  unfold _ymd2ord in E.
  pose proof (day_of_year_bounds y m d Hm Hd) as B.
  pose proof (day_of_year_bounds y' m' d' Hm' Hd') as B'.
  pose proof (days_before_year_succ y) as S.
  pose proof (days_before_year_succ y') as S'.
  assert (y = y') as <-.
  { destruct (Z.lt_trichotomy y y') as [Hlt | [Heq | Hgt]]; [| exact Heq |].
    - pose proof (days_before_year_mono (y + 1) y' ltac:(lia)). lia.
    - pose proof (days_before_year_mono (y' + 1) y ltac:(lia)). lia. }
  destruct (day_of_year_inj y m d m' d' Hm Hd Hm' Hd' ltac:(lia)) as [-> ->].
  reflexivity.
Qed.

(** [date.fromordinal(d.toordinal()) == d] *)
Lemma ord2ymd_ymd2ord (y m d : Z) :
  check_date_fields y m d = true -> _ord2ymd (_ymd2ord y m d) = (y, m, d).
Proof.
  intros Hv.
  pose proof (ord2ymd_spec _ (ymd2ord_bounds y m d Hv)) as Hs.
  destruct (_ord2ymd (_ymd2ord y m d)) as [[y' m'] d'].
  destruct Hs as [Hv' E]. now apply ymd2ord_inj.
Qed.

Lemma ymd2ord_ord2ymd (n : Z) :
  1 <= n <= _MAXORDINAL ->
  let '(y, m, d) := _ord2ymd n in _ymd2ord y m d = n.
Proof.
  intros Hn. pose proof (ord2ymd_spec n Hn) as Hs.
  destruct (_ord2ymd n) as [[y m] d]. apply Hs.
Qed.

End GregorianCalendar.

(** ** datetime arithmetic *)

Section DatetimeArithmetic.
Import datetime.

Ltac zdm := Z.div_mod_to_equations; lia.

Lemma timedelta_days_eq (n : Z) : timedelta_days n = mk_timedelta n 0 0.
Proof. unfold timedelta_days, timedelta_new. f_equal. zdm. Qed.

Lemma valid_iff (dt : t) :
  valid dt = true
  <-> (check_date_fields (year dt) (month dt) (day dt) = true
       /\ 0 <= hour dt <= 23 /\ 0 <= minute dt <= 59
       /\ 0 <= second dt <= 59 /\ 0 <= microsecond dt <= 999999).
Proof.
  unfold valid, check_time_fields. rewrite !andb_true_iff, !Z.leb_le. tauto.
Qed.

Lemma toordinal_bounds (dt : t) :
  valid dt = true -> 1 <= toordinal dt <= _MAXORDINAL.
Proof. rewrite valid_iff. intros [H _]. now apply ymd2ord_bounds. Qed.

Lemma timedelta_add_whole_days (o secs us n : Z) :
  0 <= secs < 86400 -> 0 <= us < 1000000 ->
  timedelta_add (timedelta_new o secs us) (mk_timedelta n 0 0)
  = mk_timedelta (o + n) secs us.
Proof.
  intros Hs Hu. unfold timedelta_add, timedelta_new.
  cbn [td_days td_seconds td_microseconds]. f_equal; zdm.
Qed.

(** [dt + timedelta(days=n)] moves the ordinal by [n] and keeps the time. *)
Lemma add_days (dt : t) (n : Z) :
  valid dt = true -> 0 < toordinal dt + n <= _MAXORDINAL ->
  add dt (mk_timedelta n 0 0) = Ok (shifted dt n).
Proof.
  rewrite valid_iff. intros (Hd & Hh & Hm & Hs & Hu) Hn.
  unfold add, shifted.
  rewrite timedelta_add_whole_days by lia.
  cbn [td_days td_seconds td_microseconds].
  set (secs := hour dt * 3600 + minute dt * 60 + second dt).
  assert (E5 : secs / 3600 = hour dt) by (unfold secs; zdm).
  assert (E6 : secs mod 3600 / 60 = minute dt) by (unfold secs; zdm).
  assert (E7 : secs mod 3600 mod 60 = second dt) by (unfold secs; zdm).
  rewrite E5, E6, E7.
  destruct (Z.ltb_spec 0 (toordinal dt + n)); [| lia].
  destruct (Z.leb_spec (toordinal dt + n) _MAXORDINAL); [| lia].
  simpl andb. cbv iota. destruct (_ord2ymd (toordinal dt + n)) as [[y m] d].
  reflexivity.
Qed.

Lemma add_days_overflow (dt : t) (n : Z) :
  valid dt = true -> ~ (0 < toordinal dt + n <= _MAXORDINAL) ->
  exists msg, add dt (mk_timedelta n 0 0) = Raise (OverflowError msg).
Proof.
  rewrite valid_iff. intros (Hd & Hh & Hm & Hs & Hu) Hn.
  unfold add.
  rewrite timedelta_add_whole_days by lia.
  cbn [td_days td_seconds td_microseconds].
  destruct (Z.ltb_spec 0 (toordinal dt + n)); simpl andb; [| eauto].
  destruct (Z.leb_spec (toordinal dt + n) _MAXORDINAL); [lia | eauto].
Qed.

Lemma shifted_spec (dt : t) (n : Z) :
  valid dt = true -> 0 < toordinal dt + n <= _MAXORDINAL ->
  valid (shifted dt n) = true
  /\ toordinal (shifted dt n) = toordinal dt + n
  /\ hour (shifted dt n) = hour dt /\ minute (shifted dt n) = minute dt
  /\ second (shifted dt n) = second dt
  /\ microsecond (shifted dt n) = microsecond dt
  /\ tz (shifted dt n) = tz dt.
Proof.
  intros Hv Hn. pose proof (ord2ymd_spec (toordinal dt + n) ltac:(lia)) as Hs.
  unfold shifted. destruct (_ord2ymd (toordinal dt + n)) as [[y m] d].
  destruct Hs as [Hc Ho]. apply valid_iff in Hv.
  unfold toordinal. cbn [year month day hour minute second microsecond tz].
  rewrite valid_iff. cbn [year month day hour minute second microsecond tz].
  tauto.
Qed.

Lemma valid_replace_midnight (dt : t) :
  valid dt = true -> valid (replace_midnight dt) = true.
Proof.
  rewrite !valid_iff. cbn [replace_midnight year month day hour minute second microsecond].
  intros (H & _). repeat split; auto; lia.
Qed.

Lemma toordinal_replace_midnight (dt : t) :
  toordinal (replace_midnight dt) = toordinal dt.
Proof. reflexivity. Qed.

(** The difference of two datetimes at midnight is a whole number of days. *)
Lemma sub_midnight (a b : t) :
  sub (replace_midnight a) (replace_midnight b)
  = timedelta_days (toordinal a - toordinal b).
Proof.
  rewrite timedelta_days_eq. unfold sub, timedelta_new.
  rewrite !toordinal_replace_midnight.
  cbn [replace_midnight hour minute second microsecond].
  f_equal; zdm.
Qed.

Lemma sub_same_time (a b : t) :
  hour a = hour b -> minute a = minute b -> second a = second b ->
  microsecond a = microsecond b ->
  sub a b = timedelta_days (toordinal a - toordinal b).
Proof.
  intros Hh Hm Hs Hu. rewrite timedelta_days_eq. unfold sub, timedelta_new.
  rewrite Hh, Hm, Hs, Hu. f_equal; zdm.
Qed.

Lemma timedelta_add_days (n k : Z) :
  timedelta_add (timedelta_days n) (timedelta_days k) = timedelta_days (n + k).
Proof.
  rewrite !timedelta_days_eq. unfold timedelta_add, timedelta_new.
  cbn [td_days td_seconds td_microseconds]. f_equal; zdm.
Qed.

Lemma ymd2ord_after_first (y m d : Z) :
  check_date_fields y m d = true -> (m, d) <> (1, 1) -> 1 < _ymd2ord y m d.
Proof.
  intros Hv Hne. apply check_date_fields_iff in Hv as (Hy & Hm & Hd).
  pose proof (day_of_year_bounds _ _ _ Hm Hd) as Hdoy.
  pose proof (days_before_year_mono 1 y ltac:(unfold MINYEAR in Hy; lia)) as Hmono.
  change (_days_before_year 1) with 0 in Hmono.
  assert (_days_before_month y m + d <> 1).
  { intros E. apply Hne.
    destruct (day_of_year_inj y m d 1 1 Hm Hd ltac:(lia)
                ltac:(unfold _days_in_month; simpl; lia)
                ltac:(rewrite E; reflexivity)) as [-> ->].
    reflexivity. }
  unfold _ymd2ord. lia.
Qed.

(** The day before a date that is not 1 January lies in the same year. *)
Lemma ord2ymd_pred_same_year (y m d : Z) :
  check_date_fields y m d = true -> (m, d) <> (1, 1) ->
  fst (fst (_ord2ymd (_ymd2ord y m d - 1))) = y.
Proof.
  intros Hv Hne. pose proof Hv as Hv'.
  apply check_date_fields_iff in Hv' as (Hy & Hm & Hd).
  destruct (Z.eq_dec d 1) as [-> | Hd1].
  - assert (Hm1 : 2 <= m <= 12) by (split; [destruct (Z.eq_dec m 1); [congruence | lia] | lia]).
    assert (E : _ymd2ord y m 1 - 1 = _ymd2ord y (m - 1) (_days_in_month y (m - 1))).
    { unfold _ymd2ord, _days_before_month, _days_in_month.
      assert (Hc : 1 <= m - 1 <= 11) by lia.
      replace m with (m - 1 + 1) at 1 2 by lia.
      destruct (_is_leap y);
        assert (Hc' : 1 <= m - 1 <= 12) by lia;
        apply month_cases in Hc';
        repeat (destruct Hc' as [Hc' | Hc']); rewrite Hc'; simpl; lia. }
    rewrite E, ord2ymd_ymd2ord; [reflexivity |].
    apply check_date_fields_iff. repeat split; try lia.
    + unfold _days_in_month.
      assert (Hc' : 1 <= m - 1 <= 12) by lia.
      destruct (_is_leap y); apply month_cases in Hc';
        repeat (destruct Hc' as [Hc' | Hc']); rewrite Hc'; simpl; lia.
  - assert (E : _ymd2ord y m d - 1 = _ymd2ord y m (d - 1)) by (unfold _ymd2ord; lia).
    rewrite E, ord2ymd_ymd2ord; [reflexivity |].
    apply check_date_fields_iff. repeat split; lia.
Qed.

Lemma year_date (dt : t) : year (date dt) = year dt.
Proof. reflexivity. Qed.

Lemma shifted_pred_year (dt : t) :
  check_date_fields (year dt) (month dt) (day dt) = true ->
  (month dt, day dt) <> (1, 1) ->
  year (shifted dt (-1)) = year dt.
Proof.
  intros Hv Hne. pose proof (ord2ymd_pred_same_year _ _ _ Hv Hne) as Hy.
  unfold shifted, toordinal.
  replace (_ymd2ord (year dt) (month dt) (day dt) + -1)
    with (_ymd2ord (year dt) (month dt) (day dt) - 1) by lia.
  destruct (_ord2ymd (_ymd2ord (year dt) (month dt) (day dt) - 1)) as [[y m] d].
  cbn [fst] in Hy. cbn [year]. exact Hy.
Qed.

End DatetimeArithmetic.
(** ** Comparing datetimes, and the events of ics *)

Section IcsEvents.

Lemma instant_midnight (dt : datetime.t) :
  datetime._instant (datetime.replace_midnight dt)
  = (datetime.toordinal dt * 86400
     - match datetime.tz dt with
       | Some z => datetime.utcoffset z
       | None => 0
       end) * 1000000.
Proof.
  unfold datetime._instant. rewrite toordinal_replace_midnight.
  cbn [datetime.replace_midnight datetime.hour datetime.minute datetime.second
       datetime.microsecond datetime.tz]. lia.
Qed.

Lemma eqb_refl (dt : datetime.t) : datetime.eqb dt dt = true.
Proof. apply Z.eqb_refl. Qed.

(** In one time zone, midnights compare as their days do. *)
Lemma ltb_midnight (a b : datetime.t) :
  datetime.tz a = datetime.tz b ->
  datetime.ltb (datetime.replace_midnight a) (datetime.replace_midnight b)
  = (datetime.toordinal a <? datetime.toordinal b).
Proof.
  intros Hz. unfold datetime.ltb. rewrite !instant_midnight, Hz.
  destruct (Z.ltb_spec (datetime.toordinal a) (datetime.toordinal b));
    [apply Z.ltb_lt | apply Z.ltb_ge]; lia.
Qed.

Lemma eqb_midnight (a b : datetime.t) :
  datetime.tz a = datetime.tz b ->
  datetime.eqb (datetime.replace_midnight a) (datetime.replace_midnight b)
  = (datetime.toordinal a =? datetime.toordinal b).
Proof.
  intros Hz. unfold datetime.eqb. rewrite !instant_midnight, Hz.
  destruct (Z.eqb_spec (datetime.toordinal a) (datetime.toordinal b));
    [apply Z.eqb_eq | apply Z.eqb_neq]; lia.
Qed.

Lemma replace_midnight_idem (dt : datetime.t) :
  datetime.replace_midnight (datetime.replace_midnight dt)
  = datetime.replace_midnight dt.
Proof. reflexivity. Qed.

(** Two shifts make one. *)
Lemma shifted_shifted (dt : datetime.t) (n k : Z) :
  datetime.valid dt = true ->
  0 < datetime.toordinal dt + n <= datetime._MAXORDINAL ->
  datetime.shifted (datetime.shifted dt n) k = datetime.shifted dt (n + k).
Proof.
  intros Hv Hn.
  destruct (shifted_spec dt n Hv Hn) as (_ & Ho & Hh & Hm & Hs & Hu & Hz).
  unfold datetime.shifted at 1. rewrite Ho, Hh, Hm, Hs, Hu, Hz.
  unfold datetime.shifted. now rewrite Z.add_assoc.
Qed.

Lemma shifted_replace_midnight (dt : datetime.t) (n : Z) :
  datetime.shifted (datetime.replace_midnight dt) n
  = datetime.replace_midnight (datetime.shifted dt n).
Proof.
  unfold datetime.shifted. rewrite toordinal_replace_midnight.
  destruct (datetime._ord2ymd (datetime.toordinal dt + n)) as [[y m] d].
  reflexivity.
Qed.

(** [make_all_day] on an event that has a begin and no end: a one-day
    event, whatever the begin. *)
Lemma make_all_day_without_end (title description : option string)
    (b : datetime.t) :
  ics.make_all_day (ics.mkEvent title (Some b) None false description)
  = Ok (ics.mkEvent title (Some (datetime.replace_midnight b)) None true
          description).
Proof.
  unfold ics.make_all_day, ics._end.
  cbn [ics.all_day ics.begin ics._end_time ics.name ics.description bind].
  now rewrite eqb_refl.
Qed.

End IcsEvents.

(** ** The event builders *)

(** [_create_event] never raises: it returns the all-day event without
    explicit end that begins at midnight of the date. *)
Lemma create_event_result
    (self : ChineseMemorialCalendar) (title : string) (date : datetime.t)
    (description : string) :
  _create_event self title date description
  = Ok (ics.mkEvent (Some title) (Some (datetime.replace_midnight date)) None
          true (Some description)).
Proof.
  unfold _create_event, ics.set_begin, ics.set_name, ics.Event_new.
  cbn [ics._end_time ics.name ics.description bind].
  rewrite make_all_day_without_end. reflexivity.
Qed.

(** C6.  For every title, date and description, [_create_event] produces an
    all-day event that starts at midnight of the date and whose exclusive
    end is exactly one day after its start: [end - begin == timedelta(days=1)].
    (The date must have a next day, that is, lie before 9999-12-31.) *)
Theorem create_event_lasts_one_day
    (self : ChineseMemorialCalendar) (title : string) (date : datetime.t)
    (description : string) :
  datetime.valid date = true ->
  datetime.toordinal date < datetime._MAXORDINAL ->
  exists event start_date end_date_exclusive,
    _create_event self title date description = Ok event
    /\ ics.name event = Some title
    /\ ics.description event = Some description
    /\ ics.all_day event = true
    /\ ics.begin event = Some start_date
    /\ start_date = datetime.date date
    /\ ics._end event = Ok (Some end_date_exclusive)
    /\ datetime.sub end_date_exclusive start_date = datetime.timedelta_days 1.
Proof.
  intros Hv Hmax.
  pose proof (valid_replace_midnight date Hv) as Hv0.
  pose proof (toordinal_bounds date Hv) as Hb.
  assert (Hn : 0 < datetime.toordinal (datetime.replace_midnight date) + 1
               <= datetime._MAXORDINAL)
    by (rewrite toordinal_replace_midnight; lia).
  rewrite create_event_result.
  eexists _, (datetime.date date),
    (datetime.shifted (datetime.replace_midnight date) 1).
  split; [reflexivity |]. unfold ics._end.
  cbn [ics.name ics.description ics.all_day ics.begin ics._end_time].
  rewrite timedelta_days_eq at 1. rewrite (add_days _ 1 Hv0 Hn).
  cbn [bind].
  destruct (shifted_spec _ 1 Hv0 Hn) as (_ & Ho & Hh & Hm & Hs & Hu & _).
  repeat split; try reflexivity.
  unfold datetime.date. rewrite sub_same_time by assumption.
  rewrite Ho. f_equal. lia.
Qed.

Lemma create_event_lasts_one_day_witness :
  exists event start_date end_date_exclusive,
    _create_event (calendar_of_year 2024) "Qingming Festival"
      (datetime.mk 2024 4 5 0 0 0 0 (Some utc8)) "" = Ok event
    /\ ics.name event = Some "Qingming Festival"
    /\ ics.description event = Some ""
    /\ ics.all_day event = true
    /\ ics.begin event = Some start_date
    /\ start_date = datetime.date (datetime.mk 2024 4 5 0 0 0 0 (Some utc8))
    /\ ics._end event = Ok (Some end_date_exclusive)
    /\ datetime.sub end_date_exclusive start_date = datetime.timedelta_days 1.
Proof.
  apply (create_event_lasts_one_day (calendar_of_year 2024) "Qingming Festival"
           (datetime.mk 2024 4 5 0 0 0 0 (Some utc8)) "").
  - reflexivity.
  - vm_compute. reflexivity.
Defined.

(** What [_create_multiday_event] does with two datetimes of one time zone:
    the outcome depends on the two days only. *)
Section MultidayEvent.

Variable self : ChineseMemorialCalendar.
Variables (title description : string) (d1 d2 : datetime.t).
Hypothesis Hv1 : datetime.valid d1 = true.
Hypothesis Hv2 : datetime.valid d2 = true.
Hypothesis Hz : datetime.tz d1 = datetime.tz d2.

(** The event once [begin] and [end] are set. *)
Lemma create_multiday_event_unfold :
  datetime.toordinal d2 < datetime._MAXORDINAL ->
  _create_multiday_event self title d1 d2 description
  = if datetime.toordinal d2 + 1 <? datetime.toordinal d1
    then Raise (ValueError "End must be after begin")
    else
      let* event :=
        ics.make_all_day
          (ics.mkEvent (Some title) (Some (datetime.date d1))
             (Some (datetime.date (datetime.shifted d2 1))) false None) in
      Ok (ics.set_description event description).
Proof.
  intros Hmax. pose proof (toordinal_bounds d2 Hv2) as Hb.
  destruct (shifted_spec d2 1 Hv2 ltac:(lia)) as (_ & Ho & _ & _ & _ & _ & Hz2).
  unfold _create_multiday_event, ics.set_begin, ics.set_end, ics.set_name,
    ics.Event_new.
  cbn [ics._end_time ics.begin ics.name ics.description ics.all_day bind].
  rewrite timedelta_days_eq, (add_days d2 1 Hv2 ltac:(lia)).
  cbn [bind ics._end_time ics.begin ics.name ics.description ics.all_day].
  rewrite ltb_midnight by congruence. rewrite Ho.
  destruct (datetime.toordinal d2 + 1 <? datetime.toordinal d1); reflexivity.
Qed.

(** The end lies more than a day before the start: the end is refused. *)
Lemma create_multiday_event_refused :
  datetime.toordinal d2 + 1 < datetime.toordinal d1 ->
  _create_multiday_event self title d1 d2 description
  = Raise (ValueError "End must be after begin").
Proof.
  intros Hlt. pose proof (toordinal_bounds d1 Hv1) as Hb1.
  rewrite create_multiday_event_unfold by lia.
  destruct (Z.ltb_spec (datetime.toordinal d2 + 1) (datetime.toordinal d1));
    [reflexivity | lia].
Qed.


(** The end is not before the start: the event ends two days after [d2],
    when there is such a day. *)
Lemma create_multiday_event_forward :
  datetime.toordinal d1 <= datetime.toordinal d2 ->
  datetime.toordinal d2 + 2 <= datetime._MAXORDINAL ->
  _create_multiday_event self title d1 d2 description
  = Ok (ics.mkEvent (Some title) (Some (datetime.date d1))
          (Some (datetime.date (datetime.shifted d2 2))) true
          (Some description)).
Proof.
  intros Hle Hmax. pose proof (toordinal_bounds d2 Hv2) as Hb2.
  destruct (shifted_spec d2 1 Hv2 ltac:(lia)) as (Hv' & Ho & _ & _ & _ & _ & Hz2).
  rewrite create_multiday_event_unfold by lia.
  destruct (Z.ltb_spec (datetime.toordinal d2 + 1) (datetime.toordinal d1));
    [lia |].
  unfold ics.make_all_day, ics._end, datetime.date.
  cbn [ics.all_day ics.begin ics._end_time ics.name ics.description bind].
  rewrite !replace_midnight_idem, eqb_midnight by congruence.
  rewrite Ho. destruct (Z.eqb_spec (datetime.toordinal d1) (datetime.toordinal d2 + 1));
    [lia |].
  rewrite timedelta_days_eq, add_days.
  - cbn [bind]. rewrite shifted_replace_midnight, shifted_shifted by (auto; lia).
    reflexivity.
  - now apply valid_replace_midnight.
  - rewrite toordinal_replace_midnight, Ho. lia.
Qed.

(** No day after the end, or after the day after it: the addition
    overflows. *)
Lemma create_multiday_event_overflows :
  datetime.toordinal d2 = datetime._MAXORDINAL
  \/ (datetime.toordinal d1 <= datetime.toordinal d2
      /\ datetime.toordinal d2 + 1 = datetime._MAXORDINAL) ->
  exists msg,
    _create_multiday_event self title d1 d2 description
    = Raise (OverflowError msg).
Proof.
  pose proof (toordinal_bounds d2 Hv2) as Hb2.
  intros [He | [Hle He]].
  - unfold _create_multiday_event, ics.set_begin, ics.set_name, ics.Event_new.
    cbn [ics._end_time bind]. rewrite timedelta_days_eq.
    destruct (add_days_overflow d2 1 Hv2 ltac:(lia)) as [msg ->].
    cbn [bind]. eauto.
  - destruct (shifted_spec d2 1 Hv2 ltac:(lia)) as (Hv' & Ho & _ & _ & _ & _ & Hz2).
    rewrite create_multiday_event_unfold by lia.
    destruct (Z.ltb_spec (datetime.toordinal d2 + 1) (datetime.toordinal d1));
      [lia |].
    unfold ics.make_all_day, ics._end, datetime.date.
    cbn [ics.all_day ics.begin ics._end_time ics.name ics.description bind].
    rewrite !replace_midnight_idem, eqb_midnight by congruence.
    rewrite Ho.
    destruct (Z.eqb_spec (datetime.toordinal d1) (datetime.toordinal d2 + 1));
      [lia |].
    rewrite timedelta_days_eq.
    destruct (add_days_overflow
                (datetime.replace_midnight (datetime.shifted d2 1)) 1
                (valid_replace_midnight _ Hv')) as [msg ->].
    + rewrite toordinal_replace_midnight, Ho. lia.
    + cbn [bind]. eauto.
Qed.

End MultidayEvent.

(** C4.  The claimed span, [(d2 - d1) + 1 day], is what the builder
    assigns to [event.end], but not what the event it returns has:
    [make_all_day] then takes the day of the assigned end for the last day
    of the event and moves the end one day further.  For 2024-08-04 to
    2024-09-02 the event ends on 2024-09-04: it spans 31 days where
    [(d2 - d1) + 1 day] is 30 days. *)
Theorem create_multiday_event_ends_one_day_late :
  let d1 := datetime.mk 2024 8 4 0 0 0 0 (Some utc8) in
  let d2 := datetime.mk 2024 9 2 0 0 0 0 (Some utc8) in
  exists event end_date_exclusive,
    _create_multiday_event (calendar_of_year 2024) "Ghost Month 鬼月" d1 d2 ""
    = Ok event
    /\ ics.all_day event = true
    /\ ics.begin event = Some d1
    /\ ics._end event = Ok (Some end_date_exclusive)
    /\ end_date_exclusive = datetime.mk 2024 9 4 0 0 0 0 (Some utc8)
    /\ datetime.sub end_date_exclusive d1 = datetime.timedelta_days 31
    /\ datetime.timedelta_add (datetime.sub d2 d1) (datetime.timedelta_days 1)
       = datetime.timedelta_days 30.
Proof.
  cbv zeta. eexists _, _. split; [vm_compute; reflexivity |].
  repeat split.
Qed.

(** C5, the claim as stated fails: with the end date one day before the
    start date the builder does not fail; it returns a one-day event on the
    start date. *)
Lemma create_multiday_event_day_before_start_builds :
  let d1 := datetime.mk 2024 9 2 0 0 0 0 (Some utc8) in
  let d2 := datetime.mk 2024 9 1 0 0 0 0 (Some utc8) in
  datetime.date_lt d2 d1
  /\ exists event,
       _create_multiday_event (calendar_of_year 2024) "Ghost Month" d1 d2 ""
       = Ok event
       /\ ics.begin event = Some d1
       /\ ics._end event = Ok (Some (datetime.mk 2024 9 3 0 0 0 0 (Some utc8))).
Proof.
  cbv zeta. split; [unfold datetime.date_lt; vm_compute; reflexivity |].
  eexists. split; [vm_compute; reflexivity |]. split; reflexivity.
Qed.

(** C5, amended.  For every pair of datetimes of one time zone whose end
    date lies at least two days before the start date ([d2 + 1 day < d1]),
    [_create_multiday_event] fails instead of producing an event: the
    builder makes no range check of its own, and the end it assigns, the
    day after [d2], is refused by the end setter of [ics] with
    [ValueError], the end being before the begin. *)
Theorem create_multiday_event_refuses_reversed_range
    (self : ChineseMemorialCalendar) (title : string) (d1 d2 : datetime.t)
    (description : string) :
  datetime.valid d1 = true -> datetime.valid d2 = true ->
  datetime.tz d1 = datetime.tz d2 ->
  datetime.toordinal d2 + 1 < datetime.toordinal d1 ->
  _create_multiday_event self title d1 d2 description
  = Raise (ValueError "End must be after begin").
Proof.
  intros Hv1 Hv2 Hz Hlt. now apply create_multiday_event_refused.
Qed.

Lemma create_multiday_event_refuses_reversed_range_witness :
  _create_multiday_event (calendar_of_year 2024) "Ghost Month"
    (datetime.mk 2024 9 2 0 0 0 0 (Some utc8))
    (datetime.mk 2024 8 4 0 0 0 0 (Some utc8)) ""
  = Raise (ValueError "End must be after begin").
Proof.
  apply (create_multiday_event_refuses_reversed_range (calendar_of_year 2024)
           "Ghost Month" (datetime.mk 2024 9 2 0 0 0 0 (Some utc8))
           (datetime.mk 2024 8 4 0 0 0 0 (Some utc8)) "").
  - reflexivity.
  - reflexivity.
  - reflexivity.
  - vm_compute. reflexivity.
Defined.

(** ** Fixed solar occasions *)

Lemma days_in_month_le_31 (y m : Z) : datetime._days_in_month y m <= 31.
Proof.
  unfold datetime._days_in_month, datetime._DAYS_IN_MONTH.
  destruct ((m =? 2) && datetime._is_leap y); [lia |].
  destruct m as [| p | p]; try lia.
  do 4 (destruct p as [p | p |]; try lia).
Qed.

(** The fields of a date are C integers. *)
Lemma check_date_fields_fits (y m d : Z) :
  datetime.check_date_fields y m d = true ->
  datetime.fits_c_int y && datetime.fits_c_int m && datetime.fits_c_int d = true.
Proof.
  intros H. apply check_date_fields_iff in H as (Hy & Hm & Hd).
  pose proof (days_in_month_le_31 y m).
  unfold datetime.MINYEAR, datetime.MAXYEAR in Hy.
  unfold datetime.fits_c_int. rewrite !andb_true_iff, !Z.leb_le. lia.
Qed.

Lemma datetime_new_ok (y m d : Z) (z : option datetime.tzinfo) :
  datetime.check_date_fields y m d = true ->
  datetime.new y m d z = Ok (datetime.mk y m d 0 0 0 0 z).
Proof.
  intros H. unfold datetime.new.
  now rewrite (check_date_fields_fits y m d H), H.
Qed.

(** What [datetime(...)] returns is a date at midnight. *)
Lemma datetime_new_inv (y m d : Z) (z : option datetime.tzinfo) (dt : datetime.t) :
  datetime.new y m d z = Ok dt ->
  datetime.check_date_fields y m d = true /\ dt = datetime.mk y m d 0 0 0 0 z.
Proof.
  unfold datetime.new.
  destruct (datetime.fits_c_int y && datetime.fits_c_int m && datetime.fits_c_int d);
    [| discriminate].
  destruct (datetime.check_date_fields y m d); [| discriminate].
  now intros [= <-].
Qed.

Lemma check_fixed_day (y m d : Z) :
  datetime.MINYEAR <= y <= datetime.MAXYEAR ->
  1 <= m <= 12 -> 1 <= d <= 28 ->
  datetime.check_date_fields y m d = true.
Proof.
  intros Hy Hm Hd. apply check_date_fields_iff. repeat split; try lia.
  unfold datetime._days_in_month.
  destruct ((m =? 2) && datetime._is_leap y); [lia |].
  apply month_cases in Hm.
  repeat (destruct Hm as [Hm | Hm]); subst; simpl; lia.
Qed.

(** The solar generator, for a year of [datetime]. *)
Lemma generate_solar_calendar_events_result (self : ChineseMemorialCalendar) :
  datetime.MINYEAR <= year self <= datetime.MAXYEAR ->
  exists qingming_desc winter_solstice_desc,
    generate_solar_calendar_events self
    = Ok [("qingming.ics",
           ics.mkEvent (Some "Qingming Festival 清明节")
             (Some (datetime.mk (year self) 4 5 0 0 0 0 (Some (timezone self))))
             None true (Some qingming_desc));
          ("winter_solstice.ics",
           ics.mkEvent (Some "Winter Solstice 冬至")
             (Some (datetime.mk (year self) 12 22 0 0 0 0 (Some (timezone self))))
             None true (Some winter_solstice_desc))].
Proof.
  intros Hy. unfold generate_solar_calendar_events.
  rewrite (datetime_new_ok (year self) 4 5) by (apply check_fixed_day; lia).
  rewrite (datetime_new_ok (year self) 12 22) by (apply check_fixed_day; lia).
  cbn [bind]. rewrite !create_event_result. cbn [bind app].
  eexists _, _. reflexivity.
Qed.

(** C7.  For target year 2024 the Qingming Festival event starts on
    2024-04-05 and has the exclusive end 2024-04-06. *)
Theorem qingming_2024 (local_tz : datetime.tzinfo)
    (anniversaries : list anniversary) (output_dir : string) :
  exists event winter_solstice,
    generate_solar_calendar_events (mkSelf 2024 local_tz anniversaries output_dir)
    = Ok [("qingming.ics", event); winter_solstice]
    /\ ics.name event = Some "Qingming Festival 清明节"
    /\ ics.all_day event = true
    /\ ics.begin event = Some (datetime.mk 2024 4 5 0 0 0 0 (Some local_tz))
    /\ ics._end event = Ok (Some (datetime.mk 2024 4 6 0 0 0 0 (Some local_tz))).
Proof.
  destruct (generate_solar_calendar_events_result
              (mkSelf 2024 local_tz anniversaries output_dir))
    as (qd & wd & ->); [cbn; unfold datetime.MINYEAR, datetime.MAXYEAR; lia |].
  eexists _, _. split; [reflexivity |].
  repeat split.
Qed.

(** C10.  For every target year (a year of the Gregorian calendar of
    [datetime], 1 to 9999) the Winter Solstice event is placed on the fixed
    solar date 22 December of that year; no solstice is computed. *)
Theorem winter_solstice_on_december_22 (self : ChineseMemorialCalendar) :
  datetime.MINYEAR <= year self <= datetime.MAXYEAR ->
  exists qingming event,
    generate_solar_calendar_events self
    = Ok [qingming; ("winter_solstice.ics", event)]
    /\ ics.name event = Some "Winter Solstice 冬至"
    /\ ics.all_day event = true
    /\ ics._end_time event = None
    /\ ics.begin event
       = Some (datetime.mk (year self) 12 22 0 0 0 0 (Some (timezone self))).
Proof.
  intros Hy.
  destruct (generate_solar_calendar_events_result self Hy) as (qd & wd & ->).
  eexists _, _. split; [reflexivity |].
  repeat split.
Qed.

(** Outside the years of [datetime] no solar event is generated: the
    first date cannot be made.  The exception is [ValueError] for a year
    that is a C integer and [OverflowError] beyond. *)
Lemma generate_solar_calendar_events_out_of_range (self : ChineseMemorialCalendar) :
  ~ (datetime.MINYEAR <= year self <= datetime.MAXYEAR) ->
  exists msg,
    generate_solar_calendar_events self
    = Raise (if datetime.fits_c_int (year self) then ValueError msg
             else OverflowError msg).
Proof.
  intros Hy. unfold generate_solar_calendar_events, datetime.new.
  change (datetime.fits_c_int 4) with true.
  change (datetime.fits_c_int 5) with true. rewrite !andb_true_r.
  destruct (datetime.fits_c_int (year self)); [| cbn [bind]; eauto].
  destruct (datetime.check_date_fields (year self) 4 5) eqn:E.
  - apply check_date_fields_iff in E. tauto.
  - cbn [bind]. eauto.
Qed.

Lemma winter_solstice_on_december_22_witness :
  exists qingming event,
    generate_solar_calendar_events (calendar_of_year 2025)
    = Ok [qingming; ("winter_solstice.ics", event)]
    /\ ics.name event = Some "Winter Solstice 冬至"
    /\ ics.all_day event = true
    /\ ics._end_time event = None
    /\ ics.begin event = Some (datetime.mk 2025 12 22 0 0 0 0 (Some utc8)).
Proof.
  apply (winter_solstice_on_december_22 (calendar_of_year 2025)).
  vm_compute. split; discriminate.
Defined.

(** ** Lunar occasions *)

Section LunarOccasions.

Context {converter : Converter}.
Variable self : ChineseMemorialCalendar.

Lemma py_or_self (y : Z) : py_or (Some y) y = y.
Proof. unfold py_or. now destruct (y =? 0). Qed.

(** The lunar year a conversion is made for: the year given, or the
    target year when none (or 0) is given. *)
Lemma lunar_to_solar_ok (m d : Z) (year_arg : option Z) (s : Solar.t) :
  Lunar2Solar (Lunar.mk (py_or year_arg (year self)) m d false) = Ok s ->
  Solar.is_date s = true ->
  _lunar_to_solar self m d year_arg = Ok (Solar.to_datetime s (timezone self)).
Proof.
  intros HL Hs. unfold _lunar_to_solar. rewrite HL. cbn [bind].
  now apply datetime_new_ok.
Qed.

Lemma lunar_to_solar_raise (m d : Z) (year_arg : option Z) (e : exn) :
  Lunar2Solar (Lunar.mk (py_or year_arg (year self)) m d false) = Raise e ->
  _lunar_to_solar self m d year_arg = Raise e.
Proof. intros HL. unfold _lunar_to_solar. now rewrite HL. Qed.

Lemma valid_to_datetime (s : Solar.t) (z : datetime.tzinfo) :
  Solar.is_date s = true -> datetime.valid (Solar.to_datetime s z) = true.
Proof.
  intros H. apply valid_iff. cbn. split; [exact H | lia].
Qed.

(** The Ghost Month window is asked of the converter as lunar days 1 and
    30 of month 7, whatever the length of the month, and the event is
    built from the two dates. *)
Lemma ghost_month_window (s1 s30 : Solar.t) :
  Lunar2Solar (Lunar.mk (year self) 7 1 false) = Ok s1 ->
  Solar.is_date s1 = true ->
  Lunar2Solar (Lunar.mk (year self) 7 30 false) = Ok s30 ->
  Solar.is_date s30 = true ->
  let ghost_month_start := Solar.to_datetime s1 (timezone self) in
  let ghost_month_end := Solar.to_datetime s30 (timezone self) in
  _lunar_to_solar self 7 1 None = Ok ghost_month_start
  /\ _lunar_to_solar self 7 30 None = Ok ghost_month_end.
Proof.
  intros H1 V1 H30 V30. cbv zeta.
  split; now apply lunar_to_solar_ok.
Qed.

(** The New Year's Eve event, once the Ghost Month event is built. *)
Lemma generate_lunar_calendar_events_result (s1 s30 s : Solar.t)
    (ghost : ics.Event) :
  Lunar2Solar (Lunar.mk (year self) 7 1 false) = Ok s1 ->
  Solar.is_date s1 = true ->
  Lunar2Solar (Lunar.mk (year self) 7 30 false) = Ok s30 ->
  Solar.is_date s30 = true ->
  _create_multiday_event self "Ghost Month 鬼月"
    (Solar.to_datetime s1 (timezone self))
    (Solar.to_datetime s30 (timezone self)) ghost_festival_desc = Ok ghost ->
  Lunar2Solar (Lunar.mk (year self) 1 1 false) = Ok s ->
  Solar.is_date s = true ->
  1 < datetime._ymd2ord (Solar.year s) (Solar.month s) (Solar.day s) ->
  generate_lunar_calendar_events self
  = Ok [("ghost_month.ics", ghost);
        ("chinese_new_year_eve.ics",
         ics.mkEvent (Some "Chinese New Year's Eve 除夕")
           (Some (datetime.date
                    (datetime.shifted (Solar.to_datetime s (timezone self)) (-1))))
           None true (Some nye_desc))].
Proof.
  intros H1 V1 H30 V30 GE Hs Vs Hgt.
  destruct (ghost_month_window s1 s30 H1 V1 H30 V30) as (G1 & G30).
  assert (HNY : _lunar_to_solar self 1 1 (Some (year self))
                = Ok (Solar.to_datetime s (timezone self))).
  { apply lunar_to_solar_ok; [now rewrite py_or_self | exact Vs]. }
  set (new_year := Solar.to_datetime s (timezone self)) in *.
  assert (Vn : datetime.valid new_year = true) by now apply valid_to_datetime.
  pose proof (toordinal_bounds new_year Vn) as Bn.
  assert (Hpos : 0 < datetime.toordinal new_year + -1 <= datetime._MAXORDINAL).
  { change (datetime.toordinal new_year)
      with (datetime._ymd2ord (Solar.year s) (Solar.month s) (Solar.day s)) in *.
    lia. }
  unfold generate_lunar_calendar_events.
  rewrite G1, G30. cbn [bind]. rewrite GE. cbn [bind]. rewrite HNY. cbn [bind].
  unfold datetime.sub_delta.
  replace (datetime.timedelta_neg (datetime.timedelta_days 1))
    with (datetime.mk_timedelta (-1) 0 0) by reflexivity.
  rewrite (add_days new_year (-1) Vn Hpos). cbn [bind].
  rewrite create_event_result. reflexivity.
Qed.

(** There is no fallback: when the converter refuses lunar day 30 of
    month 7, no lunar event at all is generated. *)
Lemma ghost_month_no_fallback (e : exn) :
  Lunar2Solar (Lunar.mk (year self) 7 30 false) = Raise e ->
  exists e', generate_lunar_calendar_events self = Raise e'.
Proof.
  intros H30. unfold generate_lunar_calendar_events.
  destruct (_lunar_to_solar self 7 1 None) as [d1 | e1]; cbn [bind]; [| eauto].
  rewrite (lunar_to_solar_raise 7 30 None e H30). cbn [bind]. eauto.
Qed.

(** The two wrappers add nothing to the converter: converting a lunar date
    to a [datetime] and back asks the converter for the lunar date of the
    solar date it returned. *)
Lemma lunar_solar_wrappers_transparent
    (m d : Z) (year_arg : option Z) (s : Solar.t) :
  Lunar2Solar (Lunar.mk (py_or year_arg (year self)) m d false) = Ok s ->
  Solar.is_date s = true ->
  exists dt,
    _lunar_to_solar self m d year_arg = Ok dt
    /\ _solar_to_lunar self dt = Solar2Lunar s.
Proof.
  intros HL Hs. exists (Solar.to_datetime s (timezone self)).
  split; [now apply lunar_to_solar_ok |].
  unfold _solar_to_lunar. now destruct s.
Qed.

End LunarOccasions.

Example table_round_trip_2025_3_15 :
  let self := calendar_of_year 2025 in
  bind (@_lunar_to_solar ChineseCalendar.converter self 3 15 (Some 2025))
       (@_solar_to_lunar ChineseCalendar.converter self)
  = Ok (Lunar.mk 2025 3 15 false).
Proof. reflexivity. Qed.

Example table_years_are_consecutive :
  ChineseCalendar.lunar2solar (Lunar.mk 2024 12 29 false) = Ok (Solar.mk 2025 1 28)
  /\ ChineseCalendar.lunar2solar (Lunar.mk 2025 1 1 false) = Ok (Solar.mk 2025 1 29).
Proof. split; reflexivity. Qed.

(** C1 (as stated, it fails).  For the target year 2024 the Chinese New
    Year's Eve event is on 2024-02-09, the day before the lunar new year
    2024-02-10: its year is 2024, not 2023. *)
Lemma new_year_eve_2024_is_in_2024 :
  exists ghost event nye,
    @generate_lunar_calendar_events ChineseCalendar.converter (calendar_of_year 2024)
    = Ok [ghost; ("chinese_new_year_eve.ics", event)]
    /\ ics.begin event = Some nye
    /\ nye = datetime.mk 2024 2 9 0 0 0 0 (Some utc8)
    /\ datetime.year nye <> 2024 - 1.
Proof.
  eexists _, _, _. split; [vm_compute; reflexivity |].
  cbn [ics.begin]. repeat split.
  cbn. discriminate.
Qed.

(** C1 (amended).  For every target year Y for which the converter resolves
    the lunar dates the generator asks for (and the Ghost Month event,
    which comes first, is built from them), the Chinese New Year's Eve event
    starts exactly one solar day before [lunar_to_solar(1, 1, Y)]; the year
    of that day is the solar year of [lunar_to_solar(1, 1, Y)] itself
    whenever the lunar new year does not fall on 1 January (so Y, as for
    2024-02-09, and not Y - 1). *)
Theorem new_year_eve_is_day_before_lunar_new_year
    (converter : Converter) (self : ChineseMemorialCalendar)
    (s1 s30 s : Solar.t) :
  Lunar2Solar (Lunar.mk (year self) 7 1 false) = Ok s1 ->
  Solar.is_date s1 = true ->
  Lunar2Solar (Lunar.mk (year self) 7 30 false) = Ok s30 ->
  Solar.is_date s30 = true ->
  succeeds (_create_multiday_event self "Ghost Month 鬼月"
              (Solar.to_datetime s1 (timezone self))
              (Solar.to_datetime s30 (timezone self)) ghost_festival_desc)
  = true ->
  Lunar2Solar (Lunar.mk (year self) 1 1 false) = Ok s ->
  Solar.is_date s = true ->
  (Solar.month s, Solar.day s) <> (1, 1) ->
  exists ghost event new_year nye,
    generate_lunar_calendar_events self
    = Ok [ghost; ("chinese_new_year_eve.ics", event)]
    /\ _lunar_to_solar self 1 1 (Some (year self)) = Ok new_year
    /\ ics.name event = Some "Chinese New Year's Eve 除夕"
    /\ ics.begin event = Some nye
    /\ datetime.sub new_year nye = datetime.timedelta_days 1
    /\ datetime.year nye = datetime.year new_year
    /\ datetime.year new_year = Solar.year s.
Proof.
  intros H1 V1 H30 V30 Hghost Hs Vs Hne.
  destruct (_create_multiday_event self "Ghost Month 鬼月"
              (Solar.to_datetime s1 (timezone self))
              (Solar.to_datetime s30 (timezone self)) ghost_festival_desc)
    as [ghost |] eqn:GE; [clear Hghost | discriminate Hghost].
  assert (HNY : _lunar_to_solar self 1 1 (Some (year self))
                = Ok (Solar.to_datetime s (timezone self))).
  { apply lunar_to_solar_ok; [now rewrite py_or_self | exact Vs]. }
  pose proof (ymd2ord_after_first _ _ _ Vs Hne) as Hgt.
  rewrite (generate_lunar_calendar_events_result self s1 s30 s ghost
             H1 V1 H30 V30 GE Hs Vs Hgt).
  set (new_year := Solar.to_datetime s (timezone self)) in *.
  assert (Vn : datetime.valid new_year = true) by now apply valid_to_datetime.
  pose proof (toordinal_bounds new_year Vn) as Bn.
  assert (Hpos : 0 < datetime.toordinal new_year + -1 <= datetime._MAXORDINAL).
  { change (datetime.toordinal new_year)
      with (datetime._ymd2ord (Solar.year s) (Solar.month s) (Solar.day s)) in *.
    lia. }
  eexists _, _, new_year, (datetime.date (datetime.shifted new_year (-1))).
  split; [reflexivity |].
  split; [exact HNY |].
  split; [reflexivity |].
  split; [reflexivity |].
  destruct (shifted_spec new_year (-1) Vn Hpos) as (_ & Ho & Hh & Hm & Hsec & Hu & _).
  split; [| split].
  - change new_year with (datetime.replace_midnight new_year) at 1.
    unfold datetime.date. rewrite sub_midnight, Ho. f_equal. lia.
  - rewrite year_date. apply shifted_pred_year; [exact Vs | exact Hne].
  - reflexivity.
Qed.

Lemma new_year_eve_is_day_before_lunar_new_year_witness :
  exists ghost event new_year nye,
    @generate_lunar_calendar_events ChineseCalendar.converter (calendar_of_year 2024)
    = Ok [ghost; ("chinese_new_year_eve.ics", event)]
    /\ @_lunar_to_solar ChineseCalendar.converter (calendar_of_year 2024) 1 1 (Some 2024)
       = Ok new_year
    /\ ics.name event = Some "Chinese New Year's Eve 除夕"
    /\ ics.begin event = Some nye
    /\ datetime.sub new_year nye = datetime.timedelta_days 1
    /\ datetime.year nye = datetime.year new_year
    /\ datetime.year new_year = 2024.
Proof.
  apply (new_year_eve_is_day_before_lunar_new_year ChineseCalendar.converter
           (calendar_of_year 2024)
           (Solar.mk 2024 8 4) (Solar.mk 2024 9 2) (Solar.mk 2024 2 10)).
  - vm_compute. reflexivity.
  - reflexivity.
  - vm_compute. reflexivity.
  - reflexivity.
  - vm_compute. reflexivity.
  - vm_compute. reflexivity.
  - reflexivity.
  - cbn. discriminate.
Defined.

(** C2 (the code at the failing input).  The 7th lunar month of 2022 has 29
    days: lunar day 29 is 2022-08-26 and there is no day 30.  The generator
    asks for day 30 all the same, the conversion raises, and no Ghost Month
    event is produced, instead of one ending on 2022-08-26. *)
Theorem ghost_month_2022_requests_day_30 :
  let self := calendar_of_year 2022 in
  @_lunar_to_solar ChineseCalendar.converter self 7 29 None
  = Ok (datetime.mk 2022 8 26 0 0 0 0 (Some utc8))
  /\ @_lunar_to_solar ChineseCalendar.converter self 7 30 None
     = Raise (DateNotExist "date does not exist")
  /\ @generate_lunar_calendar_events ChineseCalendar.converter self
     = Raise (DateNotExist "date does not exist").
Proof. cbv zeta. repeat split; vm_compute; reflexivity. Qed.

(** ** Loading the anniversaries *)

Lemma has_field_true (entry : gmap string pyval) (key : string) :
  has_field entry key = true -> exists v, entry !! key = Some v.
Proof. unfold has_field. destruct (entry !! key); [eauto | discriminate]. Qed.

(** A well-formed entry yields its record. *)
Lemma anniversary_of_entry_well_formed (entry : gmap string pyval) :
  well_formed entry = true ->
  exists n m d,
    entry !! "name" = Some n /\ entry !! "lunar_month" = Some m
    /\ entry !! "lunar_day" = Some d
    /\ anniversary_of_entry entry
       = Ok (mkAnniversary n (get entry "chinese_name" (PyStr "")) m d
                           (get entry "notes" (PyStr ""))).
Proof.
  unfold well_formed, required_fields. cbn [forallb].
  rewrite !andb_true_iff. intros (Hn & Hm & Hd & _).
  apply has_field_true in Hn as [n Hn]. apply has_field_true in Hm as [m Hm].
  apply has_field_true in Hd as [d Hd].
  exists n, m, d. repeat split; try assumption.
  unfold anniversary_of_entry, getitem. now rewrite Hn, Hm, Hd.
Qed.

(** A malformed entry raises [KeyError] for the first field it misses. *)
Lemma anniversary_of_entry_malformed (entry : gmap string pyval) :
  well_formed entry = false ->
  exists key,
    In key required_fields /\ entry !! key = None
    /\ anniversary_of_entry entry = Raise (KeyError key).
Proof.
  unfold well_formed, required_fields, has_field, anniversary_of_entry, getitem.
  cbn [forallb In].
  destruct (entry !! "name") eqn:Hn; cbn [bind andb].
  - destruct (entry !! "lunar_month") eqn:Hm; cbn [bind andb].
    + destruct (entry !! "lunar_day") eqn:Hd; cbn [bind andb].
      * discriminate.
      * intros _. exists "lunar_day". auto 6.
    + intros _. exists "lunar_month". auto 6.
  - intros _. exists "name". auto 6.
Qed.

Lemma records_of_cons (entry : gmap string pyval)
    (rest : list (gmap string pyval)) :
  records_of (entry :: rest)
  = match anniversary_of_entry entry with
    | Ok a => a :: records_of rest
    | Raise _ => records_of rest
    end.
Proof.
  unfold records_of. cbn. now destruct (anniversary_of_entry entry).
Qed.

(** The loop keeps the records of the well-formed entries, in order, prints
    one warning for each malformed entry, and always runs to the end. *)
Lemma load_entries_spec (entries : list (gmap string pyval))
    (self : ChineseMemorialCalendar) (w : world) :
  exists self' w',
    load_entries (map Mapping entries) self w = Ok (self', w')
    /\ anniversaries self' = (anniversaries self ++ records_of entries)%list
    /\ year self' = year self /\ timezone self' = timezone self
    /\ output_dir self' = output_dir self
    /\ files w' = files w
    /\ (length (stdout w')
        = length (stdout w)
          + length (filter (fun e => well_formed e = false) entries))%nat.
Proof.
  revert self w. induction entries as [| entry rest IH]; intros self w.
  - exists self, w. cbn. rewrite app_nil_r. repeat split; lia.
  - cbn [map load_entries anniversary_of_item]. rewrite records_of_cons.
    destruct (well_formed entry) eqn:Hwf.
    + destruct (anniversary_of_entry_well_formed entry Hwf)
        as (n & m & d & _ & _ & _ & ->).
      destruct (IH (append_anniversary self
                      (mkAnniversary n (get entry "chinese_name" (PyStr "")) m d
                                     (get entry "notes" (PyStr "")))) w)
        as (self' & w' & -> & Ha & Hy & Hz & Ho & Hf & Hl).
      exists self', w'. rewrite filter_cons_False by congruence.
      cbn [anniversaries append_anniversary year timezone output_dir] in *.
      rewrite Ha, <- app_assoc. repeat split; assumption.
    + destruct (anniversary_of_entry_malformed entry Hwf) as (key & _ & _ & ->).
      destruct (IH self (print w (missing_field_warning key)))
        as (self' & w' & HL & Ha & Hy & Hz & Ho & Hf & Hl).
      exists self', w'. rewrite filter_cons_True by assumption.
      unfold missing_field_warning in HL. rewrite HL.
      repeat split; try assumption.
      rewrite Hl. cbn [print stdout length]. rewrite length_app. cbn. lia.
Qed.

(** C8.  For every anniversary configuration holding one entry that misses
    a required field and one well-formed entry (in either order), loading
    skips the malformed entry with one warning, retains exactly one
    anniversary record, that of the well-formed entry, and returns normally. *)
Theorem load_skips_malformed_entry
    (local_tz : datetime.tzinfo) (target_year : Z) (dir : string) (w : world)
    (config_file_name : string)
    (config : gmap string node)
    (bad good : gmap string pyval) (entries : list (gmap string pyval)) :
  well_formed bad = false ->
  well_formed good = true ->
  entries = [bad; good] \/ entries = [good; bad] ->
  config !! "anniversaries" = Some (Sequence (map Mapping entries)) ->
  exists record key self' w',
    load_anniversaries_config (mkSelf target_year local_tz [] dir) w
      config_file_name (Parsed (Some config)) = Ok (self', w')
    /\ anniversaries self' = [record]
    /\ anniversary_of_entry good = Ok record
    /\ In key required_fields /\ bad !! key = None
    /\ stdout w' = (stdout w ++ [missing_field_warning key])%list
    /\ files w' = files w.
Proof.
  intros Hbad Hgood Hentries Hconfig.
  destruct (anniversary_of_entry_well_formed good Hgood)
    as (n & m & d & _ & _ & _ & Hrec).
  destruct (anniversary_of_entry_malformed bad Hbad) as (key & Hin & Hnone & Hkey).
  eexists _, key, _, _.
  unfold load_anniversaries_config.
  destruct (decide (config = ∅)) as [-> | _].
  { rewrite lookup_empty in Hconfig. discriminate. }
  rewrite Hconfig. cbn [iterate bind].
  destruct Hentries as [-> | ->]; cbn [map load_entries anniversary_of_item];
    rewrite ?Hkey, ?Hrec; cbn [load_entries anniversary_of_item];
    rewrite ?Hkey, ?Hrec;
    (split; [reflexivity |]); cbn; auto 8.
Qed.

Lemma load_skips_malformed_entry_witness :
  exists record key self' w',
    load_anniversaries_config (mkSelf 2025 utc8 [] default_output_dir) empty_world
      "anniversaries.yml" (Parsed (Some example_config)) = Ok (self', w')
    /\ anniversaries self' = [record]
    /\ anniversary_of_entry entry_grandmother = Ok record
    /\ In key required_fields /\ entry_grandfather !! key = None
    /\ stdout w' = (stdout empty_world ++ [missing_field_warning key])%list
    /\ files w' = files empty_world.
Proof.
  apply (load_skips_malformed_entry utc8 2025 default_output_dir empty_world
           "anniversaries.yml" example_config entry_grandfather entry_grandmother
           [entry_grandfather; entry_grandmother]).
  - reflexivity.
  - reflexivity.
  - left. reflexivity.
  - reflexivity.
Defined.
(** ** Generating the calendar files *)

(** Whatever [_create_multiday_event] returns has the title and the
    description it was given and begins at midnight of the start date. *)
Lemma create_multiday_event_inv
    (self : ChineseMemorialCalendar) (title : string) (d1 d2 : datetime.t)
    (description : string) (event : ics.Event) :
  _create_multiday_event self title d1 d2 description = Ok event ->
  ics.name event = Some title /\ ics.description event = Some description
  /\ ics.all_day event = true /\ ics.begin event = Some (datetime.date d1).
Proof.
  unfold _create_multiday_event, ics.set_begin, ics.set_end, ics.set_name,
    ics.Event_new.
  cbn [ics._end_time ics.begin ics.name ics.description ics.all_day bind].
  destruct (datetime.add d2 _) as [next |]; cbn [bind]; [| discriminate].
  destruct (datetime.ltb _ _); cbn [bind]; [discriminate |].
  unfold ics.make_all_day, ics._end.
  cbn [ics._end_time ics.begin ics.name ics.description ics.all_day bind].
  destruct (datetime.eqb _ _); cbn [bind].
  - intros [= <-]. repeat split.
  - destruct (datetime.add _ _); cbn [bind]; [| discriminate].
    intros [= <-]. repeat split.
Qed.

Section GenerateCalendars.

Context {converter : Converter} {filesystem : FileSystem}.
Variable self : ChineseMemorialCalendar.

Lemma succeeds_Ok {A : Type} (r : result A) :
  succeeds r = true -> exists a, r = Ok a.
Proof. destruct r; [eauto | discriminate]. Qed.

Lemma mapM_Forall2 {A B : Type} (f : A -> result B) (xs : list A) (ys : list B) :
  mapM f xs = Ok ys -> Forall2 (fun x y => f x = Ok y) xs ys.
Proof.
  revert ys. induction xs as [| x xs IH]; intros ys; cbn [mapM].
  - intros [= <-]. constructor.
  - destruct (f x) as [y |] eqn:Hx; cbn [bind]; [| discriminate].
    destruct (mapM f xs) as [ys' |]; cbn [bind]; [| discriminate].
    intros [= <-]. constructor; auto.
Qed.

(** The two solar events, in the order they are appended. *)
Lemma generate_solar_calendar_events_shape (events : list (string * ics.Event)) :
  generate_solar_calendar_events self = Ok events ->
  exists qingming winter_solstice,
    events = [("qingming.ics", qingming); ("winter_solstice.ics", winter_solstice)]
    /\ ics.name qingming = Some "Qingming Festival 清明节"
    /\ ics.name winter_solstice = Some "Winter Solstice 冬至"
    /\ is_Some (ics.begin qingming) /\ is_Some (ics.begin winter_solstice).
Proof.
  unfold generate_solar_calendar_events.
  destruct (datetime.new (year self) 4 5 _) as [q |]; cbn [bind]; [| discriminate].
  rewrite create_event_result. cbn [bind].
  destruct (datetime.new (year self) 12 22 _) as [ws |]; cbn [bind]; [| discriminate].
  rewrite create_event_result. cbn [bind].
  intros [= <-]. eexists _, _. split; [reflexivity |].
  cbn. eauto.
Qed.

(** The two lunar events, in the order they are appended. *)
Lemma generate_lunar_calendar_events_shape (events : list (string * ics.Event)) :
  generate_lunar_calendar_events self = Ok events ->
  exists ghost_month nye,
    events = [("ghost_month.ics", ghost_month); ("chinese_new_year_eve.ics", nye)]
    /\ ics.name ghost_month = Some "Ghost Month 鬼月"
    /\ ics.name nye = Some "Chinese New Year's Eve 除夕"
    /\ is_Some (ics.begin ghost_month) /\ is_Some (ics.begin nye).
Proof.
  unfold generate_lunar_calendar_events.
  destruct (_lunar_to_solar self 7 1 None) as [d1 |]; cbn [bind]; [| discriminate].
  destruct (_lunar_to_solar self 7 30 None) as [d30 |]; cbn [bind]; [| discriminate].
  destruct (_create_multiday_event self _ d1 d30 _) as [ghost |] eqn:GE;
    cbn [bind]; [| discriminate].
  apply create_multiday_event_inv in GE as (Hn & _ & _ & Hb).
  destruct (_lunar_to_solar self 1 1 _) as [ny |]; cbn [bind]; [| discriminate].
  destruct (datetime.sub_delta ny _) as [eve |]; cbn [bind]; [| discriminate].
  rewrite create_event_result. cbn [bind].
  intros [= <-]. eexists _, _. split; [reflexivity |].
  rewrite Hn, Hb. cbn. eauto.
Qed.

Lemma anniversary_event_begin (a : anniversary) (fe : string * ics.Event) :
  anniversary_event self a = Ok fe -> is_Some (ics.begin (snd fe)).
Proof.
  unfold anniversary_event.
  destruct (as_int (lunar_month a)) as [m |]; cbn [bind]; [| discriminate].
  destruct (as_int (lunar_day a)) as [d |]; cbn [bind]; [| discriminate].
  destruct (_lunar_to_solar self m d None) as [date |]; cbn [bind]; [| discriminate].
  rewrite create_event_result. cbn [bind].
  intros [= <-]. cbn. eauto.
Qed.

(** One event for each anniversary, in the order of [self.anniversaries]. *)
Lemma generate_anniversary_events_shape (events : list (string * ics.Event)) :
  generate_anniversary_events self = Ok events ->
  Forall2 (fun a fe => anniversary_event self a = Ok fe) (anniversaries self) events
  /\ Forall (fun fe => is_Some (ics.begin (snd fe))) events.
Proof.
  intros H. apply mapM_Forall2 in H. split; [exact H |].
  induction H as [| a fe l l' Hfe _ IH]; constructor; auto.
  now apply (anniversary_event_begin a).
Qed.

(** Saving an event that has a begin prints its line and then opens its
    file: it returns exactly when the file system lets the file be
    opened. *)
Lemma save_event_to_file_spec (w : world) (fe : string * ics.Event) :
  is_Some (ics.begin (snd fe)) ->
  _save_event_to_file self w (snd fe) (fst fe)
  = match open_raises (print w (saved_line fe)) (saved_path self fe) with
    | Some e => Raise e
    | None =>
        Ok (saved_path self fe,
            mkWorld (stdout w ++ [saved_line fe])
                    (files w ++ [(saved_path self fe, [snd fe])]) (dirs w))
    end.
Proof.
  intros [b Hb].
  unfold _save_event_to_file, saved_line, saved_path, write_file.
  rewrite Hb. now destruct (open_raises _ _).
Qed.

(** When the saving loop returns, it has written the events one after the
    other, in list order, and collected their paths in the same order. *)
Lemma save_events_inv (events : list (string * ics.Event))
    (generated_files : list string) (w : world)
    (paths : list string) (w' : world) :
  Forall (fun fe => is_Some (ics.begin (snd fe))) events ->
  save_events self events generated_files w = Ok (paths, w') ->
  paths = (generated_files ++ map (saved_path self) events)%list
  /\ files w'
     = (files w ++ map (fun fe => (saved_path self fe, [snd fe])) events)%list
  /\ stdout w' = (stdout w ++ map saved_line events)%list
  /\ dirs w' = dirs w.
Proof.
  intros H. revert generated_files w.
  induction H as [| fe rest Hfe _ IH]; intros generated_files w.
  - cbn. intros [= <- <-]. now rewrite !app_nil_r.
  - destruct fe as [filename event]. cbn [save_events].
    pose proof (save_event_to_file_spec w (filename, event) Hfe) as E.
    cbn [fst snd] in E. rewrite E. clear E.
    destruct (open_raises _ _); cbn [bind fst snd]; [discriminate |].
    intros Hsave. apply IH in Hsave as (-> & Hf & Hs & Hd).
    cbn [map]. rewrite Hf, Hs, Hd. cbn [files stdout dirs].
    now rewrite <- !app_assoc.
Qed.

(** When a generator raises, no file is written: the three lists are
    built before the first event is saved. *)
Lemma generate_calendars_raises (w : world) :
  succeeds (generate_solar_calendar_events self) = false
  \/ succeeds (generate_lunar_calendar_events self) = false
  \/ succeeds (generate_anniversary_events self) = false ->
  exists e, generate_calendars self w = Raise e.
Proof.
  unfold generate_calendars.
  destruct (generate_solar_calendar_events self); cbn [bind succeeds]; [| eauto].
  destruct (generate_lunar_calendar_events self); cbn [bind succeeds]; [| eauto].
  destruct (generate_anniversary_events self); cbn [bind succeeds]; [| eauto].
  intros [H | [H | H]]; discriminate.
Qed.

(** [generate_calendars] returns only when the three generators did, and
    then it has saved their events in order. *)
Lemma generate_calendars_inv (w : world) (paths : list string) (w' : world) :
  generate_calendars self w = Ok (paths, w') ->
  exists qingming winter_solstice ghost_month nye anniversary_events,
    let events :=
      ([("qingming.ics", qingming); ("winter_solstice.ics", winter_solstice);
        ("ghost_month.ics", ghost_month); ("chinese_new_year_eve.ics", nye)]
       ++ anniversary_events)%list in
    generate_solar_calendar_events self
    = Ok [("qingming.ics", qingming); ("winter_solstice.ics", winter_solstice)]
    /\ generate_lunar_calendar_events self
       = Ok [("ghost_month.ics", ghost_month); ("chinese_new_year_eve.ics", nye)]
    /\ generate_anniversary_events self = Ok anniversary_events
    /\ (ics.name qingming = Some "Qingming Festival 清明节"
        /\ ics.name winter_solstice = Some "Winter Solstice 冬至"
        /\ ics.name ghost_month = Some "Ghost Month 鬼月"
        /\ ics.name nye = Some "Chinese New Year's Eve 除夕")
    /\ Forall2 (fun a fe => anniversary_event self a = Ok fe)
               (anniversaries self) anniversary_events
    /\ paths = map (saved_path self) events
    /\ files w'
       = (files w ++ map (fun fe => (saved_path self fe, [snd fe])) events)%list
    /\ stdout w' = (stdout w ++ map saved_line events)%list
    /\ dirs w' = dirs w.
Proof.
  unfold generate_calendars.
  destruct (generate_solar_calendar_events self) as [solar |] eqn:Hs;
    cbn [bind]; [| discriminate].
  destruct (generate_lunar_calendar_events self) as [lunar |] eqn:Hl;
    cbn [bind]; [| discriminate].
  destruct (generate_anniversary_events self) as [anniv |] eqn:Ha;
    cbn [bind]; [| discriminate].
  destruct (generate_solar_calendar_events_shape solar Hs)
    as (q & ws & -> & Hq & Hws & Bq & Bws).
  destruct (generate_lunar_calendar_events_shape lunar Hl)
    as (g & n & -> & Hg & Hn & Bg & Bn).
  destruct (generate_anniversary_events_shape anniv Ha) as [HF2 HB].
  assert (HBall : Forall (fun fe => is_Some (ics.begin (snd fe)))
                    ([("qingming.ics", q); ("winter_solstice.ics", ws);
                      ("ghost_month.ics", g); ("chinese_new_year_eve.ics", n)]
                     ++ anniv)%list).
  { repeat (constructor; [assumption |]). exact HB. }
  intros Hsave.
  destruct (save_events_inv _ [] w paths w' HBall Hsave) as (-> & Hf & Hout & Hd).
  exists q, ws, g, n, anniv. cbv zeta. cbn [app] in *. auto 12.
Qed.

End GenerateCalendars.

(** C9, the claim as stated fails: for the target year 2022 no event at
    all is emitted.  The lunar generator raises (there is no day 30 in the
    7th lunar month of 2022), and [generate_calendars] raises with it, in a
    world where the output directory exists and files can be written. *)
Lemma generate_calendars_2022_emits_nothing :
  @generate_calendars ChineseCalendar.converter ExampleFileSystem.filesystem
    (calendar_of_year 2022) ready_world
  = Raise (DateNotExist "date does not exist").
Proof. vm_compute. reflexivity. Qed.

(** C9, amended.  For every year and every list of loaded anniversaries for
    which [generate_calendars] returns (the three generators have produced
    their events and every file could be opened), it has emitted the events
    in a fixed order: Qingming, Winter Solstice, Ghost Month, Chinese New
    Year's Eve, then one event per anniversary record in the order of the
    records.  The files were written, the lines printed and the paths
    returned in that order. *)
Theorem generate_calendars_order
    (converter : Converter) (filesystem : FileSystem)
    (self : ChineseMemorialCalendar) (w : world)
    (paths : list string) (w' : world) :
  generate_calendars self w = Ok (paths, w') ->
  exists qingming winter_solstice ghost_month nye anniversary_events,
    let events :=
      ([("qingming.ics", qingming); ("winter_solstice.ics", winter_solstice);
        ("ghost_month.ics", ghost_month); ("chinese_new_year_eve.ics", nye)]
       ++ anniversary_events)%list in
    generate_solar_calendar_events self
    = Ok [("qingming.ics", qingming); ("winter_solstice.ics", winter_solstice)]
    /\ generate_lunar_calendar_events self
       = Ok [("ghost_month.ics", ghost_month); ("chinese_new_year_eve.ics", nye)]
    /\ generate_anniversary_events self = Ok anniversary_events
    /\ ics.name qingming = Some "Qingming Festival 清明节"
    /\ ics.name winter_solstice = Some "Winter Solstice 冬至"
    /\ ics.name ghost_month = Some "Ghost Month 鬼月"
    /\ ics.name nye = Some "Chinese New Year's Eve 除夕"
    /\ Forall2 (fun a fe => anniversary_event self a = Ok fe)
               (anniversaries self) anniversary_events
    /\ paths = map (saved_path self) events
    /\ files w'
       = (files w ++ map (fun fe => (saved_path self fe, [snd fe])) events)%list
    /\ stdout w' = (stdout w ++ map saved_line events)%list.
Proof.
  intros H.
  destruct (generate_calendars_inv self w paths w' H)
    as (q & ws & g & n & anniv & Hs & Hl & Ha & (Hq & Hws & Hg & Hn) & HF2
        & Hp & Hf & Hout & _).
  exists q, ws, g, n, anniv. cbv zeta. auto 12.
Qed.

Lemma generate_calendars_order_witness :
  let self := append_anniversary (calendar_of_year 2025)
                (mkAnniversary (PyStr "Grandmother") (PyStr "") (PyInt 3)
                               (PyInt 15) (PyStr "")) in
  exists paths w',
    @generate_calendars ChineseCalendar.converter ExampleFileSystem.filesystem
      self ready_world = Ok (paths, w')
    /\ exists qingming winter_solstice ghost_month nye anniversary_events,
      let events :=
        ([("qingming.ics", qingming); ("winter_solstice.ics", winter_solstice);
          ("ghost_month.ics", ghost_month); ("chinese_new_year_eve.ics", nye)]
         ++ anniversary_events)%list in
      @generate_solar_calendar_events self
      = Ok [("qingming.ics", qingming); ("winter_solstice.ics", winter_solstice)]
      /\ @generate_lunar_calendar_events ChineseCalendar.converter self
         = Ok [("ghost_month.ics", ghost_month); ("chinese_new_year_eve.ics", nye)]
      /\ @generate_anniversary_events ChineseCalendar.converter self
         = Ok anniversary_events
      /\ ics.name qingming = Some "Qingming Festival 清明节"
      /\ ics.name winter_solstice = Some "Winter Solstice 冬至"
      /\ ics.name ghost_month = Some "Ghost Month 鬼月"
      /\ ics.name nye = Some "Chinese New Year's Eve 除夕"
      /\ Forall2 (fun a fe => @anniversary_event ChineseCalendar.converter self a
                              = Ok fe)
                 (anniversaries self) anniversary_events
      /\ paths = map (saved_path self) events
      /\ files w'
         = (files ready_world
            ++ map (fun fe => (saved_path self fe, [snd fe])) events)%list
      /\ stdout w' = (stdout ready_world ++ map saved_line events)%list.
Proof.
  cbv zeta. eexists _, _.
  assert (E : forall (P Q : Prop), P -> (P -> Q) -> P /\ Q) by tauto.
  apply E; clear E; [vm_compute; reflexivity |].
  intros H.
  exact (generate_calendars_order ChineseCalendar.converter
           ExampleFileSystem.filesystem _ ready_world _ _ H).
Defined.

(** * Further properties *)

(** ** Loading the configuration *)

Lemma warnings_of_cons (entry : gmap string pyval)
    (rest : list (gmap string pyval)) :
  warnings_of (entry :: rest)
  = match anniversary_of_entry entry with
    | Raise (KeyError key) => missing_field_warning key :: warnings_of rest
    | _ => warnings_of rest
    end.
Proof.
  unfold warnings_of. cbn.
  destruct (anniversary_of_entry entry) as [a | []]; reflexivity.
Qed.

Lemma first_missing_well_formed (entry : gmap string pyval) :
  first_missing entry = None <-> well_formed entry = true.
Proof.
  unfold first_missing, well_formed, required_fields. cbn.
  destruct (has_field entry "name"), (has_field entry "lunar_month"),
    (has_field entry "lunar_day"); cbn; split; congruence.
Qed.

(** X1.  An entry that lacks a required field raises [KeyError] for the
    first field it lacks, in the order name, lunar_month, lunar_day; an
    entry that lacks none yields a record.  Nothing else is ever raised. *)
Theorem anniversary_of_entry_first_missing (entry : gmap string pyval) :
  match first_missing entry with
  | Some key => anniversary_of_entry entry = Raise (KeyError key)
                /\ In key required_fields /\ entry !! key = None
  | None => succeeds (anniversary_of_entry entry) = true
  end.
Proof.
  unfold first_missing, required_fields, has_field, anniversary_of_entry, getitem.
  cbn [List.find In].
  destruct (entry !! "name") eqn:Hn; cbn [negb bind].
  - destruct (entry !! "lunar_month") eqn:Hm; cbn [negb bind].
    + destruct (entry !! "lunar_day") eqn:Hd; cbn [negb bind succeeds]; auto 6.
    + auto 6.
  - auto 6.
Qed.

(** X2.  An entry yields a record exactly when it has the three required
    fields; the record then holds the entry's values, with the empty
    string for an absent chinese_name or notes. *)
Theorem anniversary_of_entry_fields (entry : gmap string pyval) (a : anniversary) :
  anniversary_of_entry entry = Ok a
  <-> (entry !! "name" = Some (name a)
       /\ entry !! "lunar_month" = Some (lunar_month a)
       /\ entry !! "lunar_day" = Some (lunar_day a)
       /\ chinese_name a = default (PyStr "") (entry !! "chinese_name")
       /\ notes a = default (PyStr "") (entry !! "notes")).
Proof.
  unfold anniversary_of_entry, getitem, get. split.
  - destruct (entry !! "name") as [n |]; cbn [bind]; [| discriminate].
    destruct (entry !! "lunar_month") as [m |]; cbn [bind]; [| discriminate].
    destruct (entry !! "lunar_day") as [d |]; cbn [bind]; [| discriminate].
    intros [= <-]. cbn.
    destruct (entry !! "chinese_name"), (entry !! "notes"); auto.
  - intros (-> & -> & -> & Hc & Hn). cbn [bind]. destruct a as [n c m d o].
    cbn in *. subst.
    destruct (entry !! "chinese_name"), (entry !! "notes"); reflexivity.
Qed.

Lemma anniversary_of_entry_raises_key_error (entry : gmap string pyval) (e : exn) :
  anniversary_of_entry entry = Raise e -> exists key, e = KeyError key.
Proof.
  unfold anniversary_of_entry, getitem.
  destruct (entry !! "name"); cbn [bind]; [| intros [= <-]; eauto].
  destruct (entry !! "lunar_month"); cbn [bind]; [| intros [= <-]; eauto].
  destruct (entry !! "lunar_day"); cbn [bind]; [discriminate | intros [= <-]; eauto].
Qed.

Lemma records_warnings_length (entries : list (gmap string pyval)) :
  (length (records_of entries) + length (warnings_of entries))%nat
  = length entries.
Proof.
  induction entries as [| entry rest IH]; [reflexivity |].
  rewrite records_of_cons, warnings_of_cons.
  destruct (anniversary_of_entry entry) as [a | e] eqn:E.
  - cbn [length]. lia.
  - destruct (anniversary_of_entry_raises_key_error entry e E) as [key ->].
    cbn [length]. lia.
Qed.

Lemma load_entries_output (entries : list (gmap string pyval))
    (self : ChineseMemorialCalendar) (w : world) :
  load_entries (map Mapping entries) self w
  = Ok (mkSelf (year self) (timezone self)
               (anniversaries self ++ records_of entries)%list (output_dir self),
        mkWorld (stdout w ++ warnings_of entries)%list (files w) (dirs w)).
Proof.
  revert self w. induction entries as [| entry rest IH]; intros self w.
  - cbn. rewrite !app_nil_r. now destruct self, w.
  - cbn [map load_entries anniversary_of_item].
    rewrite records_of_cons, warnings_of_cons.
    destruct (anniversary_of_entry entry) as [a | e] eqn:E.
    + rewrite IH. cbn [append_anniversary year timezone anniversaries output_dir].
      now rewrite <- app_assoc.
    + destruct (anniversary_of_entry_raises_key_error entry e E) as [key ->].
      rewrite IH. unfold missing_field_warning. cbn [print stdout files dirs].
      now rewrite <- app_assoc.
Qed.

(** The loop runs through a list part by part. *)
Lemma load_entries_app (before after : list item)
    (self : ChineseMemorialCalendar) (w : world) :
  load_entries (before ++ after) self w
  = match load_entries before self w with
    | Ok (self', w') => load_entries after self' w'
    | Raise e => Raise e
    end.
Proof.
  revert self w. induction before as [| entry rest IH]; intros self w;
    [reflexivity |].
  cbn [app load_entries].
  destruct (anniversary_of_item entry) as [a | []]; try reflexivity; apply IH.
Qed.

(** An item that is no mapping stops the loop with [TypeError]. *)
Lemma load_entries_scalar (v : pyval) (rest : list item)
    (self : ChineseMemorialCalendar) (w : world) :
  exists msg, load_entries (Scalar v :: rest) self w = Raise (TypeError msg).
Proof. destruct v; cbn; eauto. Qed.

Lemma load_parsed_output
    (self : ChineseMemorialCalendar) (w : world) (config_file_name : string)
    (config : gmap string node)
    (entries : list (gmap string pyval)) :
  config !! "anniversaries" = Some (Sequence (map Mapping entries)) ->
  load_anniversaries_config self w config_file_name (Parsed (Some config))
  = Ok (mkSelf (year self) (timezone self)
               (anniversaries self ++ records_of entries)%list (output_dir self),
        mkWorld (stdout w ++ warnings_of entries)%list (files w) (dirs w)).
Proof.
  intros Hconfig. unfold load_anniversaries_config.
  destruct (decide (config = ∅)) as [-> | _].
  { rewrite lookup_empty in Hconfig. discriminate. }
  rewrite Hconfig. cbn [iterate bind]. apply load_entries_output.
Qed.

(** X3.  Loading a configuration that has a list under [anniversaries]
    runs through the items in order.  When all of them are mappings it does
    not raise: it appends to [self.anniversaries] the records of the
    entries that have all required fields, in the order of the
    configuration, prints one warning for each of the other entries, in
    order, and touches nothing else (target year, time zone, output
    directory, files); every entry is either retained or warned about.
    The first item that is no mapping makes it raise [TypeError]. *)
Theorem load_keeps_well_formed_entries
    (self : ChineseMemorialCalendar) (w : world) (config_file_name : string)
    (config : gmap string node)
    (entries : list (gmap string pyval)) (rest : list item) :
  config !! "anniversaries" = Some (Sequence (map Mapping entries ++ rest)) ->
  (rest = [] ->
   exists self' w',
     load_anniversaries_config self w config_file_name (Parsed (Some config))
     = Ok (self', w')
     /\ anniversaries self' = (anniversaries self ++ records_of entries)%list
     /\ stdout w' = (stdout w ++ warnings_of entries)%list
     /\ (length (records_of entries) + length (warnings_of entries))%nat
        = length entries
     /\ files w' = files w
     /\ year self' = year self /\ timezone self' = timezone self
     /\ output_dir self' = output_dir self)
  /\ (forall v rest', rest = Scalar v :: rest' ->
      exists msg,
        load_anniversaries_config self w config_file_name (Parsed (Some config))
        = Raise (TypeError msg)).
Proof.
  intros Hconfig. split.
  - intros ->. rewrite app_nil_r in Hconfig.
    rewrite (load_parsed_output _ _ _ _ _ Hconfig).
    eexists _, _. split; [reflexivity |]. cbn.
    repeat split. apply records_warnings_length.
  - intros v rest' ->. unfold load_anniversaries_config.
    destruct (decide (config = ∅)) as [-> | _].
    { rewrite lookup_empty in Hconfig. discriminate. }
    rewrite Hconfig. cbn [iterate bind].
    rewrite load_entries_app, load_entries_output.
    apply load_entries_scalar.
Qed.

Lemma load_keeps_well_formed_entries_witness :
  (@nil item = [] ->
   exists self' w',
     load_anniversaries_config (calendar_of_year 2025) empty_world
       "anniversaries.yml" (Parsed (Some example_config)) = Ok (self', w')
     /\ anniversaries self'
        = (anniversaries (calendar_of_year 2025)
           ++ records_of [entry_grandfather; entry_grandmother])%list
     /\ stdout w'
        = (stdout empty_world
           ++ warnings_of [entry_grandfather; entry_grandmother])%list
     /\ (length (records_of [entry_grandfather; entry_grandmother])
         + length (warnings_of [entry_grandfather; entry_grandmother]))%nat
        = length [entry_grandfather; entry_grandmother]
     /\ files w' = files empty_world
     /\ year self' = year (calendar_of_year 2025)
     /\ timezone self' = timezone (calendar_of_year 2025)
     /\ output_dir self' = output_dir (calendar_of_year 2025))
  /\ (forall v rest', @nil item = Scalar v :: rest' ->
      exists msg,
        load_anniversaries_config (calendar_of_year 2025) empty_world
          "anniversaries.yml" (Parsed (Some example_config))
        = Raise (TypeError msg)).
Proof.
  apply (load_keeps_well_formed_entries (calendar_of_year 2025) empty_world
           "anniversaries.yml" example_config
           [entry_grandfather; entry_grandmother] []).
  reflexivity.
Defined.

(** X4.  When the configuration file is missing or cannot be parsed, or the
    document is empty or has no [anniversaries] key, loading does not
    raise: it leaves the calendar as it is and prints exactly one line. *)
Theorem load_without_anniversaries
    (self : ChineseMemorialCalendar) (w : world) (config_file_name : string)
    (file : config_file) :
  file = FileNotFound
  \/ (exists msg, file = YAMLError msg)
  \/ file = Parsed None
  \/ (exists config, file = Parsed (Some config)
                     /\ config !! "anniversaries" = None) ->
  exists line,
    load_anniversaries_config self w config_file_name file
    = Ok (self, print w line).
Proof.
  intros [-> | [[msg ->] | [-> | (config & -> & Hnone)]]];
    unfold load_anniversaries_config; eauto.
  destruct (decide (config = ∅)); [eauto |]. rewrite Hnone. eauto.
Qed.

Lemma load_without_anniversaries_witness :
  exists line,
    load_anniversaries_config (calendar_of_year 2025) empty_world
      "anniversaries.yml" FileNotFound
    = Ok (calendar_of_year 2025, print empty_world line).
Proof.
  apply (load_without_anniversaries (calendar_of_year 2025) empty_world
           "anniversaries.yml" FileNotFound).
  left. reflexivity.
Defined.

(** X5.  Loading does not replace what was loaded before: after two
    loads the calendar holds the records of the first configuration
    followed by those of the second (so loading one file twice keeps every
    record twice). *)
Theorem load_twice_accumulates
    (self : ChineseMemorialCalendar) (w : world) (name1 name2 : string)
    (config1 config2 : gmap string node)
    (entries1 entries2 : list (gmap string pyval)) :
  config1 !! "anniversaries" = Some (Sequence (map Mapping entries1)) ->
  config2 !! "anniversaries" = Some (Sequence (map Mapping entries2)) ->
  exists self1 w1 self2 w2,
    load_anniversaries_config self w name1 (Parsed (Some config1)) = Ok (self1, w1)
    /\ load_anniversaries_config self1 w1 name2 (Parsed (Some config2))
       = Ok (self2, w2)
    /\ anniversaries self2
       = (anniversaries self ++ records_of entries1 ++ records_of entries2)%list
    /\ stdout w2
       = (stdout w ++ warnings_of entries1 ++ warnings_of entries2)%list.
Proof.
  intros H1 H2. eexists _, _, _, _.
  split; [apply (load_parsed_output _ _ _ _ _ H1) |].
  split; [apply (load_parsed_output _ _ _ _ _ H2) |].
  cbn. now rewrite <- !app_assoc.
Qed.

Lemma load_twice_accumulates_witness :
  exists self1 w1 self2 w2,
    load_anniversaries_config (calendar_of_year 2025) empty_world
      "anniversaries.yml" (Parsed (Some example_config)) = Ok (self1, w1)
    /\ load_anniversaries_config self1 w1 "anniversaries.yml"
         (Parsed (Some example_config)) = Ok (self2, w2)
    /\ anniversaries self2
       = (anniversaries (calendar_of_year 2025)
          ++ records_of [entry_grandfather; entry_grandmother]
          ++ records_of [entry_grandfather; entry_grandmother])%list
    /\ stdout w2
       = (stdout empty_world
          ++ warnings_of [entry_grandfather; entry_grandmother]
          ++ warnings_of [entry_grandfather; entry_grandmother])%list.
Proof.
  apply (load_twice_accumulates (calendar_of_year 2025) empty_world
           "anniversaries.yml" "anniversaries.yml" example_config example_config
           [entry_grandfather; entry_grandmother]
           [entry_grandfather; entry_grandmother]).
  - reflexivity.
  - reflexivity.
Defined.

(** ** Resolving lunar dates *)

Section LunarResolution.

Context {converter : Converter}.
Variable self : ChineseMemorialCalendar.

Lemma lunar_to_solar_cases (m d : Z) (year_arg : option Z) :
  _lunar_to_solar self m d year_arg
  = match Lunar2Solar (Lunar.mk (py_or year_arg (year self)) m d false) with
    | Ok s =>
        datetime.new (Solar.year s) (Solar.month s) (Solar.day s)
                     (Some (timezone self))
    | Raise e => Raise e
    end.
Proof.
  unfold _lunar_to_solar. now destruct (Lunar2Solar _).
Qed.

Lemma lunar_to_solar_inv (m d : Z) (year_arg : option Z) (dt : datetime.t) :
  _lunar_to_solar self m d year_arg = Ok dt ->
  exists s,
    Lunar2Solar (Lunar.mk (py_or year_arg (year self)) m d false) = Ok s
    /\ Solar.is_date s = true
    /\ dt = Solar.to_datetime s (timezone self).
Proof.
  rewrite lunar_to_solar_cases.
  destruct (Lunar2Solar _) as [s |]; [| discriminate].
  intros H. apply datetime_new_inv in H as [E ->]. eauto.
Qed.

Lemma midnight_to_datetime (s : Solar.t) :
  Solar.is_date s = true ->
  midnight_in (timezone self) (Solar.to_datetime s (timezone self)).
Proof.
  intros H. unfold midnight_in. split; [now apply valid_to_datetime |].
  cbn. auto.
Qed.

Lemma lunar_to_solar_midnight (m d : Z) (year_arg : option Z) (dt : datetime.t) :
  _lunar_to_solar self m d year_arg = Ok dt -> midnight_in (timezone self) dt.
Proof.
  intros H. apply lunar_to_solar_inv in H as (s & _ & Hs & ->).
  now apply midnight_to_datetime.
Qed.

End LunarResolution.

(** X6.  [_lunar_to_solar] resolves the date in the lunar year it is given;
    with no year, and also with year 0, it resolves it in the target year
    of the calendar. *)
Theorem lunar_to_solar_year_default
    (converter : Converter) (self : ChineseMemorialCalendar) (m d y : Z) :
  y <> 0 ->
  _lunar_to_solar self m d (Some y) = _lunar_to_solar (with_year self y) m d None
  /\ _lunar_to_solar self m d (Some 0) = _lunar_to_solar self m d None.
Proof.
  intros Hy. unfold _lunar_to_solar, py_or, with_year. cbn [year timezone].
  destruct (Z.eqb_spec y 0); [contradiction |]. split; reflexivity.
Qed.

Lemma lunar_to_solar_year_default_witness :
  @_lunar_to_solar ChineseCalendar.converter (calendar_of_year 2024) 3 15 (Some 2025)
  = @_lunar_to_solar ChineseCalendar.converter
      (with_year (calendar_of_year 2024) 2025) 3 15 None
  /\ @_lunar_to_solar ChineseCalendar.converter (calendar_of_year 2024) 3 15 (Some 0)
     = @_lunar_to_solar ChineseCalendar.converter (calendar_of_year 2024) 3 15 None.
Proof.
  apply (lunar_to_solar_year_default ChineseCalendar.converter
           (calendar_of_year 2024) 3 15 2025).
  discriminate.
Defined.

(** X7.  Whatever [_lunar_to_solar] returns is the converter's solar date
    at midnight in the calendar's time zone, and handing it to
    [_solar_to_lunar] asks the converter for the lunar date of exactly that
    solar date: nothing is lost between the two wrappers. *)
Theorem solar_to_lunar_after_lunar_to_solar
    (converter : Converter) (self : ChineseMemorialCalendar) (m d : Z)
    (year_arg : option Z) (dt : datetime.t) :
  _lunar_to_solar self m d year_arg = Ok dt ->
  exists s,
    Lunar2Solar (Lunar.mk (py_or year_arg (year self)) m d false) = Ok s
    /\ dt = datetime.mk (Solar.year s) (Solar.month s) (Solar.day s) 0 0 0 0
              (Some (timezone self))
    /\ datetime.valid dt = true
    /\ _solar_to_lunar self dt = Solar2Lunar s.
Proof.
  intros H. apply lunar_to_solar_inv in H as (s & HL & Hs & ->).
  exists s. split; [exact HL |]. split; [reflexivity |].
  split; [now apply valid_to_datetime |].
  unfold _solar_to_lunar. now destruct s.
Qed.

Lemma solar_to_lunar_after_lunar_to_solar_witness :
  exists s,
    ChineseCalendar.lunar2solar (Lunar.mk (py_or (Some 2025) 2024) 3 15 false) = Ok s
    /\ datetime.mk 2025 4 12 0 0 0 0 (Some utc8)
       = datetime.mk (Solar.year s) (Solar.month s) (Solar.day s) 0 0 0 0
           (Some (timezone (calendar_of_year 2024)))
    /\ datetime.valid (datetime.mk 2025 4 12 0 0 0 0 (Some utc8)) = true
    /\ @_solar_to_lunar ChineseCalendar.converter (calendar_of_year 2024)
         (datetime.mk 2025 4 12 0 0 0 0 (Some utc8))
       = ChineseCalendar.solar2lunar s.
Proof.
  apply (solar_to_lunar_after_lunar_to_solar ChineseCalendar.converter
           (calendar_of_year 2024) 3 15 (Some 2025)
           (datetime.mk 2025 4 12 0 0 0 0 (Some utc8))).
  reflexivity.
Defined.

(** ** The lunar occasions, for every converter *)

(** X8.  The lunar generator consults the converter for three dates only:
    days 1 and 30 of month 7 and day 1 of month 1 of the target year, none
    of them in a leap month.  Two converters that agree on these give the
    same events (or the same exception); in particular the answer for day
    29 of month 7 is never used. *)
Theorem generate_lunar_asks_three_dates
    (c1 c2 : Converter) (self : ChineseMemorialCalendar) :
  (forall m d, In (m, d) [(7, 1); (7, 30); (1, 1)] ->
     @Lunar2Solar c1 (Lunar.mk (year self) m d false)
     = @Lunar2Solar c2 (Lunar.mk (year self) m d false)) ->
  @generate_lunar_calendar_events c1 self = @generate_lunar_calendar_events c2 self.
Proof.
  intros H. unfold generate_lunar_calendar_events.
  rewrite !lunar_to_solar_cases, py_or_self. cbn [py_or].
  rewrite (H 7 1), (H 7 30), (H 1 1) by (cbn; auto). reflexivity.
Qed.

Lemma generate_lunar_asks_three_dates_witness :
  @generate_lunar_calendar_events ChineseCalendar.converter (calendar_of_year 2024)
  = @generate_lunar_calendar_events
      {| Lunar2Solar := fun l =>
           if (Lunar.month l =? 7) && (Lunar.day l =? 29)
           then Raise (DateNotExist "")
           else ChineseCalendar.lunar2solar l;
         Solar2Lunar := ChineseCalendar.solar2lunar |}
      (calendar_of_year 2024).
Proof.
  apply (generate_lunar_asks_three_dates ChineseCalendar.converter
           {| Lunar2Solar := fun l =>
                if (Lunar.month l =? 7) && (Lunar.day l =? 29)
                then Raise (DateNotExist "")
                else ChineseCalendar.lunar2solar l;
              Solar2Lunar := ChineseCalendar.solar2lunar |}
           (calendar_of_year 2024)).
  intros m d [[= <- <-] | [[= <- <-] | [[= <- <-] | []]]]; reflexivity.
Defined.

(** X9.  When the converter resolves day 1 of month 7 but refuses day 30,
    the lunar generator raises that refusal: neither the Ghost Month event
    nor the New Year's Eve event is produced, and [generate_calendars]
    raises too. *)
Theorem ghost_month_day_30_refused
    (converter : Converter) (filesystem : FileSystem)
    (self : ChineseMemorialCalendar) (w : world)
    (s1 : Solar.t) (e : exn) :
  Lunar2Solar (Lunar.mk (year self) 7 1 false) = Ok s1 ->
  Solar.is_date s1 = true ->
  Lunar2Solar (Lunar.mk (year self) 7 30 false) = Raise e ->
  generate_lunar_calendar_events self = Raise e
  /\ exists e', generate_calendars self w = Raise e'.
Proof.
  intros H1 V1 H30.
  assert (E : generate_lunar_calendar_events self = Raise e).
  { unfold generate_lunar_calendar_events.
    rewrite (lunar_to_solar_ok self 7 1 None s1 H1 V1). cbn [bind].
    now rewrite (lunar_to_solar_raise self 7 30 None e H30). }
  split; [exact E |].
  apply generate_calendars_raises. right. left. now rewrite E.
Qed.

Lemma ghost_month_day_30_refused_witness :
  @generate_lunar_calendar_events ChineseCalendar.converter (calendar_of_year 2022)
  = Raise (DateNotExist "date does not exist")
  /\ exists e',
       @generate_calendars ChineseCalendar.converter ExampleFileSystem.filesystem
         (calendar_of_year 2022) empty_world = Raise e'.
Proof.
  apply (ghost_month_day_30_refused ChineseCalendar.converter
           ExampleFileSystem.filesystem
           (calendar_of_year 2022) empty_world (Solar.mk 2022 7 29)).
  - reflexivity.
  - reflexivity.
  - reflexivity.
Defined.

(** X10.  Whenever the lunar generator returns, its first event is the
    all-day Ghost Month event, which begins on the solar date the converter
    gives for day 1 of month 7; that date is at most one day after the date
    it gives for day 30.  When day 1 is not after day 30, the event ends
    two days after the date of day 30: the end assigned is the day after
    day 30, and [make_all_day] moves it one day further, so the event
    covers one day more than the month. *)
Theorem ghost_month_ends_two_days_after_day_30
    (converter : Converter) (self : ChineseMemorialCalendar) :
  succeeds (generate_lunar_calendar_events self) = true ->
  exists s1 s30 event nye,
    let day_1 := Solar.to_datetime s1 (timezone self) in
    let day_30 := Solar.to_datetime s30 (timezone self) in
    Lunar2Solar (Lunar.mk (year self) 7 1 false) = Ok s1
    /\ Lunar2Solar (Lunar.mk (year self) 7 30 false) = Ok s30
    /\ generate_lunar_calendar_events self = Ok [("ghost_month.ics", event); nye]
    /\ ics.all_day event = true
    /\ ics.begin event = Some day_1
    /\ datetime.toordinal day_1 <= datetime.toordinal day_30 + 1
    /\ (datetime.date_le day_1 day_30 ->
        exists end_exclusive,
          ics._end event = Ok (Some end_exclusive)
          /\ datetime.sub end_exclusive day_30 = datetime.timedelta_days 2).
Proof.
  intros Hs. destruct (generate_lunar_calendar_events self) as [events |] eqn:E;
    [clear Hs | discriminate].
  revert E. unfold generate_lunar_calendar_events.
  destruct (_lunar_to_solar self 7 1 None) as [d1 |] eqn:E1; cbn [bind];
    [| discriminate].
  destruct (_lunar_to_solar self 7 30 None) as [d30 |] eqn:E30; cbn [bind];
    [| discriminate].
  apply lunar_to_solar_inv in E1 as (s1 & H1 & V1 & ->).
  apply lunar_to_solar_inv in E30 as (s30 & H30 & V30 & ->).
  cbn [py_or] in H1, H30.
  set (day_1 := Solar.to_datetime s1 (timezone self)).
  set (day_30 := Solar.to_datetime s30 (timezone self)).
  assert (Vd1 : datetime.valid day_1 = true) by now apply valid_to_datetime.
  assert (Vd30 : datetime.valid day_30 = true) by now apply valid_to_datetime.
  assert (Hz : datetime.tz day_1 = datetime.tz day_30) by reflexivity.
  pose proof (toordinal_bounds day_1 Vd1) as B1.
  pose proof (toordinal_bounds day_30 Vd30) as B30.
  destruct (_create_multiday_event self _ day_1 day_30 _) as [ghost |] eqn:GE;
    cbn [bind]; [| discriminate].
  destruct (_lunar_to_solar self 1 1 _) as [ny |]; cbn [bind]; [| discriminate].
  destruct (datetime.sub_delta ny _) as [eve |]; cbn [bind]; [| discriminate].
  destruct (_create_event self _ eve _) as [nye |]; cbn [bind]; [| discriminate].
  intros [= <-].
  pose proof (create_multiday_event_inv _ _ _ _ _ _ GE) as (_ & _ & Hall & Hb).
  exists s1, s30, ghost, ("chinese_new_year_eve.ics", nye). cbv zeta.
  fold day_1 day_30.
  split; [exact H1 |]. split; [exact H30 |]. split; [reflexivity |].
  split; [exact Hall |]. split; [exact Hb |].
  assert (Hle : datetime.toordinal day_1 <= datetime.toordinal day_30 + 1).
  { destruct (Z_le_dec (datetime.toordinal day_1) (datetime.toordinal day_30 + 1))
      as [| Hgt]; [assumption |].
    rewrite create_multiday_event_refused in GE by (auto; lia). discriminate. }
  split; [exact Hle |].
  unfold datetime.date_le. intros Hfw.
  destruct (Z_le_dec (datetime.toordinal day_30 + 2) datetime._MAXORDINAL)
    as [Hmax | Hmax].
  - rewrite create_multiday_event_forward in GE by auto.
    injection GE as <-. eexists. unfold ics._end. cbn [ics._end_time].
    split; [reflexivity |].
    change day_30 with (datetime.replace_midnight day_30) at 2.
    unfold datetime.date. rewrite sub_midnight.
    destruct (shifted_spec day_30 2 Vd30 ltac:(lia)) as (_ & -> & _).
    f_equal. lia.
  - destruct (create_multiday_event_overflows self "Ghost Month 鬼月"
                ghost_festival_desc day_1 day_30 Vd30 Hz) as [msg Hr];
      [lia | congruence].
Qed.

Lemma ghost_month_ends_two_days_after_day_30_witness :
  exists s1 s30 event nye,
    let day_1 := Solar.to_datetime s1 utc8 in
    let day_30 := Solar.to_datetime s30 utc8 in
    ChineseCalendar.lunar2solar (Lunar.mk 2024 7 1 false) = Ok s1
    /\ ChineseCalendar.lunar2solar (Lunar.mk 2024 7 30 false) = Ok s30
    /\ @generate_lunar_calendar_events ChineseCalendar.converter
         (calendar_of_year 2024) = Ok [("ghost_month.ics", event); nye]
    /\ ics.all_day event = true
    /\ ics.begin event = Some day_1
    /\ datetime.toordinal day_1 <= datetime.toordinal day_30 + 1
    /\ (datetime.date_le day_1 day_30 ->
        exists end_exclusive,
          ics._end event = Ok (Some end_exclusive)
          /\ datetime.sub end_exclusive day_30 = datetime.timedelta_days 2).
Proof.
  apply (ghost_month_ends_two_days_after_day_30 ChineseCalendar.converter
           (calendar_of_year 2024)).
  reflexivity.
Defined.

(** ** The generated events *)

Lemma add_whole_days_inv (dt dt' : datetime.t) (n : Z) :
  datetime.valid dt = true ->
  datetime.add dt (datetime.mk_timedelta n 0 0) = Ok dt' ->
  0 < datetime.toordinal dt + n <= datetime._MAXORDINAL
  /\ dt' = datetime.shifted dt n.
Proof.
  intros Hv H.
  destruct (Z_lt_dec 0 (datetime.toordinal dt + n)) as [H0 |];
    [destruct (Z_le_dec (datetime.toordinal dt + n) datetime._MAXORDINAL) as [H1 |] |].
  - rewrite (add_days dt n Hv (conj H0 H1)) in H. injection H as <-. auto.
  - destruct (add_days_overflow dt n Hv ltac:(lia)) as [msg E]. congruence.
  - destruct (add_days_overflow dt n Hv ltac:(lia)) as [msg E]. congruence.
Qed.

Section GeneratedEvents.

Context {converter : Converter}.
Variable self : ChineseMemorialCalendar.

Lemma midnight_replace_midnight (z : datetime.tzinfo) (dt : datetime.t) :
  datetime.valid dt = true -> datetime.tz dt = Some z ->
  midnight_in z (datetime.replace_midnight dt).
Proof.
  intros Hv Hz. unfold midnight_in.
  split; [now apply valid_replace_midnight |]. cbn. auto.
Qed.

Lemma create_event_all_day (title : string) (date : datetime.t)
    (description : string) (event : ics.Event) :
  datetime.valid date = true -> datetime.tz date = Some (timezone self) ->
  _create_event self title date description = Ok event ->
  all_day_event self event.
Proof.
  intros Hv Hz. rewrite create_event_result. intros [= <-].
  unfold all_day_event. cbn.
  repeat split; eauto using midnight_replace_midnight.
Qed.

Lemma midnight_valid_tz (z : datetime.tzinfo) (dt : datetime.t) :
  midnight_in z dt -> datetime.valid dt = true /\ datetime.tz dt = Some z.
Proof. unfold midnight_in. tauto. Qed.

Lemma new_midnight (y m d : Z) (dt : datetime.t) :
  datetime.new y m d (Some (timezone self)) = Ok dt ->
  midnight_in (timezone self) dt.
Proof.
  intros H. apply datetime_new_inv in H as [E ->].
  unfold midnight_in. split; [| cbn; auto].
  apply valid_iff. cbn. split; [exact E | lia].
Qed.

Lemma solar_events_all_day (events : list (string * ics.Event)) :
  generate_solar_calendar_events self = Ok events ->
  Forall (fun fe => all_day_event self (snd fe)) events.
Proof.
  unfold generate_solar_calendar_events.
  destruct (datetime.new (year self) 4 5 _) as [q |] eqn:Eq; cbn [bind];
    [| discriminate].
  destruct (_create_event self _ q _) as [qe |] eqn:Cq; cbn [bind];
    [| discriminate].
  destruct (datetime.new (year self) 12 22 _) as [ws |] eqn:Ew; cbn [bind];
    [| discriminate].
  destruct (_create_event self _ ws _) as [wse |] eqn:Cw; cbn [bind];
    [| discriminate].
  apply new_midnight, midnight_valid_tz in Eq as [Vq Zq].
  apply new_midnight, midnight_valid_tz in Ew as [Vw Zw].
  intros [= <-]. cbn [app].
  constructor; [| constructor; [| constructor]]; cbn [snd].
  - now apply (create_event_all_day _ _ _ _ Vq Zq Cq).
  - now apply (create_event_all_day _ _ _ _ Vw Zw Cw).
Qed.

Lemma lunar_events_all_day (events : list (string * ics.Event)) :
  generate_lunar_calendar_events self = Ok events ->
  Forall (fun fe => all_day_event self (snd fe)) events.
Proof.
  unfold generate_lunar_calendar_events.
  destruct (_lunar_to_solar self 7 1 None) as [d1 |] eqn:E1; cbn [bind];
    [| discriminate].
  destruct (_lunar_to_solar self 7 30 None) as [d30 |] eqn:E30; cbn [bind];
    [| discriminate].
  destruct (_create_multiday_event self _ d1 d30 _) as [ghost |] eqn:GE;
    cbn [bind]; [| discriminate].
  apply create_multiday_event_inv in GE as (Gn & Gd & Ga & Gb).
  destruct (_lunar_to_solar self 1 1 _) as [ny |] eqn:En; cbn [bind];
    [| discriminate].
  apply lunar_to_solar_midnight, midnight_valid_tz in E1 as [V1 Z1].
  apply lunar_to_solar_midnight, midnight_valid_tz in En as [Vn Zn].
  unfold datetime.sub_delta.
  replace (datetime.timedelta_neg (datetime.timedelta_days 1))
    with (datetime.mk_timedelta (-1) 0 0) by reflexivity.
  destruct (datetime.add ny _) as [eve |] eqn:Ee; cbn [bind]; [| discriminate].
  apply (add_whole_days_inv _ _ _ Vn) in Ee as [Hrange ->].
  destruct (shifted_spec ny (-1) Vn Hrange) as (Ve & _ & _ & _ & _ & _ & Ze).
  destruct (_create_event self _ _ _) as [nye |] eqn:Cn; cbn [bind];
    [| discriminate].
  intros [= <-]. cbn [app].
  constructor; [| constructor; [| constructor]]; cbn [snd].
  - unfold all_day_event. rewrite Gn, Gd, Ga, Gb.
    repeat split; eauto using midnight_replace_midnight.
  - eapply create_event_all_day; [exact Ve | congruence | exact Cn].
Qed.

Lemma anniversary_event_all_day (a : anniversary) (fe : string * ics.Event) :
  anniversary_event self a = Ok fe -> all_day_event self (snd fe).
Proof.
  unfold anniversary_event.
  destruct (as_int (lunar_month a)) as [m |]; cbn [bind]; [| discriminate].
  destruct (as_int (lunar_day a)) as [d |]; cbn [bind]; [| discriminate].
  destruct (_lunar_to_solar self m d None) as [date |] eqn:E; cbn [bind];
    [| discriminate].
  apply lunar_to_solar_midnight, midnight_valid_tz in E as [V Z].
  destruct (_create_event self _ date _) as [event |] eqn:C; cbn [bind];
    [| discriminate].
  intros [= <-]. cbn [snd]. now apply (create_event_all_day _ _ _ _ V Z C).
Qed.

Lemma anniversary_events_all_day (events : list (string * ics.Event)) :
  generate_anniversary_events self = Ok events ->
  Forall (fun fe => all_day_event self (snd fe)) events.
Proof.
  intros H. apply mapM_Forall2 in H.
  induction H as [| a fe l l' Hfe _ IH]; constructor; auto.
  now apply (anniversary_event_all_day a).
Qed.

(** The first record that cannot be turned into an event stops the loop. *)
Lemma mapM_first_raise {A B : Type} (f : A -> result B)
    (before : list A) (x : A) (after : list A) (e : exn) :
  Forall (fun y => succeeds (f y) = true) before ->
  f x = Raise e ->
  mapM f (before ++ x :: after) = Raise e.
Proof.
  intros Hb Hx. induction Hb as [| y l Hy _ IH]; cbn [app mapM].
  - now rewrite Hx.
  - destruct (f y); [| discriminate]. cbn [bind]. now rewrite IH.
Qed.

End GeneratedEvents.

(** X11.  Every event a generator returns is an all-day event with a title
    and a description, and it begins at midnight, on a date of the
    Gregorian calendar, in the time zone the calendar was created with. *)
Theorem generated_events_are_all_day
    (converter : Converter) (self : ChineseMemorialCalendar)
    (events : list (string * ics.Event)) :
  generate_solar_calendar_events self = Ok events
  \/ generate_lunar_calendar_events self = Ok events
  \/ generate_anniversary_events self = Ok events ->
  Forall (fun fe => all_day_event self (snd fe)) events.
Proof.
  intros [H | [H | H]].
  - now apply solar_events_all_day.
  - now apply lunar_events_all_day.
  - now apply anniversary_events_all_day.
Qed.

Lemma generated_events_are_all_day_witness :
  Forall (fun fe => all_day_event (calendar_of_year 2024) (snd fe))
    (match @generate_lunar_calendar_events ChineseCalendar.converter
             (calendar_of_year 2024) with
     | Ok events => events
     | Raise _ => []
     end).
Proof.
  apply (generated_events_are_all_day ChineseCalendar.converter
           (calendar_of_year 2024)).
  right. left. reflexivity.
Defined.

(** X12.  The solar generator returns exactly when the target year is a
    year of [datetime], 1 to 9999; for any other year it raises. *)
Theorem generate_solar_calendar_events_succeeds_iff (self : ChineseMemorialCalendar) :
  succeeds (generate_solar_calendar_events self) = true
  <-> datetime.MINYEAR <= year self <= datetime.MAXYEAR.
Proof.
  split.
  - intros H.
    destruct (Z_le_dec datetime.MINYEAR (year self));
      [destruct (Z_le_dec (year self) datetime.MAXYEAR); [lia |] |];
      destruct (generate_solar_calendar_events_out_of_range self ltac:(lia))
        as [msg E]; rewrite E in H; discriminate.
  - intros Hy.
    now destruct (generate_solar_calendar_events_result self Hy) as (qd & wd & ->).
Qed.



(** X14.  An anniversary whose lunar month and day are integers that the
    converter resolves in the target year (never in a leap month) gives a
    one-day event on that solar date: it begins there at midnight and its
    exclusive end is one day later.  Its title is the name, followed by
    the Chinese name in parentheses when there is one. *)
Theorem anniversary_event_on_converted_date
    (converter : Converter) (self : ChineseMemorialCalendar) (a : anniversary)
    (m d : Z) (s : Solar.t) :
  lunar_month a = PyInt m -> lunar_day a = PyInt d ->
  Lunar2Solar (Lunar.mk (year self) m d false) = Ok s ->
  Solar.is_date s = true ->
  datetime._ymd2ord (Solar.year s) (Solar.month s) (Solar.day s)
    < datetime._MAXORDINAL ->
  exists filename event end_date_exclusive,
    anniversary_event self a = Ok (filename, event)
    /\ ics.name event
       = Some (if truthy (chinese_name a)
               then py_str (name a) +:+ " (" +:+ py_str (chinese_name a) +:+ ")"
               else py_str (name a))
    /\ ics.all_day event = true
    /\ ics.begin event = Some (Solar.to_datetime s (timezone self))
    /\ ics._end event = Ok (Some end_date_exclusive)
    /\ datetime.sub end_date_exclusive (Solar.to_datetime s (timezone self))
       = datetime.timedelta_days 1.
Proof.
  intros Hm Hd HL Vs Hmax.
  set (date := Solar.to_datetime s (timezone self)).
  assert (Vd : datetime.valid date = true) by now apply valid_to_datetime.
  assert (Hn : 0 < datetime.toordinal date + 1 <= datetime._MAXORDINAL).
  { pose proof (toordinal_bounds date Vd).
    change (datetime.toordinal date)
      with (datetime._ymd2ord (Solar.year s) (Solar.month s) (Solar.day s)) in *.
    lia. }
  eexists _, _, (datetime.shifted date 1).
  unfold anniversary_event. rewrite Hm, Hd. cbn [as_int bind].
  rewrite (lunar_to_solar_ok self m d None s HL Vs). cbn [bind]. fold date.
  rewrite create_event_result. cbn [bind].
  split; [reflexivity |].
  unfold ics._end.
  cbn [ics.name ics.description ics.all_day ics.begin ics._end_time].
  split; [reflexivity |]. split; [reflexivity |]. split; [reflexivity |].
  change (datetime.replace_midnight date) with date.
  rewrite timedelta_days_eq at 1. rewrite (add_days date 1 Vd Hn). cbn [bind].
  split; [reflexivity |].
  destruct (shifted_spec date 1 Vd Hn) as (_ & Ho & Hh & Hmi & Hs & Hu & _).
  rewrite sub_same_time by assumption. rewrite Ho. f_equal. lia.
Qed.

Lemma anniversary_event_on_converted_date_witness :
  let a := mkAnniversary (PyStr "Grandmother") (PyStr "") (PyInt 3) (PyInt 15)
                         (PyStr "") in
  exists filename event end_date_exclusive,
    @anniversary_event ChineseCalendar.converter (calendar_of_year 2025) a
    = Ok (filename, event)
    /\ ics.name event
       = Some (if truthy (chinese_name a)
               then py_str (name a) +:+ " (" +:+ py_str (chinese_name a) +:+ ")"
               else py_str (name a))
    /\ ics.all_day event = true
    /\ ics.begin event = Some (Solar.to_datetime (Solar.mk 2025 4 12) utc8)
    /\ ics._end event = Ok (Some end_date_exclusive)
    /\ datetime.sub end_date_exclusive (Solar.to_datetime (Solar.mk 2025 4 12) utc8)
       = datetime.timedelta_days 1.
Proof.
  apply (anniversary_event_on_converted_date ChineseCalendar.converter
           (calendar_of_year 2025)
           (mkAnniversary (PyStr "Grandmother") (PyStr "") (PyInt 3) (PyInt 15)
                          (PyStr ""))
           3 15 (Solar.mk 2025 4 12)).
  - reflexivity.
  - reflexivity.
  - reflexivity.
  - reflexivity.
  - vm_compute. reflexivity.
Defined.

(** X15.  The first anniversary that cannot be turned into an event (its
    lunar date does not exist, say) aborts the whole run with its
    exception: [generate_anniversary_events] raises it and, the fixed
    occasions having been generated, [generate_calendars] raises it too,
    before any file is written. *)
Theorem failing_anniversary_aborts_run
    (converter : Converter) (filesystem : FileSystem)
    (self : ChineseMemorialCalendar) (w : world)
    (before : list anniversary) (a : anniversary) (after : list anniversary)
    (e : exn) :
  anniversaries self = (before ++ a :: after)%list ->
  Forall (fun b => succeeds (anniversary_event self b) = true) before ->
  anniversary_event self a = Raise e ->
  succeeds (generate_solar_calendar_events self) = true ->
  succeeds (generate_lunar_calendar_events self) = true ->
  generate_anniversary_events self = Raise e
  /\ generate_calendars self w = Raise e.
Proof.
  intros Ha Hb He Hs Hl.
  assert (E : generate_anniversary_events self = Raise e).
  { unfold generate_anniversary_events. rewrite Ha.
    now apply mapM_first_raise. }
  split; [exact E |].
  unfold generate_calendars. rewrite E.
  destruct (generate_solar_calendar_events self); [| discriminate].
  destruct (generate_lunar_calendar_events self); [| discriminate].
  reflexivity.
Qed.

Lemma failing_anniversary_aborts_run_witness :
  let good := mkAnniversary (PyStr "Grandmother") (PyStr "") (PyInt 3) (PyInt 15)
                            (PyStr "") in
  let bad := mkAnniversary (PyStr "Grandfather") (PyStr "") (PyInt 2) (PyInt 30)
                           (PyStr "") in
  let self := mkSelf 2025 utc8 [good; bad; good] default_output_dir in
  @generate_anniversary_events ChineseCalendar.converter self
  = Raise (DateNotExist "date does not exist")
  /\ @generate_calendars ChineseCalendar.converter ExampleFileSystem.filesystem
       self empty_world
     = Raise (DateNotExist "date does not exist").
Proof.
  cbv zeta.
  apply (failing_anniversary_aborts_run ChineseCalendar.converter
           ExampleFileSystem.filesystem
           (mkSelf 2025 utc8
              [mkAnniversary (PyStr "Grandmother") (PyStr "") (PyInt 3) (PyInt 15)
                             (PyStr "");
               mkAnniversary (PyStr "Grandfather") (PyStr "") (PyInt 2) (PyInt 30)
                             (PyStr "");
               mkAnniversary (PyStr "Grandmother") (PyStr "") (PyInt 3) (PyInt 15)
                             (PyStr "")]
              default_output_dir)
           empty_world
           [mkAnniversary (PyStr "Grandmother") (PyStr "") (PyInt 3) (PyInt 15)
                          (PyStr "")]
           (mkAnniversary (PyStr "Grandfather") (PyStr "") (PyInt 2) (PyInt 30)
                          (PyStr ""))
           [mkAnniversary (PyStr "Grandmother") (PyStr "") (PyInt 3) (PyInt 15)
                          (PyStr "")]).
  - reflexivity.
  - constructor; [reflexivity | constructor].
  - reflexivity.
  - reflexivity.
  - reflexivity.
Defined.

(** ** File names *)

Section Strings.

Lemma str_app_cons (x : ascii) (a b : string) :
  (String x a +:+ b = String x (a +:+ b))%string.
Proof. reflexivity. Qed.

Lemma str_app_nil (b : string) : ("" +:+ b = b)%string.
Proof. reflexivity. Qed.

Lemma str_app_assoc (a b c : string) : ((a +:+ b) +:+ c = a +:+ (b +:+ c))%string.
Proof.
  induction a as [| x a IH]; [reflexivity |].
  rewrite !str_app_cons. now f_equal.
Qed.

Lemma str_forall_app (p : ascii -> bool) (a b : string) :
  str_forall p (a +:+ b) = str_forall p a && str_forall p b.
Proof.
  induction a as [| x a IH]; [reflexivity |].
  rewrite str_app_cons. cbn [str_forall]. now rewrite IH, andb_assoc.
Qed.

Lemma str_forall_and (p q : ascii -> bool) (s : string) :
  str_forall (fun a => p a && q a) s = str_forall p s && str_forall q s.
Proof.
  induction s as [| x s IH]; cbn [str_forall]; [reflexivity |].
  rewrite IH. destruct (p x), (q x), (str_forall p s); reflexivity.
Qed.

Lemma lower_app (a b : string) :
  Str.lower (a +:+ b) = (Str.lower a +:+ Str.lower b)%string.
Proof.
  induction a as [| x a IH]; [reflexivity |].
  rewrite str_app_cons. cbn [Str.lower]. now rewrite IH.
Qed.

Lemma replace_app (c : ascii) (r a b : string) :
  Str.replace c r (a +:+ b)
  = (Str.replace c r a +:+ Str.replace c r b)%string.
Proof.
  induction a as [| x a IH]; [reflexivity |].
  rewrite str_app_cons. cbn [Str.replace]. rewrite IH.
  destruct (Ascii.eqb x c); [symmetry; apply str_app_assoc | reflexivity].
Qed.

(** Replacing keeps a property of the characters that the replacement has. *)
Lemma replace_preserves (p : ascii -> bool) (c : ascii) (r s : string) :
  str_forall p r = true -> str_forall p s = true ->
  str_forall p (Str.replace c r s) = true.
Proof.
  intros Hr. induction s as [| x s IH]; cbn [str_forall Str.replace];
    [reflexivity |].
  rewrite andb_true_iff. intros [Hx Hs].
  destruct (Ascii.eqb x c).
  - rewrite str_forall_app, Hr. now apply IH.
  - cbn [str_forall]. rewrite Hx. now apply IH.
Qed.

(** Replacing a character by a string without it removes it. *)
Lemma replace_removes (c : ascii) (r s : string) :
  str_forall (fun a => negb (Ascii.eqb a c)) r = true ->
  str_forall (fun a => negb (Ascii.eqb a c)) (Str.replace c r s) = true.
Proof.
  intros Hr. induction s as [| x s IH]; cbn [str_forall Str.replace];
    [reflexivity |].
  destruct (Ascii.eqb x c) eqn:E.
  - now rewrite str_forall_app, Hr.
  - cbn [str_forall]. now rewrite E.
Qed.

Lemma lower_ascii_not_upper (a : ascii) :
  is_ascii_upper (Str.lower_ascii a) = false.
Proof.
  destruct a as [[] [] [] [] [] [] [] []]; reflexivity.
Qed.

Lemma lower_not_upper (s : string) :
  str_forall (fun a => negb (is_ascii_upper a)) (Str.lower s) = true.
Proof.
  induction s as [| x s IH]; cbn [str_forall Str.lower]; [reflexivity |].
  now rewrite lower_ascii_not_upper, IH.
Qed.

Lemma str_contains_forall (c : ascii) (s : string) :
  str_contains c s = negb (str_forall (fun a => negb (Ascii.eqb a c)) s).
Proof.
  induction s as [| x s IH]; cbn [str_forall str_contains]; [reflexivity |].
  rewrite IH. destruct (Ascii.eqb x c); reflexivity.
Qed.

(** What the three steps of the sanitization make of a name. *)
Lemma sanitize_sanitized (s : string) :
  str_forall sanitized_char
    (Str.replace "'"%char "" (Str.replace " "%char "_" (Str.lower s))) = true.
Proof.
  unfold sanitized_char. rewrite !str_forall_and, !andb_true_iff.
  repeat split.
  - apply replace_preserves; [reflexivity |].
    apply replace_preserves; [reflexivity |]. apply lower_not_upper.
  - apply replace_preserves; [reflexivity |].
    now apply replace_removes.
  - now apply replace_removes.
Qed.

Lemma prefix_app (a b : string) : String.prefix a (a +:+ b) = true.
Proof.
  induction a as [| x a IH]; [now destruct b |].
  rewrite str_app_cons. cbn [String.prefix].
  destruct (ascii_dec x x); [exact IH | contradiction].
Qed.

Lemma last_char_app (a : string) (c : ascii) :
  Str.last_char a = Some c -> exists a0, a = (a0 +:+ String c "")%string.
Proof.
  unfold Str.last_char.
  destruct (rev (list_ascii_of_string a)) as [| x l] eqn:E; [discriminate |].
  intros [= ->]. exists (string_of_list_ascii (rev l)).
  rewrite <- (string_of_list_ascii_of_string a).
  rewrite <- (rev_involutive (list_ascii_of_string a)), E. cbn [rev].
  generalize (rev l). clear. intros l.
  induction l as [| y l IH]; [reflexivity |].
  cbn [app string_of_list_ascii]. rewrite str_app_cons. now rewrite <- IH.
Qed.

Lemma last_char_none (a : string) : Str.last_char a = None -> a = "".
Proof.
  unfold Str.last_char. destruct a as [| x a]; [reflexivity |]. cbn.
  destruct (rev (list_ascii_of_string a) ++ [x])%list eqn:E; [| discriminate].
  now apply app_eq_nil in E as [_ [=]].
Qed.

(** The joined path begins with the directory, unless the file name is
    an absolute path. *)
Lemma os_path_join_prefix (a b : string) :
  Str.starts_with_slash b = false ->
  String.prefix a (os_path_join a b) = true.
Proof.
  intros Hb. unfold os_path_join. rewrite Hb.
  destruct (Str.last_char a) as [c |] eqn:E.
  - destruct (Ascii.eqb c "/"%char); apply prefix_app.
  - apply last_char_none in E as ->. now destruct b.
Qed.

Lemma basename_no_slash (f : string) :
  str_contains "/"%char f = false -> os_path_basename f = f.
Proof.
  destruct f as [| x f]; cbn; [reflexivity |].
  rewrite orb_false_iff. intros [-> ->]. reflexivity.
Qed.

Lemma basename_app_slash (a f : string) :
  str_contains "/"%char f = false ->
  os_path_basename (a +:+ String "/"%char f) = f.
Proof.
  intros Hf. induction a as [| x a IH].
  - rewrite str_app_nil. cbn [os_path_basename]. now rewrite Hf.
  - rewrite str_app_cons. cbn [os_path_basename]. rewrite IH.
    assert (E : str_contains "/"%char (a +:+ String "/"%char f) = true).
    { clear. induction a as [| y a IH]; [reflexivity |].
      rewrite str_app_cons. cbn [str_contains]. now rewrite IH, orb_true_r. }
    now rewrite E.
Qed.

(** [os.path.basename] undoes [os.path.join] for a file name without slash. *)
Lemma basename_join (a f : string) :
  str_contains "/"%char f = false ->
  os_path_basename (os_path_join a f) = f.
Proof.
  intros Hf. unfold os_path_join.
  assert (Hs : Str.starts_with_slash f = false).
  { destruct f as [| x f]; [reflexivity |]. cbn in *.
    now apply orb_false_iff in Hf as [-> _]. }
  rewrite Hs. destruct (Str.last_char a) as [c |] eqn:E.
  - destruct (Ascii.eqb_spec c "/"%char) as [-> | _].
    + apply last_char_app in E as [a0 ->].
      rewrite str_app_assoc, str_app_cons, str_app_nil.
      now apply basename_app_slash.
    + now apply basename_app_slash.
  - apply last_char_none in E as ->. now apply basename_no_slash.
Qed.

End Strings.

(** X16.  The file name of an anniversary event begins with
    [anniversary_], ends with [.ics] and holds no upper-case ASCII letter,
    no space and no apostrophe, whatever the name is. *)
Theorem anniversary_filename_sanitized
    (converter : Converter) (self : ChineseMemorialCalendar) (a : anniversary)
    (filename : string) (event : ics.Event) :
  anniversary_event self a = Ok (filename, event) ->
  (exists body, filename = ("anniversary_" +:+ body +:+ ".ics")%string)
  /\ str_forall sanitized_char filename = true.
Proof.
  unfold anniversary_event.
  destruct (as_int (lunar_month a)) as [m |]; cbn [bind]; [| discriminate].
  destruct (as_int (lunar_day a)) as [d |]; cbn [bind]; [| discriminate].
  destruct (_lunar_to_solar self m d None) as [date |]; cbn [bind];
    [| discriminate].
  destruct (_create_event self _ date _) as [e |]; cbn [bind]; [| discriminate].
  intros [= <- _]. split; [| apply sanitize_sanitized].
  rewrite !lower_app, !replace_app. eexists. reflexivity.
Qed.

Lemma anniversary_filename_sanitized_witness :
  (exists body,
     "anniversary_grand_aunt_oli.ics" = ("anniversary_" +:+ body +:+ ".ics")%string)
  /\ str_forall sanitized_char "anniversary_grand_aunt_oli.ics" = true.
Proof.
  apply (anniversary_filename_sanitized ChineseCalendar.converter
           (calendar_of_year 2025)
           (mkAnniversary (PyStr "Grand Aunt O'Li") (PyStr "") (PyInt 3) (PyInt 15)
                          (PyStr ""))
           "anniversary_grand_aunt_oli.ics"
           (ics.mkEvent (Some "Grand Aunt O'Li")
              (Some (datetime.mk 2025 4 12 0 0 0 0 (Some utc8))) None true
              (Some ("Grand Aunt O'Li" +:+ nl +:+ "Lunar Date: 3月15日" +:+ nl +:+ nl
                     +:+ "Notes: " +:+ nl)))).
  vm_compute. reflexivity.
Defined.

(** ** The saved files and the command-line program *)

Section SavedFiles.

Context {converter : Converter}.
Variable self : ChineseMemorialCalendar.

Lemma anniversary_event_filename (a : anniversary) (fe : string * ics.Event) :
  anniversary_event self a = Ok fe ->
  fst fe
  = ("anniversary_"
     +:+ Str.replace "'"%char ""
           (Str.replace " "%char "_" (Str.lower (py_str (name a))))
     +:+ ".ics")%string.
Proof.
  unfold anniversary_event.
  destruct (as_int (lunar_month a)) as [m |]; cbn [bind]; [| discriminate].
  destruct (as_int (lunar_day a)) as [d |]; cbn [bind]; [| discriminate].
  destruct (_lunar_to_solar self m d None) as [date |]; cbn [bind];
    [| discriminate].
  destruct (_create_event self _ date _) as [e |]; cbn [bind]; [| discriminate].
  intros [= <-]. cbn [fst].
  rewrite !lower_app, !replace_app. reflexivity.
Qed.

Lemma replace_comma_no_comma (filename : string) :
  str_contains ","%char (Str.replace ","%char "" filename) = false.
Proof.
  rewrite str_contains_forall, replace_removes; reflexivity.
Qed.

(** A file name that does not begin with a slash is saved below the
    output directory. *)
Lemma saved_path_prefix (fe : string * ics.Event) :
  Str.starts_with_slash (Str.replace ","%char "" (fst fe)) = false ->
  String.prefix (output_dir self) (saved_path self fe) = true.
Proof. intros H. unfold saved_path. now apply os_path_join_prefix. Qed.

Lemma anniversary_saved_path_prefix (a : anniversary) (fe : string * ics.Event) :
  anniversary_event self a = Ok fe ->
  String.prefix (output_dir self) (saved_path self fe) = true.
Proof.
  intros H. apply saved_path_prefix.
  rewrite (anniversary_event_filename a fe H), replace_app. reflexivity.
Qed.

Lemma lookup_map {A B : Type} (f : A -> B) (l : list A) (i : nat) :
  map f l !! i = f <$> l !! i.
Proof.
  revert i. induction l as [| x l IH]; intros [| i]; cbn; auto.
Qed.

Lemma lookup_after {A : Type} (pre l : list A) (k i : nat) :
  length pre = k -> (pre ++ l)%list !! (k + i)%nat = l !! i.
Proof.
  intros <-. rewrite lookup_app_r by lia. f_equal. lia.
Qed.

End SavedFiles.

(** X17.  Every path [generate_calendars] returns lies below the output
    directory: it is [os.path.join] of the output directory and a file name
    without comma, and it begins with the output directory.  There are
    four paths more than anniversaries. *)
Theorem generated_paths_in_output_dir
    (converter : Converter) (filesystem : FileSystem)
    (self : ChineseMemorialCalendar) (w : world)
    (paths : list string) (w' : world) :
  generate_calendars self w = Ok (paths, w') ->
  Forall (fun path =>
            String.prefix (output_dir self) path = true
            /\ exists filename,
                 path = os_path_join (output_dir self) filename
                 /\ str_contains ","%char filename = false) paths
  /\ length paths = (4 + length (anniversaries self))%nat.
Proof.
  intros H.
  destruct (generate_calendars_inv self w paths w' H)
    as (q & ws & g & n & anniv & _ & _ & _ & _ & HF2 & -> & _).
  cbn [app map length]. split.
  - repeat (constructor;
            [split; [now apply saved_path_prefix
                    | eexists; split; [reflexivity | apply replace_comma_no_comma]]
            |]).
    clear H. induction HF2 as [| a fe l l' Hfe _ IH]; cbn [map]; [constructor |].
    constructor; [| exact IH].
    split; [now apply (anniversary_saved_path_prefix self a) |].
    eexists. split; [reflexivity | apply replace_comma_no_comma].
  - rewrite length_map. apply Forall2_length in HF2. lia.
Qed.

Lemma generated_paths_in_output_dir_witness :
  let self := append_anniversary (calendar_of_year 2025)
                (mkAnniversary (PyStr "Tan, Ah Kow") (PyStr "") (PyInt 3)
                               (PyInt 15) (PyStr "")) in
  let paths := ["calendar_events/qingming.ics";
                "calendar_events/winter_solstice.ics";
                "calendar_events/ghost_month.ics";
                "calendar_events/chinese_new_year_eve.ics";
                "calendar_events/anniversary_tan_ah_kow.ics"] in
  Forall (fun path =>
            String.prefix (output_dir self) path = true
            /\ exists filename,
                 path = os_path_join (output_dir self) filename
                 /\ str_contains ","%char filename = false) paths
  /\ length paths = (4 + length (anniversaries self))%nat.
Proof.
  cbv zeta.
  eapply (generated_paths_in_output_dir ChineseCalendar.converter
            ExampleFileSystem.filesystem
            (append_anniversary (calendar_of_year 2025)
               (mkAnniversary (PyStr "Tan, Ah Kow") (PyStr "") (PyInt 3)
                              (PyInt 15) (PyStr "")))
            ready_world).
  vm_compute. reflexivity.
Defined.

(** X18.  The file of an anniversary is named after the person's name
    alone.  Two anniversaries whose names are equal up to the case of
    ASCII letters are saved to the same path, whatever their dates: the
    run returns that path twice and writes it twice, the second time over
    the first. *)
Theorem same_name_anniversaries_share_a_file
    (converter : Converter) (filesystem : FileSystem)
    (self : ChineseMemorialCalendar) (w : world)
    (paths : list string) (w' : world) (i j : nat) (a b : anniversary) :
  generate_calendars self w = Ok (paths, w') ->
  anniversaries self !! i = Some a -> anniversaries self !! j = Some b ->
  Str.lower (py_str (name a)) = Str.lower (py_str (name b)) ->
  exists path ea eb,
    paths !! (4 + i)%nat = Some path /\ paths !! (4 + j)%nat = Some path
    /\ files w' !! (length (files w) + 4 + i)%nat = Some (path, [ea])
    /\ files w' !! (length (files w) + 4 + j)%nat = Some (path, [eb]).
Proof.
  intros H Ha Hb Hname.
  destruct (generate_calendars_inv self w paths w' H)
    as (q & ws & g & n & anniv & _ & _ & _ & _ & HF2 & -> & -> & _).
  destruct (Forall2_lookup_l _ _ _ _ _ HF2 Ha) as ([fa ea] & Hia & Hfa).
  destruct (Forall2_lookup_l _ _ _ _ _ HF2 Hb) as ([fb eb] & Hjb & Hfb).
  apply anniversary_event_filename in Hfa, Hfb. cbn [fst] in Hfa, Hfb.
  assert (Hpath : saved_path self (fa, ea) = saved_path self (fb, eb)).
  { unfold saved_path. cbn [fst]. now rewrite Hfa, Hfb, Hname. }
  exists (saved_path self (fa, ea)), ea, eb.
  rewrite !List.map_app, <- !Nat.add_assoc.
  rewrite !(lookup_after (files w)) by reflexivity.
  rewrite !(lookup_after _ _ 4) by reflexivity.
  rewrite !lookup_map, Hia, Hjb. cbn [fmap option_fmap option_map snd].
  now rewrite Hpath.
Qed.

Lemma same_name_anniversaries_share_a_file_witness :
  let a := mkAnniversary (PyStr "Grandmother") (PyStr "") (PyInt 3) (PyInt 15)
                         (PyStr "") in
  let b := mkAnniversary (PyStr "grandmother") (PyStr "") (PyInt 6) (PyInt 1)
                         (PyStr "") in
  let self := append_anniversary (append_anniversary (calendar_of_year 2025) a) b in
  exists paths w',
    @generate_calendars ChineseCalendar.converter ExampleFileSystem.filesystem
      self ready_world = Ok (paths, w')
    /\ exists path ea eb,
         paths !! (4 + 0)%nat = Some path /\ paths !! (4 + 1)%nat = Some path
         /\ files w' !! (length (files ready_world) + 4 + 0)%nat = Some (path, [ea])
         /\ files w' !! (length (files ready_world) + 4 + 1)%nat = Some (path, [eb]).
Proof.
  cbv zeta. eexists _, _.
  assert (E : forall (P Q : Prop), P -> (P -> Q) -> P /\ Q) by tauto.
  apply E; clear E; [vm_compute; reflexivity |].
  intros H.
  exact (same_name_anniversaries_share_a_file ChineseCalendar.converter
           ExampleFileSystem.filesystem
           _ ready_world _ _ 0%nat 1%nat _ _ H eq_refl eq_refl eq_refl).
Defined.

Section MainProgram.

Context {converter : Converter} {filesystem : FileSystem}.

(** The loop over the items changes neither the target year, the time
    zone nor the output directory. *)
Lemma load_entries_keeps (entries : list item)
    (self self' : ChineseMemorialCalendar) (w w' : world) :
  load_entries entries self w = Ok (self', w') ->
  year self' = year self /\ timezone self' = timezone self
  /\ output_dir self' = output_dir self.
Proof.
  revert self w. induction entries as [| entry rest IH]; intros self w.
  - cbn. intros [= <- <-]. auto.
  - cbn [load_entries].
    destruct (anniversary_of_item entry) as [a | []]; try discriminate.
    + intros H. apply IH in H. exact H.
    + intros H. apply IH in H. exact H.
Qed.

Lemma load_anniversaries_config_keeps (self self' : ChineseMemorialCalendar)
    (w w' : world) (config_file_name : string) (file : config_file) :
  load_anniversaries_config self w config_file_name file = Ok (self', w') ->
  year self' = year self /\ timezone self' = timezone self
  /\ output_dir self' = output_dir self.
Proof.
  unfold load_anniversaries_config.
  destruct file as [| e | msg | [config |]];
    try discriminate; try (intros [= <- <-]; now auto).
  destruct (if decide (config = ∅) then None else config !! "anniversaries")
    as [n |]; [| intros [= <- <-]; now auto].
  destruct (iterate n) as [entries |]; cbn [bind]; [| discriminate].
  apply load_entries_keeps.
Qed.

(** [__init__] returns the object once the directory is granted, and
    never for the empty path. *)
Lemma init_inv (w : world) (local_tz : datetime.tzinfo) (y : Z)
    (out : string) (self : ChineseMemorialCalendar) (w1 : world) :
  __init__ w local_tz y out = Ok (self, w1) ->
  self = mkSelf y local_tz [] out
  /\ w1 = mkWorld (stdout w) (files w) (dirs w ++ [out])%list
  /\ out <> "".
Proof.
  unfold __init__, os_makedirs.
  destruct (makedirs_raises w out) eqn:E; cbn [bind]; [discriminate |].
  intros [= <- <-]. repeat split.
  intros ->. destruct (makedirs_empty w) as [e He]. congruence.
Qed.

End MainProgram.

(** X19.  Whenever [main] returns, having found no configuration file, it
    has created the output directory (by default [calendar_events], never
    the empty path), written there exactly the four files of the fixed
    occasions of the requested year (by default the current year), and
    printed the warning that the configuration was not found, one line for
    each saved event, the header, the four file names without their
    directory, and the closing hint. *)
Theorem main_without_config_file
    (converter : Converter) (filesystem : FileSystem)
    (env : environment) (o : options) (w w' : world) :
  let args := parse_args env o in
  let self :=
    mkSelf (argparse.year args) (local_tz env) [] (argparse.output_dir args) in
  read_config env (argparse.config args) = FileNotFound ->
  main env o w = Ok w' ->
  exists qingming winter_solstice ghost_month nye,
    let events :=
      [("qingming.ics", qingming); ("winter_solstice.ics", winter_solstice);
       ("ghost_month.ics", ghost_month); ("chinese_new_year_eve.ics", nye)] in
    argparse.year args = default (now_year env) (opt_year o)
    /\ argparse.output_dir args = default "calendar_events" (opt_output_dir o)
    /\ argparse.config args = default "anniversaries.yml" (opt_config o)
    /\ argparse.output_dir args <> ""
    /\ generate_solar_calendar_events self
       = Ok [("qingming.ics", qingming); ("winter_solstice.ics", winter_solstice)]
    /\ generate_lunar_calendar_events self
       = Ok [("ghost_month.ics", ghost_month); ("chinese_new_year_eve.ics", nye)]
    /\ dirs w' = (dirs w ++ [argparse.output_dir args])%list
    /\ files w'
       = (files w
          ++ map (fun fe => (os_path_join (argparse.output_dir args) (fst fe),
                             [snd fe])) events)%list
    /\ stdout w'
       = (stdout w
          ++ ["Warning: Config file " +:+ argparse.config args +:+ " not found"]
          ++ map saved_line events
          ++ [nl +:+ "Generated calendar files in "
              +:+ argparse.output_dir args +:+ ":";
              "- qingming.ics"; "- winter_solstice.ics"; "- ghost_month.ics";
              "- chinese_new_year_eve.ics";
              nl +:+ "You can import these files into Google Calendar or any other calendar application."])%list.
Proof.
  intros args self Hread. unfold main. cbv zeta. fold args.
  destruct (__init__ w (local_tz env) (argparse.year args)
              (argparse.output_dir args)) as [[self0 w1] |] eqn:Einit;
    cbn [bind fst snd]; [| discriminate].
  apply init_inv in Einit as (-> & -> & Hout). fold self.
  rewrite Hread. cbn [load_anniversaries_config bind fst snd].
  destruct (generate_calendars self _) as [[paths w2] |] eqn:Egen;
    cbn [bind fst snd]; [| discriminate].
  apply generate_calendars_inv in Egen
    as (q & ws & g & n & anniv & Hs & Hl & Ha & _ & HF2 & -> & Hf & Hso & Hd).
  assert (anniv = []) as -> by (now inversion HF2).
  intros [= <-].
  exists q, ws, g, n. cbv zeta.
  do 3 (split; [reflexivity |]). split; [exact Hout |].
  split; [exact Hs |]. split; [exact Hl |].
  cbn [print stdout files dirs].
  rewrite Hf, Hso, Hd. cbn [print stdout files dirs map app fst snd].
  split; [reflexivity |]. split; [reflexivity |].
  rewrite <- !app_assoc. f_equal. cbn [app]. do 5 f_equal.
  unfold saved_path. cbn [fst].
  change (Str.replace ","%char "" "qingming.ics") with "qingming.ics".
  change (Str.replace ","%char "" "winter_solstice.ics") with "winter_solstice.ics".
  change (Str.replace ","%char "" "ghost_month.ics") with "ghost_month.ics".
  change (Str.replace ","%char "" "chinese_new_year_eve.ics")
    with "chinese_new_year_eve.ics".
  change (output_dir self) with (argparse.output_dir args).
  rewrite !basename_join by reflexivity. reflexivity.
Qed.

Lemma main_without_config_file_witness :
  exists w',
    @main ChineseCalendar.converter ExampleFileSystem.filesystem example_env
      no_options empty_world = Ok w'
    /\ exists qingming winter_solstice ghost_month nye,
      let events :=
        [("qingming.ics", qingming); ("winter_solstice.ics", winter_solstice);
         ("ghost_month.ics", ghost_month); ("chinese_new_year_eve.ics", nye)] in
      2024 = default (now_year example_env) (opt_year no_options)
      /\ "calendar_events" = default "calendar_events" (opt_output_dir no_options)
      /\ "anniversaries.yml" = default "anniversaries.yml" (opt_config no_options)
      /\ "calendar_events" <> ""
      /\ generate_solar_calendar_events (mkSelf 2024 utc8 [] "calendar_events")
         = Ok [("qingming.ics", qingming); ("winter_solstice.ics", winter_solstice)]
      /\ @generate_lunar_calendar_events ChineseCalendar.converter
           (mkSelf 2024 utc8 [] "calendar_events")
         = Ok [("ghost_month.ics", ghost_month); ("chinese_new_year_eve.ics", nye)]
      /\ dirs w' = (dirs empty_world ++ ["calendar_events"])%list
      /\ files w'
         = (files empty_world
            ++ map (fun fe => (os_path_join "calendar_events" (fst fe), [snd fe]))
                   events)%list
      /\ stdout w'
         = (stdout empty_world
            ++ ["Warning: Config file " +:+ "anniversaries.yml" +:+ " not found"]
            ++ map saved_line events
            ++ [nl +:+ "Generated calendar files in " +:+ "calendar_events" +:+ ":";
                "- qingming.ics"; "- winter_solstice.ics"; "- ghost_month.ics";
                "- chinese_new_year_eve.ics";
                nl +:+ "You can import these files into Google Calendar or any other calendar application."])%list.
Proof.
  eexists.
  assert (E : forall (P Q : Prop), P -> (P -> Q) -> P /\ Q) by tauto.
  apply E; clear E; [vm_compute; reflexivity |].
  intros H.
  exact (main_without_config_file ChineseCalendar.converter
           ExampleFileSystem.filesystem example_env no_options empty_world _
           eq_refl H).
Defined.

(** X20.  For a year outside 1 to 9999 [main] never returns: it raises.
    When the output directory could be created and the configuration was
    loaded without an exception, the exception is that of the first date
    of the year, which cannot be made: [ValueError] for a year that is a C
    integer, [OverflowError] beyond. *)
Theorem main_year_out_of_range
    (converter : Converter) (filesystem : FileSystem)
    (env : environment) (o : options) (w : world) :
  let args := parse_args env o in
  ~ (datetime.MINYEAR <= argparse.year args <= datetime.MAXYEAR) ->
  exists e,
    main env o w = Raise e
    /\ forall self w1 self' w2,
         __init__ w (local_tz env) (argparse.year args) (argparse.output_dir args)
         = Ok (self, w1) ->
         load_anniversaries_config self w1 (argparse.config args)
           (read_config env (argparse.config args)) = Ok (self', w2) ->
         exists msg,
           e = if datetime.fits_c_int (argparse.year args)
               then ValueError msg else OverflowError msg.
Proof.
  intros args Hy. unfold main. cbv zeta. fold args.
  destruct (__init__ w (local_tz env) (argparse.year args)
              (argparse.output_dir args)) as [[self w1] | e] eqn:Einit;
    cbn [bind fst snd]; [| exists e; split; [reflexivity | intros ? ? ? ? [=]]].
  destruct (load_anniversaries_config self w1 _ _) as [[self' w2] | e] eqn:Eload;
    cbn [bind fst snd].
  2:{ exists e. split; [reflexivity |].
      intros self0 w0 self0' w0' [= <- <-] H. rewrite Eload in H. discriminate. }
  pose proof (init_inv _ _ _ _ _ _ Einit) as (Hself & _ & _).
  pose proof (load_anniversaries_config_keeps _ _ _ _ _ _ Eload) as (Hyear & _ & _).
  assert (Hy' : ~ (datetime.MINYEAR <= year self' <= datetime.MAXYEAR)).
  { rewrite Hyear, Hself. exact Hy. }
  destruct (generate_solar_calendar_events_out_of_range self' Hy') as [msg Hr].
  unfold generate_calendars. rewrite Hr. cbn [bind].
  eexists. split; [reflexivity |].
  intros self0 w0 self0' w0' [= <- <-] _.
  exists msg. now rewrite Hyear, Hself.
Qed.

Lemma main_year_out_of_range_witness :
  exists e,
    @main ChineseCalendar.converter ExampleFileSystem.filesystem example_env
      (mkOptions (Some 0) None None) empty_world = Raise e
    /\ forall self w1 self' w2,
         @__init__ ExampleFileSystem.filesystem empty_world utc8 0 "calendar_events"
         = Ok (self, w1) ->
         load_anniversaries_config self w1 "anniversaries.yml" FileNotFound
         = Ok (self', w2) ->
         exists msg,
           e = if datetime.fits_c_int 0 then ValueError msg else OverflowError msg.
Proof.
  apply (main_year_out_of_range ChineseCalendar.converter
           ExampleFileSystem.filesystem example_env
           (mkOptions (Some 0) None None) empty_world).
  vm_compute. intros [H _]. now apply H.
Defined.
